(** * Carpark vehicle spawner: spawn-position generation

    A shallow embedding of the spawn-position code of [spawn_carpark.py]
    and [spawn_carpark_static.py] (class [CarparkVehicleSpawner]) and the
    properties of it that the specification states.

    Numbers.  Python floats are modelled as real numbers ([R]), so every
    statement below is about exact arithmetic; rounding, overflow, infinities
    and NaN are outside the model.  Python integers are [Z].

    Effects.  The code raises exceptions, prints a warning and draws from the
    ambient random generator.  Exceptions are an explicit outcome; the
    generator is an oracle answering the k-th call, and the number of calls
    made so far is threaded through the code together with the printed
    lines. *)

From Stdlib Require Import Reals Lra Lia ZArith String Ascii Bool Zfloor List.
Import ListNotations.

Local Open Scope R_scope.

(** ** Python values and outcomes *)

Inductive exn : Type :=
| ValueError (msg : string)
| ZeroDivisionError.

(** Lines written by [print]; the numbers are kept, the wording is not. *)
Inductive stdout_line : Type :=
| CapacityWarning (requested max_fit : Z).

(** [OutOfFuel] is the outcome of a loop that was cut by its iteration bound.
    It is not a Python outcome: [pack_positions_returns] shows it never
    occurs for the bound the embedding uses. *)
Inductive outcome (A : Type) : Type :=
| Ok (a : A)
| Raise (e : exn)
| OutOfFuel.
Arguments Ok {A} a.
Arguments Raise {A} e.
Arguments OutOfFuel {A}.

(** State threaded through a call: how many draws the random generator has
    served, and what was printed. *)
Record St : Type := mkSt {
  rng_calls : nat;
  stdout : list stdout_line
}.

Definition M (A : Type) : Type := St -> outcome (A * St).

Definition ret {A} (a : A) : M A := fun s => Ok (a, s).

Definition bind {A B} (m : M A) (k : A -> M B) : M B :=
  fun s => match m s with
           | Ok (a, s') => k a s'
           | Raise e => Raise e
           | OutOfFuel => OutOfFuel
           end.

Definition raise {A} (e : exn) : M A := fun _ => Raise e.

Definition out_of_fuel {A} : M A := fun _ => OutOfFuel.

Definition print (l : stdout_line) : M unit :=
  fun s => Ok (tt, mkSt (rng_calls s) (stdout s ++ [l])).

Declare Scope py_scope.
Delimit Scope py_scope with py.
Notation "x <- m ;; k" := (bind m (fun x => k))
  (at level 61, m at next level, right associativity) : py_scope.
Notation "' pat <- m ;; k" := (bind m (fun x => match x with pat => k end))
  (at level 61, pat pattern, m at next level, right associativity) : py_scope.
Notation "m ;;; k" := (bind m (fun _ => k))
  (at level 61, right associativity) : py_scope.

(** ** The [math] module *)

(** Float division: [a / b] raises [ZeroDivisionError] when [b] is zero. *)
Definition py_div (a b : R) : outcome R :=
  if Req_dec_T b 0 then Raise ZeroDivisionError else Ok (a / b).

Definition lift {A} (r : outcome A) : M A :=
  fun s => match r with
           | Ok a => Ok (a, s)
           | Raise e => Raise e
           | OutOfFuel => OutOfFuel
           end.

(** [int(x)] on a float truncates toward zero. *)
Definition py_int (x : R) : Z :=
  if Rle_dec 0 x then Zfloor x else Zceil x.

(** [math.atan2(y, x)]: the angle of the point [(x, y)], in (-pi, pi]. *)
Definition atan2 (y x : R) : R :=
  if Rlt_dec 0 x then atan (y / x)
  else if Rlt_dec x 0 then
         (if Rle_dec 0 y then atan (y / x) + PI else atan (y / x) - PI)
  else if Rlt_dec 0 y then PI / 2
  else if Rlt_dec y 0 then - (PI / 2)
  else 0.

(** [math.degrees(x)]. *)
Definition degrees (x : R) : R := x * (180 / PI).

(** ** The [random] module *)

(** The generator as an oracle: [rs_random k] is what [random.random()]
    returns when it is the [k]-th draw of the run, [rs_randbelow k n] what
    the generator's [_randbelow(n)] returns there.  The ranges are those of
    Python's generator: [0 <= random() < 1] and [0 <= _randbelow(n) < n]. *)
Record RandomSource : Type := mkRandomSource {
  rs_random : nat -> R;
  rs_randbelow : nat -> nat -> nat;
  rs_random_range : forall k, 0 <= rs_random k < 1;
  rs_randbelow_range : forall k n, (0 < n)%nat -> (rs_randbelow k n < n)%nat
}.

(** Two concrete sources: every draw is 0 (resp. 1/2), every index is 0. *)
Definition zero_source : RandomSource :=
  mkRandomSource (fun _ => 0) (fun _ _ => O)
                 (fun _ => ltac:(lra)) (fun _ _ H => H).

Definition half_source : RandomSource :=
  mkRandomSource (fun _ => 1 / 2) (fun _ _ => O)
                 (fun _ => ltac:(lra)) (fun _ _ H => H).

Section Random.
Variable rs : RandomSource.

(** [random.uniform(a, b)] is [a + (b - a) * self.random()]. *)
Definition uniform (a b : R) : M R :=
  fun s => Ok (a + (b - a) * rs_random rs (rng_calls s),
               mkSt (S (rng_calls s)) (stdout s)).

(** [random.choice(seq)] is [seq[self._randbelow(len(seq))]]; [d] stands
    for the element of an out-of-range index, which [rs_randbelow_range]
    excludes for a non-empty [seq]. *)
Definition choice {A} (d : A) (seq : list A) : M A :=
  fun s => Ok (nth (rs_randbelow rs (rng_calls s) (length seq)) seq d,
               mkSt (S (rng_calls s)) (stdout s)).
End Random.

(** ** The [carla] types the code uses *)

Record Location : Type := mkLocation { loc_x : R; loc_y : R; loc_z : R }.
Record Vector3D : Type := mkVector3D { vec_x : R; vec_y : R; vec_z : R }.
Record Rotation : Type := mkRotation { pitch : R; yaw : R; roll : R }.
Record Transform : Type := mkTransform {
  location : Location;
  rotation : Rotation
}.

(** A hit of [world.cast_ray]. *)
Record LabelledPoint : Type := mkLabelledPoint {
  lp_location : Location;
  lp_label : nat
}.

(** The part of [carla.World] the positions depend on. *)
Record World : Type := mkWorld {
  cast_ray : Location -> Location -> list LabelledPoint
}.

(** A vehicle blueprint: its [id] and, opaque to the code here, the rest. *)
Record ActorBlueprint : Type := mkActorBlueprint {
  bp_id : string;
  bp_tags : list string
}.

(** ** Python strings

    Strings are byte strings; [str.lower] maps the letters A-Z to a-z and
    leaves every other character alone, which is what it does on the ASCII
    names of blueprints and keywords. *)

Definition lower_ascii (c : ascii) : ascii :=
  let n := nat_of_ascii c in
  if ((65 <=? n) && (n <=? 90))%nat then ascii_of_nat (n + 32) else c.

Fixpoint lower (s : string) : string :=
  match s with
  | EmptyString => EmptyString
  | String c s' => String (lower_ascii c) (lower s')
  end.

(** [needle in hay]: a left-to-right search for the first position at which
    [needle] is a prefix of the rest. *)
Fixpoint str_in (needle hay : string) : bool :=
  if String.prefix needle hay then true
  else match hay with
       | EmptyString => false
       | String _ hay' => str_in needle hay'
       end.

(** ** [spawn_carpark.py] *)

Module SpawnCarpark.

(** The attributes of [CarparkVehicleSpawner] set by [__init__]
    ([self.vehicles], the list of spawned actors, plays no part here). *)
Record CarparkVehicleSpawner : Type := mkCarparkVehicleSpawner {
  world : World;
  spawn_height : R;
  parking_offset : R
}.

Local Open Scope py_scope.
Local Open Scope string_scope.

Section Methods.
Variable rs : RandomSource.
Variable self : CarparkVehicleSpawner.

Definition get_ground_height (loc : Location) : R :=
  let start_location :=
    mkLocation (loc_x loc) (loc_y loc) (loc_z loc + 1000) in
  let end_location :=
    mkLocation (loc_x loc) (loc_y loc) (loc_z loc - 1000) in
  let hits := cast_ray (world self) start_location end_location in
  match hits with
  | hit :: _ => loc_z (lp_location hit)
  | [] => loc_z loc
  end.

(** Returns [(perp_vec, line_dir)]. *)
Definition compute_perpendicular_vector (start_loc end_loc : Location)
  : M (Vector3D * Vector3D) :=
  let line_vec := mkVector3D (loc_x end_loc - loc_x start_loc)
                             (loc_y end_loc - loc_y start_loc)
                             (loc_z end_loc - loc_z start_loc) in
  let line_length :=
    sqrt (vec_x line_vec ^ 2 + vec_y line_vec ^ 2 + vec_z line_vec ^ 2) in
  if Rlt_dec line_length 0.001 then
    ret (mkVector3D 1 0 0, mkVector3D 1 0 0)
  else
    dx <- lift (py_div (vec_x line_vec) line_length) ;;
    dy <- lift (py_div (vec_y line_vec) line_length) ;;
    dz <- lift (py_div (vec_z line_vec) line_length) ;;
    let line_dir := mkVector3D dx dy dz in
    let perp_vec := mkVector3D (- vec_y line_dir) (vec_x line_dir) 0 in
    let perp_length := sqrt (vec_x perp_vec ^ 2 + vec_y perp_vec ^ 2) in
    perp_vec <- (if Rgt_dec perp_length 0.001 then
                   px <- lift (py_div (vec_x perp_vec) perp_length) ;;
                   py <- lift (py_div (vec_y perp_vec) perp_length) ;;
                   ret (mkVector3D px py 0)
                 else ret (mkVector3D 1 0 0)) ;;
    ret (perp_vec, line_dir).

(** The [for i in range(num_vehicles)] loop (lines 171-179), [iters]
    iterations left; the state of the loop is [(positions, current_pos)]. *)
Fixpoint primary_loop (line_length min_spacing : R) (iters : nat)
         (positions : list R) (current_pos : R) : M (list R * R) :=
  match iters with
  | O => ret (positions, current_pos)
  | S iters' =>
      u <- uniform rs 0 min_spacing ;;
      let spacing := min_spacing + u in
      if Rgt_dec (current_pos + spacing) line_length then
        ret (positions, current_pos)
      else
        primary_loop line_length min_spacing iters'
                     (positions ++ [current_pos]) (current_pos + spacing)
  end.

(** The [while] loop (lines 182-188), cut after [fuel] tests of its
    condition. *)
Fixpoint backfill_loop (line_length min_spacing : R) (num_vehicles : Z)
         (fuel : nat) (positions : list R) (current_pos : R)
  : M (list R * R) :=
  match fuel with
  | O => out_of_fuel
  | S fuel' =>
      if (Z.of_nat (length positions) <? num_vehicles)%Z then
        if Rlt_dec current_pos line_length then
          u <- uniform rs 0 (min_spacing * 0.5) ;;
          let spacing := min_spacing + u in
          if Rle_dec (current_pos + spacing) line_length then
            backfill_loop line_length min_spacing num_vehicles fuel'
                          (positions ++ [current_pos])
                          (current_pos + spacing)
          else ret (positions, current_pos)
        else ret (positions, current_pos)
      else ret (positions, current_pos)
  end.

(** Lines 159-188 of [generate_spawn_positions]: the capacity clamp and
    the two loops that fill [positions].  The [while] loop appends at
    each turn it does not leave, so it tests its condition at most
    [num_vehicles + 1] times. *)
Definition pack_positions (line_length : R) (num_vehicles : Z)
           (min_spacing : R) : M (list R) :=
  q <- lift (py_div line_length min_spacing) ;;
  let max_vehicles := py_int q in
  num_vehicles <- (if (num_vehicles >? max_vehicles)%Z then
                     print (CapacityWarning num_vehicles max_vehicles) ;;;
                     ret max_vehicles
                   else ret num_vehicles) ;;
  let positions := [] in
  let current_pos := 0 in
  '(positions, current_pos) <-
    primary_loop line_length min_spacing (Z.to_nat num_vehicles)
                 positions current_pos ;;
  '(positions, current_pos) <-
    backfill_loop line_length min_spacing num_vehicles
                  (S (Z.to_nat num_vehicles)) positions current_pos ;;
  ret positions.

(** The body of [for pos_along_line in positions] (lines 192-237); the
    result is the pair appended to [spawn_transforms]. *)
Definition spawn_transform_at (start_loc end_loc : Location)
           (perp_vec line_dir : Vector3D) (sides_to_use : list string)
           (line_length : R) (pos_along_line : R)
  : M (Transform * string) :=
  side <- (if (1 <? length sides_to_use)%nat
           then choice rs EmptyString sides_to_use
           else ret (nth 0 sides_to_use EmptyString)) ;;
  t <- (if Rgt_dec line_length 0
        then lift (py_div pos_along_line line_length)
        else ret 0) ;;
  let line_pos :=
    mkLocation (loc_x start_loc + t * (loc_x end_loc - loc_x start_loc))
               (loc_y start_loc + t * (loc_y end_loc - loc_y start_loc))
               (loc_z start_loc + t * (loc_z end_loc - loc_z start_loc)) in
  let offset_direction := if side =? "right" then 1 else -1 in
  let parking_pos :=
    mkLocation
      (loc_x line_pos + offset_direction * parking_offset self * vec_x perp_vec)
      (loc_y line_pos + offset_direction * parking_offset self * vec_y perp_vec)
      (loc_z line_pos) in
  let ground_z := get_ground_height parking_pos in
  let parking_pos :=
    mkLocation (loc_x parking_pos) (loc_y parking_pos)
               (ground_z + spawn_height self) in
  let base_yaw := degrees (atan2 (vec_y line_dir) (vec_x line_dir)) in
  let yaw := if side =? "left" then base_yaw + 90
             else if side =? "right" then base_yaw - 90
             else (if side =? "left" then base_yaw + 90 else base_yaw - 90) in
  jitter <- uniform rs (-2) 2 ;;
  let yaw := yaw + jitter in
  ret (mkTransform parking_pos (mkRotation 0 yaw 0), side).

(** The loop over [positions], appending to [spawn_transforms]. *)
Fixpoint transforms_loop (start_loc end_loc : Location)
         (perp_vec line_dir : Vector3D) (sides_to_use : list string)
         (line_length : R) (positions : list R)
         (spawn_transforms : list (Transform * string))
  : M (list (Transform * string)) :=
  match positions with
  | [] => ret spawn_transforms
  | pos_along_line :: rest =>
      item <- spawn_transform_at start_loc end_loc perp_vec line_dir
                                 sides_to_use line_length pos_along_line ;;
      transforms_loop start_loc end_loc perp_vec line_dir sides_to_use
                      line_length rest (spawn_transforms ++ [item])
  end.

Definition generate_spawn_positions (start_loc end_loc : Location)
           (side_type : string) (num_vehicles : Z) (min_spacing : R)
  : M (list (Transform * string)) :=
  let spawn_transforms := [] in
  '(perp_vec, line_dir) <- compute_perpendicular_vector start_loc end_loc ;;
  sides_to_use <-
    (if side_type =? "left" then ret ["left"]
     else if side_type =? "right" then ret ["right"]
     else if side_type =? "both" then ret ["left"; "right"]
     else raise (ValueError "Invalid side_type")) ;;
  let line_length :=
    sqrt ((loc_x end_loc - loc_x start_loc) ^ 2 +
          (loc_y end_loc - loc_y start_loc) ^ 2 +
          (loc_z end_loc - loc_z start_loc) ^ 2) in
  positions <- pack_positions line_length num_vehicles min_spacing ;;
  transforms_loop start_loc end_loc perp_vec line_dir sides_to_use
                  line_length positions spawn_transforms.

(** The [for bp in vehicle_blueprints] loop (lines 256-261), appending to
    [filtered]. *)
Fixpoint filter_loop (exclude_keywords : list string)
         (vehicle_blueprints filtered : list ActorBlueprint)
  : list ActorBlueprint :=
  match vehicle_blueprints with
  | [] => filtered
  | bp :: rest =>
      let bp_id_lower := lower (bp_id bp) in
      let is_excluded :=
        existsb (fun keyword => str_in (lower keyword) bp_id_lower)
                exclude_keywords in
      if negb is_excluded
      then filter_loop exclude_keywords rest (filtered ++ [bp])
      else filter_loop exclude_keywords rest filtered
  end.

(** An absent [exclude_keywords] (the default, [None]) is [None]. *)
Definition filter_vehicles_for_line
           (vehicle_blueprints : list ActorBlueprint)
           (exclude_keywords : option (list string))
  : list ActorBlueprint :=
  let exclude_keywords := match exclude_keywords with
                          | None => []
                          | Some kws => kws
                          end in
  filter_loop exclude_keywords vehicle_blueprints [].
End Methods.

End SpawnCarpark.

(** ** [spawn_carpark_static.py] *)

Module SpawnCarparkStatic.

(** The attributes set by this variant's [__init__]: those of the other
    variant and the static-prop settings. *)
Record CarparkVehicleSpawner : Type := mkCarparkVehicleSpawner {
  world : World;
  spawn_height : R;
  parking_offset : R;
  use_static_props : bool;
  prop_mass : R;
  static_prop_bp : option ActorBlueprint
}.

Local Open Scope py_scope.
Local Open Scope string_scope.

Section Methods.
Variable rs : RandomSource.
Variable self : CarparkVehicleSpawner.

Definition get_ground_height (loc : Location) : R :=
  let start_location :=
    mkLocation (loc_x loc) (loc_y loc) (loc_z loc + 1000) in
  let end_location :=
    mkLocation (loc_x loc) (loc_y loc) (loc_z loc - 1000) in
  let hits := cast_ray (world self) start_location end_location in
  match hits with
  | hit :: _ => loc_z (lp_location hit)
  | [] => loc_z loc
  end.

(** Returns [(perp_vec, line_dir)]. *)
Definition compute_perpendicular_vector (start_loc end_loc : Location)
  : M (Vector3D * Vector3D) :=
  let line_vec := mkVector3D (loc_x end_loc - loc_x start_loc)
                             (loc_y end_loc - loc_y start_loc)
                             (loc_z end_loc - loc_z start_loc) in
  let line_length :=
    sqrt (vec_x line_vec ^ 2 + vec_y line_vec ^ 2 + vec_z line_vec ^ 2) in
  if Rlt_dec line_length 0.001 then
    ret (mkVector3D 1 0 0, mkVector3D 1 0 0)
  else
    dx <- lift (py_div (vec_x line_vec) line_length) ;;
    dy <- lift (py_div (vec_y line_vec) line_length) ;;
    dz <- lift (py_div (vec_z line_vec) line_length) ;;
    let line_dir := mkVector3D dx dy dz in
    let perp_vec := mkVector3D (- vec_y line_dir) (vec_x line_dir) 0 in
    let perp_length := sqrt (vec_x perp_vec ^ 2 + vec_y perp_vec ^ 2) in
    perp_vec <- (if Rgt_dec perp_length 0.001 then
                   px <- lift (py_div (vec_x perp_vec) perp_length) ;;
                   py <- lift (py_div (vec_y perp_vec) perp_length) ;;
                   ret (mkVector3D px py 0)
                 else ret (mkVector3D 1 0 0)) ;;
    ret (perp_vec, line_dir).

(** The [for i in range(num_vehicles)] loop (lines 198-206), [iters]
    iterations left; the state of the loop is [(positions, current_pos)]. *)
Fixpoint primary_loop (line_length min_spacing : R) (iters : nat)
         (positions : list R) (current_pos : R) : M (list R * R) :=
  match iters with
  | O => ret (positions, current_pos)
  | S iters' =>
      u <- uniform rs 0 min_spacing ;;
      let spacing := min_spacing + u in
      if Rgt_dec (current_pos + spacing) line_length then
        ret (positions, current_pos)
      else
        primary_loop line_length min_spacing iters'
                     (positions ++ [current_pos]) (current_pos + spacing)
  end.

(** The [while] loop (lines 209-215), cut after [fuel] tests of its
    condition. *)
Fixpoint backfill_loop (line_length min_spacing : R) (num_vehicles : Z)
         (fuel : nat) (positions : list R) (current_pos : R)
  : M (list R * R) :=
  match fuel with
  | O => out_of_fuel
  | S fuel' =>
      if (Z.of_nat (length positions) <? num_vehicles)%Z then
        if Rlt_dec current_pos line_length then
          u <- uniform rs 0 (min_spacing * 0.5) ;;
          let spacing := min_spacing + u in
          if Rle_dec (current_pos + spacing) line_length then
            backfill_loop line_length min_spacing num_vehicles fuel'
                          (positions ++ [current_pos])
                          (current_pos + spacing)
          else ret (positions, current_pos)
        else ret (positions, current_pos)
      else ret (positions, current_pos)
  end.

(** Lines 186-215 of [generate_spawn_positions]: the capacity clamp and
    the two loops that fill [positions].  The [while] loop appends at
    each turn it does not leave, so it tests its condition at most
    [num_vehicles + 1] times. *)
Definition pack_positions (line_length : R) (num_vehicles : Z)
           (min_spacing : R) : M (list R) :=
  q <- lift (py_div line_length min_spacing) ;;
  let max_vehicles := py_int q in
  num_vehicles <- (if (num_vehicles >? max_vehicles)%Z then
                     print (CapacityWarning num_vehicles max_vehicles) ;;;
                     ret max_vehicles
                   else ret num_vehicles) ;;
  let positions := [] in
  let current_pos := 0 in
  '(positions, current_pos) <-
    primary_loop line_length min_spacing (Z.to_nat num_vehicles)
                 positions current_pos ;;
  '(positions, current_pos) <-
    backfill_loop line_length min_spacing num_vehicles
                  (S (Z.to_nat num_vehicles)) positions current_pos ;;
  ret positions.

(** The body of [for pos_along_line in positions] (lines 219-264); the
    result is the pair appended to [spawn_transforms]. *)
Definition spawn_transform_at (start_loc end_loc : Location)
           (perp_vec line_dir : Vector3D) (sides_to_use : list string)
           (line_length : R) (pos_along_line : R)
  : M (Transform * string) :=
  side <- (if (1 <? length sides_to_use)%nat
           then choice rs EmptyString sides_to_use
           else ret (nth 0 sides_to_use EmptyString)) ;;
  t <- (if Rgt_dec line_length 0
        then lift (py_div pos_along_line line_length)
        else ret 0) ;;
  let line_pos :=
    mkLocation (loc_x start_loc + t * (loc_x end_loc - loc_x start_loc))
               (loc_y start_loc + t * (loc_y end_loc - loc_y start_loc))
               (loc_z start_loc + t * (loc_z end_loc - loc_z start_loc)) in
  let offset_direction := if side =? "right" then 1 else -1 in
  let parking_pos :=
    mkLocation
      (loc_x line_pos + offset_direction * parking_offset self * vec_x perp_vec)
      (loc_y line_pos + offset_direction * parking_offset self * vec_y perp_vec)
      (loc_z line_pos) in
  let ground_z := get_ground_height parking_pos in
  let parking_pos :=
    mkLocation (loc_x parking_pos) (loc_y parking_pos)
               (ground_z + spawn_height self) in
  let base_yaw := degrees (atan2 (vec_y line_dir) (vec_x line_dir)) in
  let yaw := if side =? "left" then base_yaw + 90
             else if side =? "right" then base_yaw - 90
             else (if side =? "left" then base_yaw + 90 else base_yaw - 90) in
  jitter <- uniform rs (-2) 2 ;;
  let yaw := yaw + jitter in
  ret (mkTransform parking_pos (mkRotation 0 yaw 0), side).

(** The loop over [positions], appending to [spawn_transforms]. *)
Fixpoint transforms_loop (start_loc end_loc : Location)
         (perp_vec line_dir : Vector3D) (sides_to_use : list string)
         (line_length : R) (positions : list R)
         (spawn_transforms : list (Transform * string))
  : M (list (Transform * string)) :=
  match positions with
  | [] => ret spawn_transforms
  | pos_along_line :: rest =>
      item <- spawn_transform_at start_loc end_loc perp_vec line_dir
                                 sides_to_use line_length pos_along_line ;;
      transforms_loop start_loc end_loc perp_vec line_dir sides_to_use
                      line_length rest (spawn_transforms ++ [item])
  end.

Definition generate_spawn_positions (start_loc end_loc : Location)
           (side_type : string) (num_vehicles : Z) (min_spacing : R)
  : M (list (Transform * string)) :=
  let spawn_transforms := [] in
  '(perp_vec, line_dir) <- compute_perpendicular_vector start_loc end_loc ;;
  sides_to_use <-
    (if side_type =? "left" then ret ["left"]
     else if side_type =? "right" then ret ["right"]
     else if side_type =? "both" then ret ["left"; "right"]
     else raise (ValueError "Invalid side_type")) ;;
  let line_length :=
    sqrt ((loc_x end_loc - loc_x start_loc) ^ 2 +
          (loc_y end_loc - loc_y start_loc) ^ 2 +
          (loc_z end_loc - loc_z start_loc) ^ 2) in
  positions <- pack_positions line_length num_vehicles min_spacing ;;
  transforms_loop start_loc end_loc perp_vec line_dir sides_to_use
                  line_length positions spawn_transforms.

End Methods.

End SpawnCarparkStatic.

(** * Vocabulary of the specification *)

(** The Euclidean distance between the ends of a segment. *)
Definition segment_length (start_loc end_loc : Location) : R :=
  sqrt ((loc_x end_loc - loc_x start_loc) ^ 2 +
        (loc_y end_loc - loc_y start_loc) ^ 2 +
        (loc_z end_loc - loc_z start_loc) ^ 2).

(** [chain lo hi l]: every element of [l] after the first exceeds the one
    before it by at least [lo] and by less than [hi]. *)
Inductive chain (lo hi : R) : list R -> Prop :=
| chain_nil : chain lo hi []
| chain_one a : chain lo hi [a]
| chain_cons a b l :
    lo <= b - a < hi -> chain lo hi (b :: l) -> chain lo hi (a :: b :: l).

(** What a packing loop does to [(positions, current_pos)]: any number of
    turns, each of which appends [current_pos] and advances it by a spacing
    of [lo, hi) that still fits on the line. *)
Inductive appended (line_length lo hi : R)
  : list R * R -> list R * R -> Prop :=
| appended_refl q : appended line_length lo hi q q
| appended_step positions current_pos spacing q :
    lo <= spacing < hi ->
    current_pos + spacing <= line_length ->
    appended line_length lo hi
             (positions ++ [current_pos], current_pos + spacing) q ->
    appended line_length lo hi (positions, current_pos) q.

(** The state of the packer between turns: the positions followed by the
    cumulative distance start at 0, form a chain, and end on the line. *)
Definition packed (line_length lo hi : R) (q : list R * R) : Prop :=
  hd 0 (fst q ++ [snd q]) = 0 /\
  chain lo hi (fst q ++ [snd q]) /\
  snd q <= line_length.

(** The side specifications the packer accepts. *)
Definition valid_side (side_type : string) : Prop :=
  side_type = "left"%string \/ side_type = "right"%string \/
  side_type = "both"%string.

(** The sides a valid specification stands for. *)
Definition sides_of (side_type : string) : list string :=
  if (side_type =? "both")%string then ["left"; "right"]%string
  else [side_type].

(** [item] is what the loop body of [generate_spawn_positions] appends for
    the distance [pos], run from some state of the generator. *)
Definition placed_at (rs : RandomSource)
           (self : SpawnCarpark.CarparkVehicleSpawner)
           (start_loc end_loc : Location) (perp_vec line_dir : Vector3D)
           (sides_to_use : list string) (line_length pos : R)
           (item : Transform * string) : Prop :=
  exists st st',
    SpawnCarpark.spawn_transform_at rs self start_loc end_loc perp_vec
      line_dir sides_to_use line_length pos st = Ok (item, st').

(** ** Concrete inputs used to exercise the statements *)

(** A world in which no ray hits anything, and one with flat ground at
    height 7. *)
Definition empty_world : World := mkWorld (fun _ _ => []).

Definition flat_world : World :=
  mkWorld (fun a _ =>
             [mkLabelledPoint (mkLocation (loc_x a) (loc_y a) 7) 0]).

(** The spawner with the defaults of [__init__]. *)
Definition default_spawner (w : World) : SpawnCarpark.CarparkVehicleSpawner :=
  SpawnCarpark.mkCarparkVehicleSpawner w 50 2.5.

Definition default_static_spawner (w : World)
  : SpawnCarparkStatic.CarparkVehicleSpawner :=
  SpawnCarparkStatic.mkCarparkVehicleSpawner w 50 2.5 true 100 None.

Definition origin : Location := mkLocation 0 0 0.
Definition east10 : Location := mkLocation 10 0 0.

(** The state at the start of a run: no draw made, nothing printed. *)
Definition st0 : St := mkSt 0 [].

(** The point of the segment at distance [pos] from its start: the
    interpolation parameter is [pos / line_length], and 0 when the length is
    not positive. *)
Definition line_point (start_loc end_loc : Location) (line_length pos : R)
  : Location :=
  let t := if Rgt_dec line_length 0 then pos / line_length else 0 in
  mkLocation (loc_x start_loc + t * (loc_x end_loc - loc_x start_loc))
             (loc_y start_loc + t * (loc_y end_loc - loc_y start_loc))
             (loc_z start_loc + t * (loc_z end_loc - loc_z start_loc)).

(** The vertical ray through [(x, y)] around height [z] hits nothing. *)
Definition ground_query_misses (w : World) (x y z : R) : Prop :=
  cast_ray w (mkLocation x y (z + 1000)) (mkLocation x y (z - 1000)) = [].

(** [keyword] occurs in [name] when case is ignored: some stretch of [name]
    reads [keyword] once both are put in lower case. *)
Definition ci_contains (keyword name : string) : Prop :=
  exists pre mid suf : string,
    name = (pre ++ mid ++ suf)%string /\ lower mid = lower keyword.

(** A candidate is excluded when its name contains one of the keywords. *)
Definition excluded_by (keywords : list string) (bp : ActorBlueprint) : Prop :=
  exists keyword, In keyword keywords /\ ci_contains keyword (bp_id bp).

(** The pool of the specification's example. *)
Definition truck_a : ActorBlueprint := mkActorBlueprint "truck.a" [].
Definition van_b : ActorBlueprint := mkActorBlueprint "van.b" [].
Definition car_c : ActorBlueprint := mkActorBlueprint "car.c" [].

(** The spacing the primary (resp. backfill) pass draws in state [s], and
    the state after a draw. *)
Definition primary_draw (rs : RandomSource) (min_spacing : R) (s : St) : R :=
  min_spacing + (0 + (min_spacing - 0) * rs_random rs (rng_calls s)).

Definition backfill_draw (rs : RandomSource) (min_spacing : R) (s : St) : R :=
  min_spacing + (0 + (min_spacing * 0.5 - 0) * rs_random rs (rng_calls s)).

Definition drawn (s : St) : St := mkSt (S (rng_calls s)) (stdout s).

(** * Further vocabulary *)

(** The state in which the two packing loops start: the state of the call,
    after the capacity warning when the requested count exceeds the
    capacity. *)
Definition after_clamp (line_length : R) (num_vehicles : Z) (min_spacing : R)
           (s : St) : St :=
  if (num_vehicles >? py_int (line_length / min_spacing))%Z
  then mkSt (rng_calls s)
            (stdout s ++ [CapacityWarning num_vehicles
                            (py_int (line_length / min_spacing))])
  else s.

(** * Spawning

    The methods of [CarparkVehicleSpawner] that turn the generated
    transforms into actors.  They talk to the simulator, print, and keep the
    list [self.vehicles]. *)

(** An actor of the simulator: which spawn attempt created it, from which
    blueprint, where; for a static prop, the mesh and the mass set on the
    blueprint before the spawn. *)
Record Actor : Type := mkActor {
  actor_id : nat;
  actor_blueprint : ActorBlueprint;
  actor_transform : Transform;
  actor_mesh : option (string * R)
}.

(** What the code asks of the simulator, as oracles:
    [library_filter pattern] is [world.get_blueprint_library().filter(pattern)];
    [spawn_completes k bp transform] tells whether the [try] body around
    [world.spawn_actor(bp, transform)] (the spawn and the settings applied to
    the new vehicle) runs to its end when it is the [k]-th attempt of the
    run, or raises; [prop_completes k mesh_path mass transform] tells the
    same of the [try] body that spawns a static prop. *)
Record Simulator : Type := mkSimulator {
  library_filter : string -> list ActorBlueprint;
  spawn_completes : nat -> ActorBlueprint -> Transform -> bool;
  prop_completes : nat -> string -> R -> Transform -> bool
}.

(** Lines written by [print]; the values are kept, the wording is not. *)
Inductive console_line : Type :=
| PackerLine (l : stdout_line)
| NoVehiclesLine
| SpawnedLine (vehicle_id : string) (transform : Transform) (side : string)
| SpawnFailedLine
| FilteredOutLine (excluded_count : nat)
| FoundLine (count : nat)
| ProcessingLinesLine (count : nat)
| ProcessingLine (rank count : nat)
| ExcludingLine (exclude_list : list string)
| SpawnedCountLine (count : nat)
| TotalLine (count : nat)
| CleaningUpLine (count : nat)
| PropSpawnedLine (mesh_path : string) (mass : R) (transform : Transform)
| PropFailedLine (vehicle_id : string)
| FallingBackLine
| BlueprintSpawnedLine (vehicle_id : string) (transform : Transform)
| SideLine (side : string) (yaw : R)
| TypeNotFoundLine (vehicle_id : string)
| LoadedSpawnFailedLine
| LoadedFromLine (filename : string)
| FoundSpawnsLine (count : nat)
| FileNotFoundLine (filename : string)
| LoadErrorLine
| LoadFallbackLine
| LegacyWarningLine
| UsingSavedLine (count : nat)
| UsingUnassignedLine (count : nat).

(** The state of a run: the draws served by the random generator, the spawn
    attempts made, the console, and [self.vehicles]. *)
Record Run : Type := mkRun {
  run_rng : nat;
  run_attempts : nat;
  run_console : list console_line;
  run_vehicles : list Actor
}.

(** Computations of a run.  The state is kept when an exception is raised:
    what was spawned and printed before it stays. *)
Definition N (A : Type) : Type := Run -> outcome A * Run.

Definition retN {A} (a : A) : N A := fun r => (Ok a, r).

Definition bindN {A B} (m : N A) (k : A -> N B) : N B :=
  fun r => match m r with
           | (Ok a, r') => k a r'
           | (Raise e, r') => (Raise e, r')
           | (OutOfFuel, r') => (OutOfFuel, r')
           end.

Definition raiseN {A} (e : exn) : N A := fun r => (Raise e, r).

Definition print_line (l : console_line) : N unit :=
  fun r => (Ok tt, mkRun (run_rng r) (run_attempts r)
                         (run_console r ++ [l]) (run_vehicles r)).

(** A call of a function of the first part.  Its draws continue the run's,
    its printed lines go to the console.  [generate_spawn_positions] raises
    only before its first draw and its first line, so the state at a raise
    is the state at the call. *)
Definition call {A} (m : M A) : N A :=
  fun r => match m (mkSt (run_rng r) []) with
           | Ok (a, st) =>
               (Ok a, mkRun (rng_calls st) (run_attempts r)
                            (run_console r ++ map PackerLine (stdout st))
                            (run_vehicles r))
           | Raise e => (Raise e, r)
           | OutOfFuel => (OutOfFuel, r)
           end.

Declare Scope run_scope.
Delimit Scope run_scope with run.
Notation "x <- m ;; k" := (bindN m (fun x => k))
  (at level 61, m at next level, right associativity) : run_scope.
Notation "' pat <- m ;; k" := (bindN m (fun x => match x with pat => k end))
  (at level 61, pat pattern, m at next level, right associativity) : run_scope.
Notation "m ;;; k" := (bindN m (fun _ => k))
  (at level 61, right associativity) : run_scope.

(** A row of the input array.  The code accepts rows of five elements and
    rows of six, whose last element is the list of exclude keywords (or
    [None]); rows of another length make its unpacking fail and are not
    represented. *)
Inductive ParkingLine : Type :=
| Line5 (start_loc end_loc : Location) (side_type : string)
        (num_vehicles : Z) (min_spacing : R)
| Line6 (start_loc end_loc : Location) (side_type : string)
        (num_vehicles : Z) (min_spacing : R)
        (exclude_vehicles : option (list string)).

(** ** [spawn_carpark.py], continued *)

Module SpawnCarparkBatch.

Import SpawnCarpark.
Local Open Scope run_scope.
Local Open Scope string_scope.

Section Methods.
Variable rs : RandomSource.
Variable sim : Simulator.
Variable self : CarparkVehicleSpawner.

(** [random.choice] on the run's generator.  The pools it is applied to are
    not empty; [d] stands for the element of an out-of-range index. *)
Definition choice_of {A} (d : A) (seq : list A) : N A :=
  fun r => (Ok (nth (rs_randbelow rs (run_rng r) (length seq)) seq d),
            mkRun (S (run_rng r)) (run_attempts r) (run_console r)
                  (run_vehicles r)).

(** The [try] body of the spawn loop (lines 302-324): [Some] the new
    vehicle when it completes, [None] when it raises. *)
Definition try_spawn (vehicle_bp : ActorBlueprint) (transform : Transform)
  : N (option Actor) :=
  fun r =>
    let k := run_attempts r in
    (Ok (if spawn_completes sim k vehicle_bp transform
         then Some (mkActor k vehicle_bp transform None)
         else None),
     mkRun (run_rng r) (S k) (run_console r) (run_vehicles r)).

(** The loop [for transform, side in spawn_transforms] (lines 298-327). *)
Fixpoint spawn_loop (line_vehicle_blueprints : list ActorBlueprint)
         (spawn_transforms : list (Transform * string))
         (spawned_vehicles : list Actor) : N (list Actor) :=
  match spawn_transforms with
  | [] => retN spawned_vehicles
  | (transform, side) :: rest =>
      vehicle_bp <- choice_of (hd (mkActorBlueprint EmptyString [])
                                  line_vehicle_blueprints)
                              line_vehicle_blueprints ;;
      vehicle <- try_spawn vehicle_bp transform ;;
      match vehicle with
      | Some vehicle =>
          print_line (SpawnedLine (bp_id vehicle_bp) transform side) ;;;
          spawn_loop line_vehicle_blueprints rest
                     (spawned_vehicles ++ [vehicle])
      | None =>
          print_line SpawnFailedLine ;;;
          spawn_loop line_vehicle_blueprints rest spawned_vehicles
      end
  end.

Definition spawn_vehicles_along_line (parking_line_data : ParkingLine)
           (vehicle_blueprints : list ActorBlueprint) : N (list Actor) :=
  let '(start_loc, end_loc, side_type, num_vehicles, min_spacing,
        exclude_vehicles) :=
    match parking_line_data with
    | Line6 a b c d e f => (a, b, c, d, e, f)
    | Line5 a b c d e => (a, b, c, d, e, None)
    end in
  let line_vehicle_blueprints :=
    filter_vehicles_for_line vehicle_blueprints exclude_vehicles in
  match line_vehicle_blueprints with
  | [] => print_line NoVehiclesLine ;;; retN []
  | _ :: _ =>
      spawn_transforms <-
        call (generate_spawn_positions rs self start_loc end_loc side_type
                                       num_vehicles min_spacing) ;;
      let spawned_vehicles := [] in
      spawn_loop line_vehicle_blueprints spawn_transforms spawned_vehicles
  end.

Definition excluded_keywords : list string :=
  ["bike"; "bicycle"; "motorcycle"; "gazelle"; "harley"; "yamaha";
   "kawasaki"; "ninja"; "vespa"; "diamondback"; "bh.crossbike";
   "european_hgv"; "firetruck"; "fusorosa"; "rad"].

(** The loop of [filter_vehicles] (lines 347-354); the keywords are not put
    in lower case here. *)
Fixpoint filter_vehicles_loop (vehicle_blueprints filtered : list ActorBlueprint)
         (excluded_count : nat) : list ActorBlueprint * nat :=
  match vehicle_blueprints with
  | [] => (filtered, excluded_count)
  | bp :: rest =>
      let bp_id_lower := lower (bp_id bp) in
      let is_excluded :=
        existsb (fun keyword => str_in keyword bp_id_lower)
                excluded_keywords in
      if negb is_excluded
      then filter_vehicles_loop rest (filtered ++ [bp]) excluded_count
      else filter_vehicles_loop rest filtered (excluded_count + 1)
  end.

Definition filter_vehicles (vehicle_blueprints : list ActorBlueprint)
  : N (list ActorBlueprint) :=
  let '(filtered, excluded_count) :=
    filter_vehicles_loop vehicle_blueprints [] 0 in
  (if (0 <? excluded_count)%nat
   then print_line (FilteredOutLine excluded_count)
   else retN tt) ;;;
  retN filtered.

(** [self.vehicles.extend(vehicles)]. *)
Definition extend_vehicles (vehicles : list Actor) : N unit :=
  fun r => (Ok tt, mkRun (run_rng r) (run_attempts r) (run_console r)
                         (run_vehicles r ++ vehicles)).

(** The sixth element of a row when there is one and it is a non-empty
    list: what [len(parking_line) >= 6 and parking_line[5]] lets through. *)
Definition exclude_list_of (parking_line : ParkingLine)
  : option (list string) :=
  match parking_line with
  | Line6 _ _ _ _ _ (Some (k :: ks)) => Some (k :: ks)
  | _ => None
  end.

(** The loop [for i, parking_line in enumerate(parking_lines)] (lines
    389-399); [i] is the index of the first remaining row, [count] is
    [len(parking_lines)]. *)
Fixpoint lines_loop (vehicle_blueprints : list ActorBlueprint)
         (count i : nat) (parking_lines : list ParkingLine) : N unit :=
  match parking_lines with
  | [] => retN tt
  | parking_line :: rest =>
      print_line (ProcessingLine (i + 1) count) ;;;
      (match exclude_list_of parking_line with
       | Some exclude_list => print_line (ExcludingLine exclude_list)
       | None => retN tt
       end) ;;;
      vehicles <- spawn_vehicles_along_line parking_line vehicle_blueprints ;;
      extend_vehicles vehicles ;;;
      print_line (SpawnedCountLine (length vehicles)) ;;;
      lines_loop vehicle_blueprints count (S i) rest
  end.

Definition spawn_carpark (parking_lines : list ParkingLine)
           (vehicle_filter : string) : N (list Actor) :=
  let vehicle_blueprints := library_filter sim vehicle_filter in
  match vehicle_blueprints with
  | [] =>
      raiseN (ValueError ("No vehicle blueprints found matching filter: "
                          ++ vehicle_filter))
  | _ :: _ =>
      vehicle_blueprints <- filter_vehicles vehicle_blueprints ;;
      match vehicle_blueprints with
      | [] =>
          raiseN (ValueError
                    "No 4-wheeled vehicles found after filtering out bikes/2-wheeled vehicles")
      | _ :: _ =>
          print_line (FoundLine (length vehicle_blueprints)) ;;;
          print_line (ProcessingLinesLine (length parking_lines)) ;;;
          lines_loop vehicle_blueprints (length parking_lines) 0
                     parking_lines ;;;
          (fun r =>
             (Ok (run_vehicles r),
              mkRun (run_rng r) (run_attempts r)
                    (run_console r ++ [TotalLine (length (run_vehicles r))])
                    (run_vehicles r)))
      end
  end.

(** [cleanup]: every vehicle is destroyed, failures ignored, and the list
    is cleared. *)
Definition cleanup : N unit :=
  fun r => (Ok tt, mkRun (run_rng r) (run_attempts r)
                         (run_console r
                          ++ [CleaningUpLine (length (run_vehicles r))])
                         []).
End Methods.

End SpawnCarparkBatch.

(** ** Reading a row *)

Definition line_start (l : ParkingLine) : Location :=
  match l with Line5 a _ _ _ _ | Line6 a _ _ _ _ _ => a end.

Definition line_end (l : ParkingLine) : Location :=
  match l with Line5 _ b _ _ _ | Line6 _ b _ _ _ _ => b end.

Definition line_side (l : ParkingLine) : string :=
  match l with Line5 _ _ c _ _ | Line6 _ _ c _ _ _ => c end.

Definition line_count (l : ParkingLine) : Z :=
  match l with Line5 _ _ _ d _ | Line6 _ _ _ d _ _ => d end.

Definition line_spacing (l : ParkingLine) : R :=
  match l with Line5 _ _ _ _ e | Line6 _ _ _ _ e _ => e end.

Definition line_exclude (l : ParkingLine) : option (list string) :=
  match l with Line5 _ _ _ _ _ => None | Line6 _ _ _ _ _ f => f end.

(** The candidates left for a row. *)
Definition line_pool (vehicle_blueprints : list ActorBlueprint)
           (l : ParkingLine) : list ActorBlueprint :=
  SpawnCarpark.filter_vehicles_for_line vehicle_blueprints (line_exclude l).

(** A row that is processed without an exception: its pool is empty (the
    row is skipped) or its side is valid and its spacing is not zero. *)
Definition line_passes (vehicle_blueprints : list ActorBlueprint)
           (l : ParkingLine) : Prop :=
  line_pool vehicle_blueprints l = [] \/
  (valid_side (line_side l) /\ line_spacing l <> 0).

(** The state in which [generate_spawn_positions] runs when called from
    the run state [r]. *)
Definition packer_state (r : Run) : St := mkSt (run_rng r) [].

(** Two simulators and a pool to exercise the statements: every spawn
    completes, no spawn completes. *)
Definition ready_simulator : Simulator :=
  mkSimulator (fun _ => [truck_a; van_b; car_c]) (fun _ _ _ => true)
              (fun _ _ _ _ => true).

Definition busy_simulator : Simulator :=
  mkSimulator (fun _ => [truck_a; van_b; car_c]) (fun _ _ _ => false)
              (fun _ _ _ _ => false).

Definition run0 : Run := mkRun 0 0 [] [].

Definition east_line : ParkingLine :=
  Line6 origin east10 "left" 3 4 (Some ["truck"; "van"]%string).

(** The four-wheeled candidates of the library for a filter pattern. *)
Definition four_wheeled (sim : Simulator) (vehicle_filter : string)
  : list ActorBlueprint :=
  SpawnCarpark.filter_vehicles_for_line
    (library_filter sim vehicle_filter)
    (Some SpawnCarparkBatch.excluded_keywords).

(** A library that knows no vehicle, and one that knows a bicycle only. *)
Definition empty_simulator : Simulator :=
  mkSimulator (fun _ => []) (fun _ _ _ => true) (fun _ _ _ _ => true).

Definition bike_simulator : Simulator :=
  mkSimulator (fun _ => [mkActorBlueprint "vehicle.bh.crossbike" []])
              (fun _ _ _ => true) (fun _ _ _ _ => true).

(** * Spawning, static variant *)

(** One entry of the spawn data (a dict of the JSON file).  [si_location]
    and [si_rotation] are [None] when the entry lacks one of their keys, in
    which case reading it raises; the other fields are [None] when their
    key is absent. *)
Record SpawnInfo : Type := mkSpawnInfo {
  si_location : option Location;
  si_rotation : option Rotation;
  si_vehicle_type : option string;
  si_mesh_path : option string;
  si_side : option string;
  si_line_index : option nat
}.

(** ** [spawn_carpark_static.py], continued *)

Module SpawnCarparkStaticBatch.

Import SpawnCarparkStatic.
Local Open Scope run_scope.
Local Open Scope string_scope.

Section Methods.
Variable rs : RandomSource.
Variable sim : Simulator.
Variable self : CarparkVehicleSpawner.

Definition VEHICLE_MESH_MAPPING : list (string * string) :=
  [("vehicle.dodge.charger",
    "/Game/Carla/Static/Car/4Wheeled/ParkedVehicles/Charger/SM_ChargerParked.SM_ChargerParked");
   ("vehicle.dodge.charger_2020",
    "/Game/Carla/Static/Car/4Wheeled/ParkedVehicles/Charger/SM_ChargerParked.SM_ChargerParked");
   ("vehicle.dodge.charger_police",
    "/Game/Carla/Static/Car/4Wheeled/ParkedVehicles/Charger/SM_ChargerParked.SM_ChargerParked");
   ("vehicle.dodge.charger_police_2020",
    "/Game/Carla/Static/Car/4Wheeled/ParkedVehicles/Charger/SM_ChargerParked.SM_ChargerParked");
   ("vehicle.ford.crown",
    "/Game/Carla/Static/Car/4Wheeled/ParkedVehicles/FordCrown/SM_FordCrown_parked.SM_FordCrown_parked");
   ("vehicle.lincoln.mkz_2017",
    "/Game/Carla/Static/Car/4Wheeled/ParkedVehicles/Lincoln/SM_LincolnParked.SM_LincolnParked");
   ("vehicle.lincoln.mkz_2020",
    "/Game/Carla/Static/Car/4Wheeled/ParkedVehicles/Lincoln/SM_LincolnParked.SM_LincolnParked");
   ("vehicle.mercedes.coupe",
    "/Game/Carla/Static/Car/4Wheeled/ParkedVehicles/MercedesCCC/SM_MercedesCCC_Parked.SM_MercedesCCC_Parked");
   ("vehicle.mercedes.coupe_2020",
    "/Game/Carla/Static/Car/4Wheeled/ParkedVehicles/MercedesCCC/SM_MercedesCCC_Parked.SM_MercedesCCC_Parked");
   ("vehicle.mini.cooper_s",
    "/Game/Carla/Static/Car/4Wheeled/ParkedVehicles/Mini2021/SM_Mini2021_parked.SM_Mini2021_parked");
   ("vehicle.mini.cooper_s_2021",
    "/Game/Carla/Static/Car/4Wheeled/ParkedVehicles/Mini2021/SM_Mini2021_parked.SM_Mini2021_parked");
   ("vehicle.mini.cooperst",
    "/Game/Carla/Static/Car/4Wheeled/ParkedVehicles/Mini2021/SM_Mini2021_parked.SM_Mini2021_parked");
   ("vehicle.mini.cooperst_2021",
    "/Game/Carla/Static/Car/4Wheeled/ParkedVehicles/Mini2021/SM_Mini2021_parked.SM_Mini2021_parked");
   ("vehicle.nissan.patrol",
    "/Game/Carla/Static/Car/4Wheeled/ParkedVehicles/NissanPatrol2021/SM_NissanPatrol2021_parked.SM_NissanPatrol2021_parked");
   ("vehicle.nissan.patrol_2021",
    "/Game/Carla/Static/Car/4Wheeled/ParkedVehicles/NissanPatrol2021/SM_NissanPatrol2021_parked.SM_NissanPatrol2021_parked");
   ("vehicle.tesla.model3",
    "/Game/Carla/Static/Car/4Wheeled/ParkedVehicles/TeslaM3/SM_TeslaM3_parked.SM_TeslaM3_parked");
   ("vehicle.tesla.model3_2021",
    "/Game/Carla/Static/Car/4Wheeled/ParkedVehicles/TeslaM3/SM_TeslaM3_parked.SM_TeslaM3_parked");
   ("vehicle.volkswagen.t2",
    "/Game/Carla/Static/Car/4Wheeled/ParkedVehicles/VolkswagenT2/SM_VolkswagenT2_2021_Parked.SM_VolkswagenT2_2021_Parked");
   ("vehicle.volkswagen.t2_2021",
    "/Game/Carla/Static/Car/4Wheeled/ParkedVehicles/VolkswagenT2/SM_VolkswagenT2_2021_Parked.SM_VolkswagenT2_2021_Parked");
   ("vehicle.audi.etron",
    "/Game/Carla/Static/Car/4Wheeled/AudiETron/SM_EtronParked.SM_EtronParked");
   ("vehicle.audi.tt",
    "/Game/Carla/Static/Car/4Wheeled/AudiTT/SM_AudiTT.SM_AudiTT");
   ("vehicle.audi.a2",
    "/Game/Carla/Static/Car/4Wheeled/AudiA2/SM_AudiA2.SM_AudiA2");
   ("vehicle.bmw.grandtourer",
    "/Game/Carla/Static/Car/4Wheeled/BmwGranTourer/SM_BMWGrandTourer.SM_BMWGrandTourer");
   ("vehicle.bmw.isetta",
    "/Game/Carla/Static/Car/4Wheeled/BmwIsetta/SM_BMWIsetta.SM_BMWIsetta");
   ("vehicle.chevrolet.impala",
    "/Game/Carla/Static/Car/4Wheeled/Chevrolet/SM_ChevroletImpala.SM_ChevroletImpala");
   ("vehicle.citroen.c3",
    "/Game/Carla/Static/Car/4Wheeled/Citroen/SM_Citroen_C3.SM_Citroen_C3");
   ("vehicle.tesla.cybertruck",
    "/Game/Carla/Static/Car/4Wheeled/Cybertruck/SM_Cybertruck.SM_Cybertruck");
   ("vehicle.cybertruck",
    "/Game/Carla/Static/Car/4Wheeled/Cybertruck/SM_Cybertruck.SM_Cybertruck");
   ("vehicle.dodge.charger_2020",
    "/Game/Carla/Static/Car/4Wheeled/DodgeCharger2020/SM_Charger_parked.SM_Charger_parked");
   ("vehicle.dodge.charger_police_2020",
    "/Game/Carla/Static/Car/4Wheeled/DodgeCharger2020/ChargerCop/SM_ChargerCopParked.SM_ChargerCopParked");
   ("vehicle.ford.mustang",
    "/Game/Carla/Static/Car/4Wheeled/Mustang/SM_Mustang_prop.SM_Mustang_prop");
   ("vehicle.jeep.wrangler_rubicon",
    "/Game/Carla/Static/Car/4Wheeled/Jeep/SM_JeepWranglerRubicon.SM_JeepWranglerRubicon");
   ("vehicle.seat.leon",
    "/Game/Carla/Static/Car/4Wheeled/Leon/SM_SeatLeon.SM_SeatLeon");
   ("vehicle.lincoln.mkz_2020",
    "/Game/Carla/Static/Car/4Wheeled/LincolnMKZ2020/SM_Lincoln2020Parked.SM_Lincoln2020Parked");
   ("vehicle.mercedes.coupe",
    "/Game/Carla/Static/Car/4Wheeled/MercedesCCC/SM_mercedescccParked.SM_mercedescccParked");
   ("vehicle.mini.cooper_s",
    "/Game/Carla/Static/Car/4Wheeled/Mini2021/SM_Mini2021Parked.SM_Mini2021Parked");
   ("vehicle.mini.cooper_s_2021",
    "/Game/Carla/Static/Car/4Wheeled/Mini2021/SM_Mini2021Parked.SM_Mini2021Parked");
   ("vehicle.mini.cooperst_2021",
    "/Game/Carla/Static/Car/4Wheeled/Mini2021/SM_Mini2021Parked.SM_Mini2021Parked");
   ("vehicle.nissan.micra",
    "/Game/Carla/Static/Car/4Wheeled/Nissan_Micra/SM_NissanMicra.SM_NissanMicra");
   ("vehicle.nissan.patrol_2021",
    "/Game/Carla/Static/Car/4Wheeled/NissanPatrol2021/SM_Patrol2021Parked.SM_Patrol2021Parked");
   ("vehicle.tesla.model3",
    "/Game/Carla/Static/Car/4Wheeled/Tesla/SM_TeslaM3_v2.SM_TeslaM3_v2");
   ("vehicle.toyota.prius",
    "/Game/Carla/Static/Car/4Wheeled/Toyota_Prius/SMC_ToyotaPrius.SMC_ToyotaPrius");
   ("vehicle.volkswagen.beetle",
    "/Game/Carla/Static/Car/4Wheeled/Beetle/SM_VolkswagenBeetle.SM_VolkswagenBeetle");
   ("vehicle.volkswagen.t2",
    "/Game/Carla/Static/Car/4Wheeled/ParkedVehicles/VolkswagenT2/SM_VolkswagenT2_2021_Parked.SM_VolkswagenT2_2021_Parked");
   ("vehicle.tazzari.zero",
    "/Game/Carla/Static/Car/4Wheeled/Tazzari/SM_Tazzari.SM_Tazzari");
   ("vehicle.roameo",
    "/Game/Carla/Static/Car/4Wheeled/ROAMEO/ROAMEO.ROAMEO")].

(** Lookup in a dict given by the items of its display, in the order of
    the source: the display above repeats keys, and the value of the last
    occurrence is the one the dict holds. *)
Fixpoint dict_get (items : list (string * string)) (key : string)
  : option string :=
  match items with
  | [] => None
  | (k, v) :: rest =>
      match dict_get rest key with
      | Some later => Some later
      | None => if k =? key then Some v else None
      end
  end.

(** After the lookup the code splits the id and capitalises two of its
    parts, then does nothing with them ([pass]): an id that is not a key
    gives [None]. *)
Definition get_vehicle_mesh_path (vehicle_bp_id : string) : option string :=
  match dict_get VEHICLE_MESH_MAPPING vehicle_bp_id with
  | Some mesh_path => Some mesh_path
  | None => None
  end.

(** The [try] body that spawns a static prop (lines 454-465) and its
    [except]. *)
Definition try_spawn_prop (prop_bp : ActorBlueprint) (mesh_path : string)
           (transform : Transform) (vehicle_bp_id : string)
  : N (option Actor) :=
  fun r =>
    let k := run_attempts r in
    if prop_completes sim k mesh_path (prop_mass self) transform
    then (Ok (Some (mkActor k prop_bp transform
                            (Some (mesh_path, prop_mass self)))),
          mkRun (run_rng r) (S k)
                (run_console r
                 ++ [PropSpawnedLine mesh_path (prop_mass self) transform])
                (run_vehicles r))
    else (Ok None,
          mkRun (run_rng r) (S k)
                (run_console r
                 ++ [PropFailedLine vehicle_bp_id; FallingBackLine])
                (run_vehicles r)).

(** The [try] body that spawns the vehicle blueprint (lines 470-485) and
    its [except]. *)
Definition try_spawn_blueprint (vehicle_bp : ActorBlueprint)
           (transform : Transform) : N (option Actor) :=
  fun r =>
    let k := run_attempts r in
    if spawn_completes sim k vehicle_bp transform
    then (Ok (Some (mkActor k vehicle_bp transform None)),
          mkRun (run_rng r) (S k)
                (run_console r
                 ++ [BlueprintSpawnedLine (bp_id vehicle_bp) transform])
                (run_vehicles r))
    else (Ok None,
          mkRun (run_rng r) (S k) (run_console r ++ [SpawnFailedLine])
                (run_vehicles r)).

(** [None] for [vehicle_bp_id] is the default of the parameter.  The first
    step yields the prop when the static-prop path is taken and completes;
    [if mesh_path:] lets a non-empty path through. *)
Definition spawn_parked_vehicle (vehicle_bp : ActorBlueprint)
           (transform : Transform) (vehicle_bp_id : option string)
  : N (option Actor) :=
  let vehicle_bp_id := match vehicle_bp_id with
                       | None => bp_id vehicle_bp
                       | Some given => given
                       end in
  prop <- (match use_static_props self, static_prop_bp self with
           | true, Some prop_bp =>
               match get_vehicle_mesh_path vehicle_bp_id with
               | Some (String c rest) =>
                   try_spawn_prop prop_bp (String c rest) transform
                                  vehicle_bp_id
               | _ => retN None
               end
           | _, _ => retN None
           end) ;;
  match prop with
  | Some prop => retN (Some prop)
  | None => try_spawn_blueprint vehicle_bp transform
  end.

(** The loop of [filter_vehicles_for_line] (lines 381-386). *)
Fixpoint filter_loop (exclude_keywords : list string)
         (vehicle_blueprints filtered : list ActorBlueprint)
  : list ActorBlueprint :=
  match vehicle_blueprints with
  | [] => filtered
  | bp :: rest =>
      let bp_id_lower := lower (bp_id bp) in
      let is_excluded :=
        existsb (fun keyword => str_in (lower keyword) bp_id_lower)
                exclude_keywords in
      if negb is_excluded
      then filter_loop exclude_keywords rest (filtered ++ [bp])
      else filter_loop exclude_keywords rest filtered
  end.

Definition filter_vehicles_for_line
           (vehicle_blueprints : list ActorBlueprint)
           (exclude_keywords : option (list string))
  : list ActorBlueprint :=
  let exclude_keywords := match exclude_keywords with
                          | None => []
                          | Some kws => kws
                          end in
  filter_loop exclude_keywords vehicle_blueprints [].

(** The search [for bp in line_vehicle_blueprints: if bp.id == ...: break]. *)
Fixpoint find_blueprint (line_vehicle_blueprints : list ActorBlueprint)
         (vehicle_bp_id : string) : option ActorBlueprint :=
  match line_vehicle_blueprints with
  | [] => None
  | bp :: rest =>
      if bp_id bp =? vehicle_bp_id then Some bp
      else find_blueprint rest vehicle_bp_id
  end.

(** The loop over the loaded spawns (lines 519-554).  An entry that cannot
    be read raises inside the [try] and is reported; an entry whose type is
    unknown is skipped. *)
Fixpoint replay_loop (line_vehicle_blueprints : list ActorBlueprint)
         (loaded_spawns : list SpawnInfo)
         (spawned_vehicles : list Actor) (spawn_data_list : list SpawnInfo)
  : N (list Actor * list SpawnInfo) :=
  match loaded_spawns with
  | [] => retN (spawned_vehicles, spawn_data_list)
  | spawn_info :: rest =>
      match si_location spawn_info, si_rotation spawn_info with
      | Some location, Some rotation =>
          let transform := mkTransform location rotation in
          let vehicle_bp_id :=
            match si_vehicle_type spawn_info with
            | Some t => t
            | None => match si_mesh_path spawn_info with
                      | Some m => m
                      | None => EmptyString
                      end
            end in
          match find_blueprint line_vehicle_blueprints vehicle_bp_id with
          | None =>
              print_line (TypeNotFoundLine vehicle_bp_id) ;;;
              replay_loop line_vehicle_blueprints rest spawned_vehicles
                          spawn_data_list
          | Some vehicle_bp =>
              actor <- spawn_parked_vehicle vehicle_bp transform
                                            (Some vehicle_bp_id) ;;
              match actor with
              | Some actor =>
                  replay_loop line_vehicle_blueprints rest
                              (spawned_vehicles ++ [actor])
                              (spawn_data_list ++ [spawn_info])
              | None =>
                  replay_loop line_vehicle_blueprints rest spawned_vehicles
                              spawn_data_list
              end
          end
      | _, _ =>
          print_line LoadedSpawnFailedLine ;;;
          replay_loop line_vehicle_blueprints rest spawned_vehicles
                      spawn_data_list
      end
  end.

Definition choice_of {A} (d : A) (seq : list A) : N A :=
  fun r => (Ok (nth (rs_randbelow rs (run_rng r) (length seq)) seq d),
            mkRun (S (run_rng r)) (run_attempts r) (run_console r)
                  (run_vehicles r)).

(** The loop over the generated transforms (lines 561-589). *)
Fixpoint record_loop (line_vehicle_blueprints : list ActorBlueprint)
         (parking_line_index : option nat)
         (spawn_transforms : list (Transform * string))
         (spawned_vehicles : list Actor) (spawn_data_list : list SpawnInfo)
  : N (list Actor * list SpawnInfo) :=
  match spawn_transforms with
  | [] => retN (spawned_vehicles, spawn_data_list)
  | (transform, side) :: rest =>
      vehicle_bp <- choice_of (hd (mkActorBlueprint EmptyString [])
                                  line_vehicle_blueprints)
                              line_vehicle_blueprints ;;
      actor <- spawn_parked_vehicle vehicle_bp transform None ;;
      match actor with
      | Some actor =>
          let spawn_data :=
            mkSpawnInfo (Some (mkLocation (loc_x (location transform))
                                          (loc_y (location transform))
                                          (loc_z (location transform))))
                        (Some (mkRotation (pitch (rotation transform))
                                          (yaw (rotation transform))
                                          (roll (rotation transform))))
                        (Some (bp_id vehicle_bp)) None (Some side)
                        parking_line_index in
          print_line (SideLine side (yaw (rotation transform))) ;;;
          record_loop line_vehicle_blueprints parking_line_index rest
                      (spawned_vehicles ++ [actor])
                      (spawn_data_list ++ [spawn_data])
      | None =>
          record_loop line_vehicle_blueprints parking_line_index rest
                      spawned_vehicles spawn_data_list
      end
  end.

(** [loaded_spawns] and [parking_line_index] are [None] by default;
    [if loaded_spawns:] lets a non-empty list through. *)
Definition spawn_vehicles_along_line (parking_line_data : ParkingLine)
           (vehicle_blueprints : list ActorBlueprint)
           (loaded_spawns : option (list SpawnInfo))
           (parking_line_index : option nat)
  : N (list Actor * list SpawnInfo) :=
  let '(start_loc, end_loc, side_type, num_vehicles, min_spacing,
        exclude_vehicles) :=
    match parking_line_data with
    | Line6 a b c d e f => (a, b, c, d, e, f)
    | Line5 a b c d e => (a, b, c, d, e, None)
    end in
  let line_vehicle_blueprints :=
    filter_vehicles_for_line vehicle_blueprints exclude_vehicles in
  match line_vehicle_blueprints with
  | [] => print_line NoVehiclesLine ;;; retN ([], [])
  | _ :: _ =>
      let spawned_vehicles := [] in
      let spawn_data_list := [] in
      match loaded_spawns with
      | Some (spawn_info :: rest) =>
          replay_loop line_vehicle_blueprints (spawn_info :: rest)
                      spawned_vehicles spawn_data_list
      | _ =>
          spawn_transforms <-
            call (generate_spawn_positions rs self start_loc end_loc
                                           side_type num_vehicles
                                           min_spacing) ;;
          record_loop line_vehicle_blueprints parking_line_index
                      spawn_transforms spawned_vehicles spawn_data_list
      end
  end.
End Methods.

(** What opening and parsing a spawn data file gives: the entries it
    holds, no such file, or another failure (unreadable, not JSON, a value
    without length).  The files considered hold a list of entries. *)
Inductive LoadResult : Type :=
| Loaded (spawn_data : list SpawnInfo)
| FileNotFound
| LoadError.

(** The keys of [loaded_spawns_by_line]: a row index, or ['unassigned']. *)
Inductive GroupKey : Type :=
| LineKey (line_idx : nat)
| UnassignedKey.

Definition key_eqb (k k' : GroupKey) : bool :=
  match k, k' with
  | LineKey i, LineKey j => Nat.eqb i j
  | UnassignedKey, UnassignedKey => true
  | _, _ => false
  end.

(** [loaded_spawns_by_line] as the list of its items, in insertion order. *)
Definition Groups : Type := list (GroupKey * list SpawnInfo).

(** [d.get(key)]. *)
Fixpoint group_of (d : Groups) (key : GroupKey) : option (list SpawnInfo) :=
  match d with
  | [] => None
  | (k, group) :: rest => if key_eqb k key then Some group
                          else group_of rest key
  end.

(** [if key not in d: d[key] = []] followed by [d[key].append(spawn)]. *)
Fixpoint group_append (d : Groups) (key : GroupKey) (spawn : SpawnInfo)
  : Groups :=
  match d with
  | [] => [(key, [spawn])]
  | (k, group) :: rest =>
      if key_eqb k key then (k, (group ++ [spawn])%list) :: rest
      else (k, group) :: group_append rest key spawn
  end.

Section Carpark.
Variable rs : RandomSource.
Variable sim : Simulator.
Variable self : CarparkVehicleSpawner.
Variable read_file : string -> LoadResult.

Definition load_spawn_data (filename : string)
  : N (option (list SpawnInfo)) :=
  match read_file filename with
  | Loaded spawn_data =>
      print_line (LoadedFromLine filename) ;;;
      print_line (FoundSpawnsLine (length spawn_data)) ;;;
      retN (Some spawn_data)
  | FileNotFound => print_line (FileNotFoundLine filename) ;;; retN None
  | LoadError => print_line LoadErrorLine ;;; retN None
  end.

Definition excluded_keywords : list string :=
  ["bike"; "bicycle"; "motorcycle"; "gazelle"; "harley"; "yamaha";
   "kawasaki"; "ninja"; "vespa"; "diamondback"; "bh.crossbike";
   "european_hgv"; "firetruck"; "fusorosa"; "rad"].

(** The loop of [filter_vehicles] (lines 611-618). *)
Fixpoint filter_vehicles_loop (vehicle_blueprints filtered : list ActorBlueprint)
         (excluded_count : nat) : list ActorBlueprint * nat :=
  match vehicle_blueprints with
  | [] => (filtered, excluded_count)
  | bp :: rest =>
      let bp_id_lower := lower (bp_id bp) in
      let is_excluded :=
        existsb (fun keyword => str_in keyword bp_id_lower)
                excluded_keywords in
      if negb is_excluded
      then filter_vehicles_loop rest (filtered ++ [bp]) excluded_count
      else filter_vehicles_loop rest filtered (excluded_count + 1)
  end.

Definition filter_vehicles (vehicle_blueprints : list ActorBlueprint)
  : N (list ActorBlueprint) :=
  let '(filtered, excluded_count) :=
    filter_vehicles_loop vehicle_blueprints [] 0 in
  (if (0 <? excluded_count)%nat
   then print_line (FilteredOutLine excluded_count)
   else retN tt) ;;;
  retN filtered.

(** The loop [for spawn in all_loaded_spawns] (lines 657-670).  An entry
    has no index when the key is absent or its value is null. *)
Fixpoint group_loop (all_loaded_spawns : list SpawnInfo)
         (loaded_spawns_by_line : Groups) : N Groups :=
  match all_loaded_spawns with
  | [] => retN loaded_spawns_by_line
  | spawn :: rest =>
      match si_line_index spawn with
      | Some line_idx =>
          group_loop rest
                     (group_append loaded_spawns_by_line (LineKey line_idx)
                                   spawn)
      | None =>
          print_line LegacyWarningLine ;;;
          group_loop rest
                     (group_append loaded_spawns_by_line UnassignedKey spawn)
      end
  end.

(** [self.vehicles.extend(vehicles)]. *)
Definition extend_vehicles (vehicles : list Actor) : N unit :=
  fun r => (Ok tt, mkRun (run_rng r) (run_attempts r) (run_console r)
                         (run_vehicles r ++ vehicles)).

Definition exclude_list_of (parking_line : ParkingLine)
  : option (list string) :=
  match parking_line with
  | Line6 _ _ _ _ _ (Some (k :: ks)) => Some (k :: ks)
  | _ => None
  end.

(** The choice of the loaded spawns of row [i] (lines 686-699): the spawns
    and the new value of [unassigned_spawn_index].  [if
    loaded_spawns_by_line:] lets a non-empty dict through. *)
Definition spawns_for_line (loaded_spawns_by_line : option Groups)
           (i unassigned_spawn_index : nat)
  : N (option (list SpawnInfo) * nat) :=
  match loaded_spawns_by_line with
  | Some (item :: items) =>
      match group_of (item :: items) (LineKey i) with
      | Some line_loaded_spawns =>
          print_line (UsingSavedLine (length line_loaded_spawns)) ;;;
          retN (Some line_loaded_spawns, unassigned_spawn_index)
      | None =>
          match group_of (item :: items) UnassignedKey with
          | Some (spawn :: spawns) =>
              match skipn unassigned_spawn_index (spawn :: spawns) with
              | [] => retN (None, unassigned_spawn_index)
              | remaining_unassigned =>
                  print_line
                    (UsingUnassignedLine (length remaining_unassigned)) ;;;
                  retN (Some remaining_unassigned,
                        (unassigned_spawn_index
                         + length remaining_unassigned)%nat)
              end
          | _ => retN (None, unassigned_spawn_index)
          end
      end
  | _ => retN (None, unassigned_spawn_index)
  end.

(** The loop [for i, parking_line in enumerate(parking_lines)] (lines
    678-707). *)
Fixpoint lines_loop (vehicle_blueprints : list ActorBlueprint)
         (loaded_spawns_by_line : option Groups) (count i : nat)
         (unassigned_spawn_index : nat) (all_spawn_data : list SpawnInfo)
         (parking_lines : list ParkingLine) : N (list SpawnInfo) :=
  match parking_lines with
  | [] => retN all_spawn_data
  | parking_line :: rest =>
      print_line (ProcessingLine (i + 1) count) ;;;
      (match exclude_list_of parking_line with
       | Some exclude_list => print_line (ExcludingLine exclude_list)
       | None => retN tt
       end) ;;;
      ' (line_loaded_spawns, unassigned_spawn_index) <-
        spawns_for_line loaded_spawns_by_line i unassigned_spawn_index ;;
      ' (vehicles, spawn_data) <-
        spawn_vehicles_along_line rs sim self parking_line
                                  vehicle_blueprints line_loaded_spawns
                                  (Some i) ;;
      extend_vehicles vehicles ;;;
      print_line (SpawnedCountLine (length vehicles)) ;;;
      lines_loop vehicle_blueprints loaded_spawns_by_line count (S i)
                 unassigned_spawn_index (all_spawn_data ++ spawn_data)%list rest
  end.

(** Lines 649-670 of [spawn_carpark]: the value of
    [loaded_spawns_by_line].  [load_file] is [None] by default; [if
    load_file:] lets a non-empty name through. *)
Definition load_groups (load_file : option string) : N (option Groups) :=
  match load_file with
  | Some (String c name) =>
      all_loaded_spawns <- load_spawn_data (String c name) ;;
      match all_loaded_spawns with
      | None => print_line LoadFallbackLine ;;; retN None
      | Some all_loaded_spawns =>
          loaded_spawns_by_line <- group_loop all_loaded_spawns [] ;;
          retN (Some loaded_spawns_by_line)
      end
  | _ => retN None
  end.

Definition spawn_carpark (parking_lines : list ParkingLine)
           (vehicle_filter : string) (load_file : option string)
  : N (list Actor * list SpawnInfo) :=
  let vehicle_blueprints := library_filter sim vehicle_filter in
  match vehicle_blueprints with
  | [] =>
      raiseN (ValueError ("No vehicle blueprints found matching filter: "
                          ++ vehicle_filter))
  | _ :: _ =>
      vehicle_blueprints <- filter_vehicles vehicle_blueprints ;;
      match vehicle_blueprints with
      | [] =>
          raiseN (ValueError
                    "No 4-wheeled vehicles found after filtering out bikes/2-wheeled vehicles")
      | _ :: _ =>
          print_line (FoundLine (length vehicle_blueprints)) ;;;
          loaded_spawns_by_line <- load_groups load_file ;;
          print_line (ProcessingLinesLine (length parking_lines)) ;;;
          all_spawn_data <-
            lines_loop vehicle_blueprints loaded_spawns_by_line
                       (length parking_lines) 0 0 [] parking_lines ;;
          (fun r =>
             (Ok (run_vehicles r, all_spawn_data),
              mkRun (run_rng r) (run_attempts r)
                    (run_console r ++ [TotalLine (length (run_vehicles r))])
                    (run_vehicles r)))
      end
  end.

(** [cleanup] (lines 718-726). *)
Definition cleanup : N unit :=
  fun r => (Ok tt, mkRun (run_rng r) (run_attempts r)
                         (run_console r
                          ++ [CleaningUpLine (length (run_vehicles r))])
                         []).
End Carpark.

End SpawnCarparkStaticBatch.

(** The transform an entry of the spawn data records, when it has one. *)
Definition recorded_transform (d : SpawnInfo) : option Transform :=
  match si_location d, si_rotation d with
  | Some location, Some rotation => Some (mkTransform location rotation)
  | _, _ => None
  end.

(** The vehicle type an entry of the spawn data names. *)
Definition recorded_type (d : SpawnInfo) : string :=
  match si_vehicle_type d with
  | Some t => t
  | None => match si_mesh_path d with
            | Some m => m
            | None => EmptyString
            end
  end.

(** An entry that can be replayed from a pool: it records a transform, and
    its type is the id of a blueprint of the pool. *)
Definition replayable (pool : list ActorBlueprint) (d : SpawnInfo) : Prop :=
  (exists transform, recorded_transform d = Some transform) /\
  exists bp, In bp pool /\ bp_id bp = recorded_type d.

(** Two run states that differ by their consoles at most. *)
Definition same_but_console (r r' : Run) : Prop :=
  run_rng r = run_rng r' /\ run_attempts r = run_attempts r' /\
  run_vehicles r = run_vehicles r'.

(** A spawner of the static variant that does not use static props, and one
    that does. *)
Definition plain_static_spawner (w : World)
  : SpawnCarparkStatic.CarparkVehicleSpawner :=
  SpawnCarparkStatic.mkCarparkVehicleSpawner w 50 2.5 false 100 None.

Definition prop_static_spawner (w : World)
  : SpawnCarparkStatic.CarparkVehicleSpawner :=
  SpawnCarparkStatic.mkCarparkVehicleSpawner
    w 50 2.5 true 100 (Some (mkActorBlueprint "static.prop.mesh" [])).

(** The spawner of the first variant with the world, spawn height and
    parking offset of a spawner of the static variant. *)
Definition plain_of (self : SpawnCarparkStatic.CarparkVehicleSpawner)
  : SpawnCarpark.CarparkVehicleSpawner :=
  SpawnCarpark.mkCarparkVehicleSpawner
    (SpawnCarparkStatic.world self) (SpawnCarparkStatic.spawn_height self)
    (SpawnCarparkStatic.parking_offset self).

(** How the outcomes of the two variants of [spawn_vehicles_along_line]
    correspond: the same vehicles, or the same exception. *)
Definition same_vehicles (o : outcome (list Actor))
           (o' : outcome (list Actor * list SpawnInfo)) : Prop :=
  match o, o' with
  | Ok vehicles, Ok (vehicles', _) => vehicles = vehicles'
  | Raise e, Raise e' => e = e'
  | OutOfFuel, OutOfFuel => True
  | _, _ => False
  end.

(** An entry of a spawn data file, for the pool [[car_c]]. *)
Definition saved_car : SpawnInfo :=
  mkSpawnInfo (Some origin) (Some (mkRotation 0 90 0)) (Some "car.c"%string)
              None (Some "left"%string) (Some 0%nat).



(** A computation that does not read the console: from two run states
    that differ by their consoles at most it gives the same outcome, and
    states that again differ by their consoles at most. *)
Definition console_blind {A} (m : N A) : Prop :=
  forall r r', same_but_console r r' ->
               fst (m r) = fst (m r') /\
               same_but_console (snd (m r)) (snd (m r')).




(** Two runs that end alike: the same outcome, and final states that
    differ by their consoles at most. *)
Definition same_run {A} (p q : outcome A * Run) : Prop :=
  fst p = fst q /\ same_but_console (snd p) (snd q).
(** * Properties *)

Import SpawnCarpark.

(** ** Division and truncation *)

Lemma py_div_ok (a b : R) : b <> 0 -> py_div a b = Ok (a / b).
Proof.
  intros Hb. unfold py_div. destruct (Req_dec_T b 0); [contradiction | reflexivity].
Qed.

Lemma py_div_zero (a : R) : py_div a 0 = Raise ZeroDivisionError.
Proof.
  unfold py_div. destruct (Req_dec_T 0 0) as [_ | H]; [reflexivity | now elim H].
Qed.

Lemma lift_div_ok (a b : R) (s : St) :
  b <> 0 -> lift (py_div a b) s = Ok (a / b, s).
Proof. intros Hb. unfold lift. now rewrite py_div_ok. Qed.

(** ** The resolver: [compute_perpendicular_vector] *)

Lemma resolver_short_segment (start_loc end_loc : Location) (s : St) :
  segment_length start_loc end_loc < 0.001 ->
  compute_perpendicular_vector start_loc end_loc s
  = Ok ((mkVector3D 1 0 0, mkVector3D 1 0 0), s).
Proof.
  unfold segment_length, compute_perpendicular_vector. cbn [vec_x vec_y vec_z].
  intros H. destruct (Rlt_dec _ _) as [_ | Hn]; [reflexivity | contradiction].
Qed.

Lemma resolver_returns (start_loc end_loc : Location) (s : St) :
  exists perp_vec line_dir,
    compute_perpendicular_vector start_loc end_loc s
    = Ok ((perp_vec, line_dir), s).
Proof.
  unfold compute_perpendicular_vector. cbn [vec_x vec_y vec_z].
  set (len := sqrt _).
  destruct (Rlt_dec len 0.001) as [Hlt | Hge].
  - eexists _, _. reflexivity.
  - assert (Hlen : len <> 0) by lra.
    unfold bind at 1. rewrite (lift_div_ok _ _ _ Hlen).
    unfold bind at 1. rewrite (lift_div_ok _ _ _ Hlen).
    unfold bind at 1. rewrite (lift_div_ok _ _ _ Hlen).
    cbn [vec_x vec_y vec_z].
    set (plen := sqrt _).
    destruct (Rgt_dec plen 0.001) as [Hgt | Hle].
    + assert (Hp : plen <> 0) by lra.
      unfold bind at 1. unfold bind at 1. rewrite (lift_div_ok _ _ _ Hp).
      unfold bind at 1. rewrite (lift_div_ok _ _ _ Hp).
      eexists _, _. reflexivity.
    + eexists _, _. reflexivity.
Qed.

(** ** Chains *)

Lemma chain_snoc (lo hi : R) (l : list R) (c spacing : R) :
  chain lo hi (l ++ [c]) -> lo <= spacing < hi ->
  chain lo hi ((l ++ [c]) ++ [c + spacing]).
Proof.
  intros Hc Hs. induction l as [| a l IH]; cbn in *.
  - constructor; [lra | constructor].
  - destruct l as [| b l]; cbn in *.
    + inversion Hc; subst. constructor; [assumption |].
      constructor; [lra | constructor].
    + inversion Hc; subst. constructor; [assumption | now apply IH].
Qed.

Lemma chain_app_l (lo hi : R) (l l' : list R) :
  chain lo hi (l ++ l') -> chain lo hi l.
Proof.
  induction l as [| a l IH]; cbn; intros H.
  - constructor.
  - destruct l as [| b l]; cbn in *.
    + constructor.
    + inversion H; subst. constructor; [assumption | now apply IH].
Qed.

Lemma chain_gap (lo hi : R) (l : list R) :
  chain lo hi l ->
  forall i, (S i < length l)%nat -> lo <= nth (S i) l 0 - nth i l 0 < hi.
Proof.
  induction 1 as [| a | a b l Hab Hc IH]; intros i Hi; cbn in Hi; try lia.
  destruct i as [| i]; [exact Hab |].
  apply (IH i). cbn. lia.
Qed.

Lemma chain_increasing (lo hi : R) (l : list R) :
  0 < lo -> chain lo hi l ->
  forall i j, (i < j < length l)%nat -> nth i l 0 < nth j l 0.
Proof.
  intros Hlo Hc i j [Hij Hj].
  induction j as [| j IH]; [lia |].
  pose proof (chain_gap lo hi l Hc j Hj) as Hg.
  destruct (Nat.eq_dec i j) as [-> | Hne]; [lra |].
  assert (nth i l 0 < nth j l 0) by (apply IH; lia). lra.
Qed.

Lemma chain_lower (lo hi : R) (l : list R) :
  0 <= lo -> chain lo hi l ->
  forall p, In p l -> hd 0 l <= p <= last l 0.
Proof.
  intros Hlo. induction 1 as [| a | a b l Hab Hc IH]; intros p Hp.
  - destruct Hp.
  - destruct Hp as [<- | []]. cbn. lra.
  - change (last (a :: b :: l) 0) with (last (b :: l) 0).
    cbn [hd] in *.
    assert (Hb : b <= last (b :: l) 0) by (apply (IH b); now left).
    destruct Hp as [<- | Hp]; [lra |].
    specialize (IH p Hp). lra.
Qed.

(** ** The packing loops *)

Lemma appended_trans (L lo hi : R) (p q r : list R * R) :
  appended L lo hi p q -> appended L lo hi q r -> appended L lo hi p r.
Proof.
  induction 1 as [| ps c sp q Hs Hfit _ IH]; intros Hr; [assumption |].
  eapply appended_step; eauto.
Qed.

Lemma appended_weaken (L lo hi hi' : R) (p q : list R * R) :
  hi <= hi' -> appended L lo hi p q -> appended L lo hi' p q.
Proof.
  intros Hh. induction 1 as [| ps c sp q Hs Hfit _ IH]; [constructor |].
  eapply appended_step; eauto. lra.
Qed.

Lemma appended_packed (L lo hi : R) (p q : list R * R) :
  appended L lo hi p q -> packed L lo hi p -> packed L lo hi q.
Proof.
  induction 1 as [| ps c sp q Hs Hfit _ IH]; [trivial |].
  intros (Hhd & Hch & Hle). apply IH. cbn [fst snd] in *.
  repeat split.
  - rewrite <- Hhd. now destruct ps.
  - now apply chain_snoc.
  - assumption.
Qed.

Section Packer.
Variable rs : RandomSource.
Variables line_length min_spacing : R.

Lemma primary_spacing (k : nat) :
  0 < min_spacing ->
  min_spacing <= min_spacing + (0 + (min_spacing - 0) * rs_random rs k)
  < 2 * min_spacing.
Proof. intros HS. pose proof (rs_random_range rs k). nra. Qed.

Lemma backfill_spacing (k : nat) :
  0 < min_spacing ->
  min_spacing
  <= min_spacing + (0 + (min_spacing * 0.5 - 0) * rs_random rs k)
  < 1.5 * min_spacing.
Proof. intros HS. pose proof (rs_random_range rs k). nra. Qed.

(** The [for] loop returns, has appended at most [iters] positions, and
    prints nothing. *)
Lemma primary_loop_returns (iters : nat) :
  forall positions current_pos s,
  exists positions' current_pos' s',
    primary_loop rs line_length min_spacing iters positions current_pos s
    = Ok ((positions', current_pos'), s') /\
    (length positions' <= length positions + iters)%nat /\
    stdout s' = stdout s /\
    hd 0 (positions' ++ [current_pos']) = hd 0 (positions ++ [current_pos]) /\
    (0 < min_spacing ->
     appended line_length min_spacing (2 * min_spacing)
              (positions, current_pos) (positions', current_pos')).
Proof.
  induction iters as [| iters IH]; intros ps c s; cbn [primary_loop].
  - exists ps, c, s. repeat split; [lia | constructor].
  - unfold bind, uniform.
    destruct (Rgt_dec _ _) as [Hover | Hfit].
    + eexists ps, c, _. repeat split; [lia | constructor].
    + match goal with
      | |- context [primary_loop _ _ _ _ ?ps1 ?c1 ?s1] =>
          destruct (IH ps1 c1 s1)
            as (ps' & c' & s' & Hrun & Hlen & Hout & Hhd & Happ)
      end.
      exists ps', c', s'. rewrite Hrun. repeat split.
      * rewrite length_app in Hlen. cbn in Hlen. lia.
      * exact Hout.
      * rewrite Hhd. now destruct ps.
      * intros HS. eapply appended_step; [| | exact (Happ HS)].
        -- now apply primary_spacing.
        -- lra.
Qed.

(** The [while] loop returns when its bound exceeds the number of
    positions still missing; it never goes past [num_vehicles] positions
    and prints nothing. *)
Lemma backfill_loop_returns (num_vehicles : Z) (fuel : nat) :
  forall positions current_pos s,
    (Z.to_nat (num_vehicles - Z.of_nat (length positions)) < fuel)%nat ->
    exists positions' current_pos' s',
      backfill_loop rs line_length min_spacing num_vehicles fuel
                    positions current_pos s
      = Ok ((positions', current_pos'), s') /\
      (Z.of_nat (length positions')
       <= Z.max (Z.of_nat (length positions)) num_vehicles)%Z /\
      stdout s' = stdout s /\
      hd 0 (positions' ++ [current_pos']) = hd 0 (positions ++ [current_pos]) /\
      (0 < min_spacing ->
       appended line_length min_spacing (1.5 * min_spacing)
                (positions, current_pos) (positions', current_pos')).
Proof.
  induction fuel as [| fuel IH]; intros ps c s Hfuel; [lia |].
  cbn [backfill_loop].
  destruct (Z.ltb_spec (Z.of_nat (length ps)) num_vehicles) as [Hlt | Hge].
  - destruct (Rlt_dec c line_length) as [Hroom | Hfull].
    + unfold bind, uniform.
      destruct (Rle_dec _ _) as [Hfit | Hover].
      * match goal with
        | |- context [backfill_loop _ _ _ _ _ ?ps1 ?c1 ?s1] =>
            destruct (IH ps1 c1 s1)
              as (ps' & c' & s' & Hrun & Hlen & Hout & Hhd & Happ)
        end.
        { rewrite length_app. cbn. lia. }
        exists ps', c', s'. rewrite Hrun. repeat split.
        -- rewrite length_app in Hlen. cbn in Hlen. lia.
        -- exact Hout.
        -- rewrite Hhd. now destruct ps.
        -- intros HS. eapply appended_step; [| | exact (Happ HS)].
           ++ now apply backfill_spacing.
           ++ lra.
      * eexists ps, c, _. repeat split; [lia | constructor].
    + exists ps, c, s. repeat split; [lia | constructor].
  - exists ps, c, s. repeat split; [lia | constructor].
Qed.
Lemma packed_start : 0 <= line_length ->
  packed line_length min_spacing (2 * min_spacing) ([], 0).
Proof. intros HL. repeat split; [constructor | exact HL]. Qed.

(** The packer returns whenever the spacing is not zero: never more
    positions than the clamped count, and the first one, if any, is 0. *)
Lemma pack_positions_returns (num_vehicles : Z) (s : St) :
  min_spacing <> 0 ->
  exists positions current_pos s',
    pack_positions rs line_length num_vehicles min_spacing s
    = Ok (positions, s') /\
    (Z.of_nat (length positions)
     <= Z.max 0 (Z.min num_vehicles (py_int (line_length / min_spacing))))%Z /\
    hd 0 (positions ++ [current_pos]) = 0 /\
    (0 < min_spacing -> 0 <= line_length ->
     packed line_length min_spacing (2 * min_spacing)
            (positions, current_pos)).
Proof.
  intros HS. unfold pack_positions.
  unfold bind at 1. rewrite (lift_div_ok _ _ _ HS).
  set (max_vehicles := py_int (line_length / min_spacing)).
  assert (Hclamp : exists s0,
    (if (num_vehicles >? max_vehicles)%Z
     then bind (print (CapacityWarning num_vehicles max_vehicles))
               (fun _ => ret max_vehicles)
     else ret num_vehicles) s
    = Ok (Z.min num_vehicles max_vehicles, s0)).
  { destruct (Z.gtb_spec num_vehicles max_vehicles) as [Hgt | Hle].
    - eexists. unfold bind, print, ret. now rewrite Z.min_r by lia.
    - eexists. unfold ret. now rewrite Z.min_l by lia. }
  destruct Hclamp as (s0 & Hclamp).
  unfold bind at 1. rewrite Hclamp.
  set (n := Z.min num_vehicles max_vehicles).
  destruct (primary_loop_returns (Z.to_nat n) [] 0 s0)
    as (ps1 & c1 & s1 & Hrun1 & Hlen1 & _ & Hhd1 & Happ1).
  unfold bind at 1. rewrite Hrun1.
  destruct (backfill_loop_returns n (S (Z.to_nat n)) ps1 c1 s1)
    as (ps2 & c2 & s2 & Hrun2 & Hlen2 & _ & Hhd2 & Happ2); [lia |].
  unfold bind at 1. rewrite Hrun2.
  exists ps2, c2, s2. cbn [length] in Hlen1.
  split; [reflexivity |]. split; [lia |].
  split; [now rewrite Hhd2, Hhd1 |].
  intros HS0 HL.
  apply (appended_packed line_length min_spacing (2 * min_spacing) ([], 0));
    [| now apply packed_start].
  eapply appended_trans; [exact (Happ1 HS0) |].
  eapply appended_weaken; [| exact (Happ2 HS0)]. lra.
Qed.
End Packer.

(** ** The synthesizer: the loop over [positions] *)

Section Synthesizer.
Variable rs : RandomSource.
Variable self : CarparkVehicleSpawner.
Variables start_loc end_loc : Location.
Variables perp_vec line_dir : Vector3D.
Variable sides_to_use : list string.
Variable line_length : R.

Lemma guarded_t_returns (pos : R) (st : St) :
  (if Rgt_dec line_length 0
   then lift (py_div pos line_length) else ret 0) st
  = Ok ((if Rgt_dec line_length 0 then pos / line_length else 0), st).
Proof.
  destruct (Rgt_dec line_length 0) as [Hpos | _]; [| reflexivity].
  apply lift_div_ok. lra.
Qed.

(** The loop body never raises: its one division is guarded. *)
Lemma spawn_transform_at_returns (pos : R) (st : St) :
  exists item st',
    spawn_transform_at rs self start_loc end_loc perp_vec line_dir
                       sides_to_use line_length pos st = Ok (item, st').
Proof.
  unfold spawn_transform_at.
  destruct (1 <? length sides_to_use)%nat;
    unfold bind at 1; unfold choice, ret at 1;
    unfold bind at 1; rewrite guarded_t_returns;
    unfold bind, uniform, ret; eexists _, _; reflexivity.
Qed.

Lemma transforms_loop_returns (positions : list R) :
  forall spawn_transforms s,
  exists items s',
    transforms_loop rs self start_loc end_loc perp_vec line_dir
                    sides_to_use line_length positions spawn_transforms s
    = Ok (spawn_transforms ++ items, s') /\
    Forall2 (placed_at rs self start_loc end_loc perp_vec line_dir
                       sides_to_use line_length) positions items.
Proof.
  induction positions as [| pos rest IH]; intros acc s; cbn [transforms_loop].
  - exists [], s. rewrite app_nil_r. split; [reflexivity | constructor].
  - destruct (spawn_transform_at_returns pos s) as (item & s1 & Hitem).
    unfold bind. rewrite Hitem.
    destruct (IH (acc ++ [item]) s1) as (items & s' & Hrun & Hall).
    exists (item :: items), s'. rewrite Hrun, <- app_assoc.
    split; [reflexivity |].
    constructor; [now exists s, s1 | exact Hall].
Qed.
(** The body unfolded: the side it picked and the jitter it drew determine
    the item. *)
Lemma placed_at_inv (pos : R) (item : Transform * string) :
  placed_at rs self start_loc end_loc perp_vec line_dir sides_to_use
            line_length pos item ->
  exists side jitter,
    (sides_to_use <> [] -> In side sides_to_use) /\
    -2 <= jitter < 2 /\
    let t := if Rgt_dec line_length 0 then pos / line_length else 0 in
    let offset_direction := if (side =? "right")%string then 1 else -1 in
    let x := loc_x start_loc + t * (loc_x end_loc - loc_x start_loc)
             + offset_direction * parking_offset self * vec_x perp_vec in
    let y := loc_y start_loc + t * (loc_y end_loc - loc_y start_loc)
             + offset_direction * parking_offset self * vec_y perp_vec in
    let z := loc_z start_loc + t * (loc_z end_loc - loc_z start_loc) in
    let base_yaw := degrees (atan2 (vec_y line_dir) (vec_x line_dir)) in
    item =
      (mkTransform
         (mkLocation x y (get_ground_height self (mkLocation x y z)
                          + spawn_height self))
         (mkRotation 0
            ((if (side =? "left")%string then base_yaw + 90
              else base_yaw - 90) + jitter)
            0),
       side).
Proof.
  intros (st & st' & H). unfold spawn_transform_at in H.
  unfold bind at 1 in H.
  set (pick := if (1 <? length sides_to_use)%nat
               then choice rs EmptyString sides_to_use
               else ret (nth 0 sides_to_use EmptyString)) in H.
  assert (Hpick : exists side st1, pick st = Ok (side, st1) /\
                    (sides_to_use <> [] -> In side sides_to_use)).
  { subst pick. destruct (Nat.ltb_spec 1 (length sides_to_use)) as [Hlen | Hlen].
    - eexists _, _. split; [reflexivity |]. intros _.
      apply nth_In, rs_randbelow_range. lia.
    - eexists _, _. split; [reflexivity |]. intros Hne.
      apply nth_In. destruct sides_to_use; [contradiction | cbn; lia]. }
  destruct Hpick as (side & st1 & Hpick & Hin). rewrite Hpick in H.
  unfold bind at 1 in H. rewrite guarded_t_returns in H.
  unfold bind, uniform, ret in H.
  exists side, (-2 + (2 - -2) * rs_random rs (rng_calls st1)).
  split; [exact Hin |].
  split; [pose proof (rs_random_range rs (rng_calls st1)); lra |].
  injection H as <- _. cbn zeta.
  destruct (side =? "left")%string eqn:El; [reflexivity |].
  destruct (side =? "right")%string; reflexivity.
Qed.
End Synthesizer.

(** ** [generate_spawn_positions] as a whole *)

Section Generate.
Variable rs : RandomSource.
Variable self : CarparkVehicleSpawner.
Variables start_loc end_loc : Location.

Lemma segment_length_nonneg : 0 <= segment_length start_loc end_loc.
Proof. apply sqrt_pos. Qed.

(** The side check alone. *)
Lemma side_check_valid (side_type : string) (s : St) :
  valid_side side_type ->
  (if (side_type =? "left")%string then ret ["left"%string]
   else if (side_type =? "right")%string then ret ["right"%string]
   else if (side_type =? "both")%string then ret ["left"%string; "right"%string]
   else raise (ValueError "Invalid side_type")) s
  = Ok (sides_of side_type, s).
Proof. intros [-> | [-> | ->]]; reflexivity. Qed.

Lemma side_check_invalid (side_type : string) (s : St) :
  ~ valid_side side_type ->
  (if (side_type =? "left")%string then ret ["left"%string]
   else if (side_type =? "right")%string then ret ["right"%string]
   else if (side_type =? "both")%string then ret ["left"%string; "right"%string]
   else raise (ValueError "Invalid side_type")) s
  = Raise (ValueError "Invalid side_type").
Proof.
  intros Hinv. unfold valid_side in Hinv.
  destruct (String.eqb_spec side_type "left"); [tauto |].
  destruct (String.eqb_spec side_type "right"); [tauto |].
  destruct (String.eqb_spec side_type "both"); [tauto |].
  reflexivity.
Qed.

Lemma generate_invalid_side (side_type : string) (num_vehicles : Z)
      (min_spacing : R) (s : St) :
  ~ valid_side side_type ->
  generate_spawn_positions rs self start_loc end_loc side_type
                           num_vehicles min_spacing s
  = Raise (ValueError "Invalid side_type").
Proof.
  intros Hinv. unfold generate_spawn_positions.
  destruct (resolver_returns start_loc end_loc s) as (perp & dir & Hres).
  unfold bind at 1. rewrite Hres.
  unfold bind at 1. now rewrite side_check_invalid.
Qed.

Lemma generate_zero_spacing (side_type : string) (num_vehicles : Z) (s : St) :
  valid_side side_type ->
  generate_spawn_positions rs self start_loc end_loc side_type
                           num_vehicles 0 s
  = Raise ZeroDivisionError.
Proof.
  intros Hv. unfold generate_spawn_positions.
  destruct (resolver_returns start_loc end_loc s) as (perp & dir & Hres).
  unfold bind at 1. rewrite Hres.
  unfold bind at 1. rewrite side_check_valid by assumption.
  unfold bind at 1. unfold pack_positions. unfold bind at 1.
  unfold lift. now rewrite py_div_zero.
Qed.

(** With a valid side and a non-zero spacing the call returns: the
    resolver's vectors, the packer's positions, and one item per position,
    in order. *)
Lemma generate_returns (side_type : string) (num_vehicles : Z)
      (min_spacing : R) (s : St) :
  valid_side side_type -> min_spacing <> 0 ->
  exists perp_vec line_dir positions s1 items s2,
    compute_perpendicular_vector start_loc end_loc s
    = Ok ((perp_vec, line_dir), s) /\
    pack_positions rs (segment_length start_loc end_loc) num_vehicles
                   min_spacing s = Ok (positions, s1) /\
    generate_spawn_positions rs self start_loc end_loc side_type
                             num_vehicles min_spacing s = Ok (items, s2) /\
    Forall2 (placed_at rs self start_loc end_loc perp_vec line_dir
                       (sides_of side_type)
                       (segment_length start_loc end_loc))
            positions items.
Proof.
  intros Hv HS. unfold generate_spawn_positions.
  destruct (resolver_returns start_loc end_loc s) as (perp & dir & Hres).
  destruct (pack_positions_returns rs (segment_length start_loc end_loc)
              min_spacing num_vehicles s HS)
    as (ps & c & s1 & Hpack & _).
  destruct (transforms_loop_returns rs self start_loc end_loc perp dir
              (sides_of side_type) (segment_length start_loc end_loc)
              ps [] s1) as (items & s2 & Hloop & Hall).
  exists perp, dir, ps, s1, items, s2.
  split; [exact Hres |]. split; [exact Hpack |]. split; [| exact Hall].
  unfold bind at 1. rewrite Hres.
  unfold bind at 1. rewrite side_check_valid by assumption.
  unfold bind at 1. fold (segment_length start_loc end_loc).
  rewrite Hpack. exact Hloop.
Qed.
End Generate.

(** ** Truncation and floor *)

Lemma py_int_nonneg (x : R) : 0 <= x -> py_int x = Zfloor x.
Proof.
  intros Hx. unfold py_int. destruct (Rle_dec 0 x); [reflexivity | contradiction].
Qed.

Lemma py_int_nonpos (x : R) : x <= 0 -> (py_int x <= 0)%Z.
Proof.
  intros Hx. unfold py_int. destruct (Rle_dec 0 x) as [H0 | _].
  - assert (x = 0) as -> by lra. change 0 with (IZR 0). rewrite ZfloorZ. lia.
  - pose proof (Zceil_bound x) as [Hlo _].
    apply Z.lt_succ_r, lt_IZR. rewrite succ_IZR. lra.
Qed.

Lemma quotient_nonneg (a b : R) : 0 <= a -> 0 < b -> 0 <= a / b.
Proof.
  intros Ha Hb. apply Rmult_le_pos; [exact Ha |].
  left. now apply Rinv_0_lt_compat.
Qed.

Lemma quotient_nonpos (a b : R) : 0 <= a -> b < 0 -> a / b <= 0.
Proof.
  intros Ha Hb. unfold Rdiv.
  pose proof (Rinv_lt_0_compat b Hb). nra.
Qed.

Lemma Zfloor_nonneg (x : R) : 0 <= x -> (0 <= Zfloor x)%Z.
Proof. intros Hx. apply Zfloor_lub. exact Hx. Qed.

(** ** Concrete segments *)

Lemma segment_length_east10 : segment_length origin east10 = 10.
Proof.
  unfold segment_length, origin, east10. cbn [loc_x loc_y loc_z].
  replace ((10 - 0) ^ 2 + (0 - 0) ^ 2 + (0 - 0) ^ 2) with (10 * 10) by ring.
  apply sqrt_square. lra.
Qed.

Lemma valid_left : valid_side "left".
Proof. now left. Qed.

(** ** What the packer guarantees for a positive spacing *)

Lemma packer_facts (rs : RandomSource) (line_length min_spacing : R)
      (num_vehicles : Z) (s : St) :
  0 <= line_length -> 0 < min_spacing ->
  exists positions s1,
    pack_positions rs line_length num_vehicles min_spacing s
    = Ok (positions, s1) /\
    (Z.of_nat (length positions) <= Zfloor (line_length / min_spacing))%Z /\
    (Z.of_nat (length positions) <= Z.max 0 num_vehicles)%Z /\
    chain min_spacing (2 * min_spacing) positions /\
    Forall (fun p => 0 <= p <= line_length) positions.
Proof.
  intros HL HS.
  destruct (pack_positions_returns rs line_length min_spacing num_vehicles s)
    as (ps & c & s1 & Hrun & Hlen & _ & Hpacked); [lra |].
  destruct (Hpacked HS HL) as (Hhd & Hchain & Hlast). cbn [fst snd] in *.
  rewrite py_int_nonneg in Hlen by now apply quotient_nonneg.
  pose proof (Zfloor_nonneg _ (quotient_nonneg _ _ HL HS)) as Hfl.
  exists ps, s1. split; [exact Hrun |].
  split; [lia |]. split; [lia |].
  split; [exact (chain_app_l _ _ _ _ Hchain) |].
  apply Forall_forall. intros p Hp.
  assert (Hin : In p (ps ++ [c])) by (apply in_or_app; now left).
  pose proof (chain_lower _ _ _ (Rlt_le _ _ HS) Hchain p Hin) as Hb.
  rewrite Hhd, last_last in Hb. lra.
Qed.

(** C1.  For a segment of length L > 0, a spacing S > 0 and a requested count
    n >= 0, the packer produces at most floor(L/S) positions and every
    position lies in [0, L]; with a valid side, [generate_spawn_positions]
    returns one item per position. *)
Theorem packer_capacity_and_range
        (rs : RandomSource) (self : CarparkVehicleSpawner)
        (start_loc end_loc : Location) (side_type : string)
        (num_vehicles : Z) (min_spacing : R) (s : St) :
  0 < segment_length start_loc end_loc ->
  0 < min_spacing ->
  (0 <= num_vehicles)%Z ->
  exists positions s1,
    pack_positions rs (segment_length start_loc end_loc) num_vehicles
                   min_spacing s = Ok (positions, s1) /\
    (Z.of_nat (length positions)
     <= Zfloor (segment_length start_loc end_loc / min_spacing))%Z /\
    Forall (fun p => 0 <= p <= segment_length start_loc end_loc) positions /\
    (valid_side side_type ->
     exists items s2,
       generate_spawn_positions rs self start_loc end_loc side_type
                                num_vehicles min_spacing s = Ok (items, s2) /\
       length items = length positions).
Proof.
  intros HL HS Hn.
  destruct (packer_facts rs (segment_length start_loc end_loc) min_spacing
              num_vehicles s) as (ps & s1 & Hpack & Hcap & _ & _ & Hrange);
    [lra | exact HS |].
  exists ps, s1.
  split; [exact Hpack |]. split; [exact Hcap |]. split; [exact Hrange |].
  intros Hv.
  destruct (generate_returns rs self start_loc end_loc side_type num_vehicles
              min_spacing s Hv) as (perp & dir & ps' & s1' & items & s2
                                    & _ & Hpack' & Hrun & Hall); [lra |].
  rewrite Hpack in Hpack'. injection Hpack' as <- <-.
  exists items, s2. split; [exact Hrun |].
  symmetry. exact (Forall2_length Hall).
Qed.

Lemma packer_capacity_and_range_witness :
  exists positions s1,
    pack_positions zero_source (segment_length origin east10) 3 4 st0
    = Ok (positions, s1) /\
    (Z.of_nat (length positions)
     <= Zfloor (segment_length origin east10 / 4))%Z /\
    Forall (fun p => 0 <= p <= segment_length origin east10) positions /\
    (valid_side "left" ->
     exists items s2,
       generate_spawn_positions zero_source (default_spawner empty_world)
                                origin east10 "left" 3 4 st0 = Ok (items, s2) /\
       length items = length positions).
Proof.
  apply packer_capacity_and_range.
  - rewrite segment_length_east10. lra.
  - lra.
  - lia.
Defined.

(** C2.  For L > 0, S > 0, n >= 0 and every random source, the positions are
    strictly increasing in generation order and consecutive positions differ
    by at least S (and by less than 2 S); the spacing drawn in the primary
    pass lies in [S, 2 S), the one drawn in the backfill pass in
    [S, 1.5 S).  With a valid side, [generate_spawn_positions] returns one
    item per position. *)
Theorem packer_monotonic
        (rs : RandomSource) (self : CarparkVehicleSpawner)
        (start_loc end_loc : Location) (side_type : string)
        (num_vehicles : Z) (min_spacing : R) (s : St) :
  0 < segment_length start_loc end_loc ->
  0 < min_spacing ->
  (0 <= num_vehicles)%Z ->
  (exists positions s1,
     pack_positions rs (segment_length start_loc end_loc) num_vehicles
                    min_spacing s = Ok (positions, s1) /\
     (forall i j, (i < j < length positions)%nat ->
                  nth i positions 0 < nth j positions 0) /\
     (forall i, (S i < length positions)%nat ->
                min_spacing <= nth (S i) positions 0 - nth i positions 0
                < 2 * min_spacing) /\
     (valid_side side_type ->
      exists items s2,
        generate_spawn_positions rs self start_loc end_loc side_type
                                 num_vehicles min_spacing s = Ok (items, s2) /\
        length items = length positions)) /\
  (forall st, exists u st',
      uniform rs 0 min_spacing st = Ok (u, st') /\
      min_spacing <= min_spacing + u < 2 * min_spacing) /\
  (forall st, exists u st',
      uniform rs 0 (min_spacing * 0.5) st = Ok (u, st') /\
      min_spacing <= min_spacing + u < 1.5 * min_spacing).
Proof.
  intros HL HS Hn. split; [| split].
  - destruct (packer_facts rs (segment_length start_loc end_loc) min_spacing
                num_vehicles s) as (ps & s1 & Hpack & _ & _ & Hchain & _);
      [lra | exact HS |].
    exists ps, s1. split; [exact Hpack |].
    split; [now apply (chain_increasing min_spacing (2 * min_spacing)) |].
    split; [now apply chain_gap |].
    intros Hv.
    destruct (generate_returns rs self start_loc end_loc side_type
                num_vehicles min_spacing s Hv)
      as (perp & dir & ps' & s1' & items & s2 & _ & Hpack' & Hrun & Hall);
      [lra |].
    rewrite Hpack in Hpack'. injection Hpack' as <- <-.
    exists items, s2. split; [exact Hrun |].
    symmetry. exact (Forall2_length Hall).
  - intros st. eexists _, _. split; [reflexivity |].
    now apply primary_spacing.
  - intros st. eexists _, _. split; [reflexivity |].
    now apply backfill_spacing.
Qed.

Lemma packer_monotonic_witness :
  (exists positions s1,
     pack_positions half_source (segment_length origin east10) 3 4 st0
     = Ok (positions, s1) /\
     (forall i j, (i < j < length positions)%nat ->
                  nth i positions 0 < nth j positions 0) /\
     (forall i, (S i < length positions)%nat ->
                4 <= nth (S i) positions 0 - nth i positions 0 < 2 * 4) /\
     (valid_side "right" ->
      exists items s2,
        generate_spawn_positions half_source (default_spawner flat_world)
                                 origin east10 "right" 3 4 st0
        = Ok (items, s2) /\
        length items = length positions)) /\
  (forall st, exists u st',
      uniform half_source 0 4 st = Ok (u, st') /\ 4 <= 4 + u < 2 * 4) /\
  (forall st, exists u st',
      uniform half_source 0 (4 * 0.5) st = Ok (u, st') /\
      4 <= 4 + u < 1.5 * 4).
Proof.
  apply (packer_monotonic half_source (default_spawner flat_world)
                          origin east10 "right" 3 4 st0).
  - rewrite segment_length_east10. lra.
  - lra.
  - lia.
Defined.

(** ** Running the packer step by step *)

Section PackerSteps.
Variable rs : RandomSource.
Variables line_length min_spacing : R.

Lemma primary_loop_fits (iters : nat) (positions : list R) (c : R) (s : St) :
  c + primary_draw rs min_spacing s <= line_length ->
  primary_loop rs line_length min_spacing (S iters) positions c s
  = primary_loop rs line_length min_spacing iters (positions ++ [c])
                 (c + primary_draw rs min_spacing s) (drawn s).
Proof.
  intros Hfit. cbn [primary_loop]. unfold bind, uniform.
  fold (primary_draw rs min_spacing s). destruct (Rgt_dec _ _); [lra | reflexivity].
Qed.

Lemma primary_loop_breaks (iters : nat) (positions : list R) (c : R) (s : St) :
  c + primary_draw rs min_spacing s > line_length ->
  primary_loop rs line_length min_spacing (S iters) positions c s
  = Ok ((positions, c), drawn s).
Proof.
  intros Hover. cbn [primary_loop]. unfold bind, uniform.
  fold (primary_draw rs min_spacing s). destruct (Rgt_dec _ _); [reflexivity | lra].
Qed.

Lemma backfill_loop_reached (num_vehicles : Z) (fuel : nat)
      (positions : list R) (c : R) (s : St) :
  (num_vehicles <= Z.of_nat (length positions))%Z ->
  backfill_loop rs line_length min_spacing num_vehicles (S fuel) positions c s
  = Ok ((positions, c), s).
Proof.
  intros Hn. cbn [backfill_loop].
  destruct (Z.ltb_spec (Z.of_nat (length positions)) num_vehicles);
    [lia | reflexivity].
Qed.

Lemma backfill_loop_full (num_vehicles : Z) (fuel : nat)
      (positions : list R) (c : R) (s : St) :
  line_length <= c ->
  backfill_loop rs line_length min_spacing num_vehicles (S fuel) positions c s
  = Ok ((positions, c), s).
Proof.
  intros Hc. cbn [backfill_loop].
  destruct (Z.of_nat (length positions) <? num_vehicles)%Z; [| reflexivity].
  destruct (Rlt_dec c line_length); [lra | reflexivity].
Qed.

Lemma backfill_loop_fits (num_vehicles : Z) (fuel : nat)
      (positions : list R) (c : R) (s : St) :
  (Z.of_nat (length positions) < num_vehicles)%Z ->
  c < line_length ->
  c + backfill_draw rs min_spacing s <= line_length ->
  backfill_loop rs line_length min_spacing num_vehicles (S fuel) positions c s
  = backfill_loop rs line_length min_spacing num_vehicles fuel
                  (positions ++ [c]) (c + backfill_draw rs min_spacing s) (drawn s).
Proof.
  intros Hn Hc Hfit. cbn [backfill_loop].
  destruct (Z.ltb_spec (Z.of_nat (length positions)) num_vehicles); [| lia].
  destruct (Rlt_dec c line_length); [| lra].
  unfold bind, uniform. fold (backfill_draw rs min_spacing s).
  destruct (Rle_dec _ _); [reflexivity | lra].
Qed.

Lemma backfill_loop_breaks (num_vehicles : Z) (fuel : nat)
      (positions : list R) (c : R) (s : St) :
  (Z.of_nat (length positions) < num_vehicles)%Z ->
  c < line_length ->
  c + backfill_draw rs min_spacing s > line_length ->
  backfill_loop rs line_length min_spacing num_vehicles (S fuel) positions c s
  = Ok ((positions, c), drawn s).
Proof.
  intros Hn Hc Hover. cbn [backfill_loop].
  destruct (Z.ltb_spec (Z.of_nat (length positions)) num_vehicles); [| lia].
  destruct (Rlt_dec c line_length); [| lra].
  unfold bind, uniform. fold (backfill_draw rs min_spacing s).
  destruct (Rle_dec _ _); [lra | reflexivity].
Qed.

(** The clamp of the requested count. *)
Lemma pack_positions_clamped (num_vehicles max_vehicles : Z) (s : St) :
  min_spacing <> 0 ->
  py_int (line_length / min_spacing) = max_vehicles ->
  (num_vehicles > max_vehicles)%Z ->
  pack_positions rs line_length num_vehicles min_spacing s
  = bind (bind (primary_loop rs line_length min_spacing
                             (Z.to_nat max_vehicles) [] 0)
               (fun q => backfill_loop rs line_length min_spacing
                           max_vehicles (S (Z.to_nat max_vehicles))
                           (fst q) (snd q)))
         (fun q => ret (fst q))
         (mkSt (rng_calls s)
               (stdout s ++ [CapacityWarning num_vehicles max_vehicles])).
Proof.
  intros HS Hmax Hgt. unfold pack_positions.
  unfold bind at 1. rewrite (lift_div_ok _ _ _ HS), Hmax.
  destruct (Z.gtb_spec num_vehicles max_vehicles); [| lia].
  unfold bind, print, ret.
  destruct (primary_loop _ _ _ _ _ _ _) as [[[ps c] s1] | e |]; try reflexivity.
  cbn [fst snd].
  destruct (backfill_loop _ _ _ _ _ _ _ _) as [[[ps' c'] s2] | e |];
    reflexivity.
Qed.

Lemma pack_positions_unclamped (num_vehicles : Z) (s : St) :
  min_spacing <> 0 ->
  (num_vehicles <= py_int (line_length / min_spacing))%Z ->
  pack_positions rs line_length num_vehicles min_spacing s
  = bind (bind (primary_loop rs line_length min_spacing
                             (Z.to_nat num_vehicles) [] 0)
               (fun q => backfill_loop rs line_length min_spacing
                           num_vehicles (S (Z.to_nat num_vehicles))
                           (fst q) (snd q)))
         (fun q => ret (fst q)) s.
Proof.
  intros HS Hle. unfold pack_positions.
  unfold bind at 1. rewrite (lift_div_ok _ _ _ HS).
  destruct (Z.gtb_spec num_vehicles (py_int (line_length / min_spacing)));
    [lia |].
  unfold bind, ret.
  destruct (primary_loop _ _ _ _ _ _ _) as [[[ps c] s1] | e |]; try reflexivity.
  cbn [fst snd].
  destruct (backfill_loop _ _ _ _ _ _ _ _) as [[[ps' c'] s2] | e |];
    reflexivity.
Qed.
End PackerSteps.

Lemma py_int_eq (x : R) (z : Z) :
  (0 <= z)%Z -> IZR z <= x < IZR z + 1 -> py_int x = z.
Proof.
  intros Hz Hx. rewrite py_int_nonneg.
  - now apply Zfloor_eq.
  - apply IZR_le in Hz. lra.
Qed.

(** A run: 10 m of line, 3 vehicles requested 4 m apart, every draw 0.  Two
    fit; they are placed at 0 and 4. *)
Example pack_run :
  pack_positions zero_source 10 3 4 st0
  = Ok ([0; 4], mkSt 2 [CapacityWarning 3 2]).
Proof.
  rewrite (pack_positions_clamped _ _ _ _ 2); [| lra | | lia].
  2: { apply py_int_eq; [lia | lra]. }
  unfold bind at 1. unfold bind at 1. change (Z.to_nat 2) with 2%nat.
  rewrite primary_loop_fits by (unfold primary_draw; cbn; lra).
  rewrite primary_loop_fits by (unfold primary_draw; cbn; lra).
  cbn [primary_loop ret app fst snd].
  rewrite backfill_loop_reached by (cbn; lia).
  unfold primary_draw, drawn, ret. cbn. repeat f_equal; lra.
Qed.

(** ** Outcomes by kind of input *)

Lemma valid_side_dec (side_type : string) :
  {valid_side side_type} + {~ valid_side side_type}.
Proof.
  unfold valid_side.
  destruct (string_dec side_type "left"); [left; tauto |].
  destruct (string_dec side_type "right"); [left; tauto |].
  destruct (string_dec side_type "both"); [left; tauto |].
  right. tauto.
Defined.

(** A call that returns had a valid side and a non-zero spacing. *)
Lemma generate_ok_inv (rs : RandomSource) (self : CarparkVehicleSpawner)
      (start_loc end_loc : Location) (side_type : string)
      (num_vehicles : Z) (min_spacing : R) (s : St)
      (items : list (Transform * string)) (s2 : St) :
  generate_spawn_positions rs self start_loc end_loc side_type
                           num_vehicles min_spacing s = Ok (items, s2) ->
  valid_side side_type /\ min_spacing <> 0.
Proof.
  intros Hrun.
  destruct (valid_side_dec side_type) as [Hv | Hinv].
  - split; [exact Hv |]. intros ->.
    rewrite generate_zero_spacing in Hrun by exact Hv. discriminate.
  - rewrite generate_invalid_side in Hrun by exact Hinv. discriminate.
Qed.

Lemma zero_fraction (line_length : R) :
  (if Rgt_dec line_length 0 then 0 / line_length else 0) = 0.
Proof. destruct (Rgt_dec line_length 0); [unfold Rdiv; ring | reflexivity]. Qed.

(** C10.  Whenever [generate_spawn_positions] returns a non-empty list, the
    first position of the packer is exactly 0, and the first transform sits
    at the segment's start point moved sideways by the parking offset. *)
Theorem first_placement_at_zero
        (rs : RandomSource) (self : CarparkVehicleSpawner)
        (start_loc end_loc : Location) (side_type : string)
        (num_vehicles : Z) (min_spacing : R) (s : St)
        (items : list (Transform * string)) (s2 : St) :
  generate_spawn_positions rs self start_loc end_loc side_type
                           num_vehicles min_spacing s = Ok (items, s2) ->
  items <> [] ->
  exists perp_vec line_dir positions s1 rest tr side items',
    compute_perpendicular_vector start_loc end_loc s
    = Ok ((perp_vec, line_dir), s) /\
    pack_positions rs (segment_length start_loc end_loc) num_vehicles
                   min_spacing s = Ok (positions, s1) /\
    positions = 0 :: rest /\
    items = (tr, side) :: items' /\
    loc_x (location tr)
    = loc_x start_loc
      + (if (side =? "right")%string then 1 else -1)
        * parking_offset self * vec_x perp_vec /\
    loc_y (location tr)
    = loc_y start_loc
      + (if (side =? "right")%string then 1 else -1)
        * parking_offset self * vec_y perp_vec.
Proof.
  intros Hrun Hne.
  destruct (generate_ok_inv _ _ _ _ _ _ _ _ _ _ Hrun) as [Hv HS].
  destruct (generate_returns rs self start_loc end_loc side_type num_vehicles
              min_spacing s Hv HS)
    as (perp & dir & ps & s1 & items0 & s2' & Hres & Hpack & Hrun' & Hall).
  rewrite Hrun in Hrun'. injection Hrun' as <- <-.
  destruct (pack_positions_returns rs (segment_length start_loc end_loc)
              min_spacing num_vehicles s HS)
    as (ps' & c & s1' & Hpack' & _ & Hhd & _).
  rewrite Hpack in Hpack'. injection Hpack' as <- <-.
  destruct Hall as [| p item rest items' Hitem Hrest]; [contradiction |].
  cbn in Hhd. subst p.
  destruct (placed_at_inv _ _ _ _ _ _ _ _ _ _ Hitem)
    as (side & jitter & _ & _ & Heq).
  cbn zeta in Heq. rewrite zero_fraction in Heq.
  exists perp, dir, (0 :: rest), s1, rest. eexists _, side, items'.
  split; [exact Hres |]. split; [exact Hpack |]. split; [reflexivity |].
  split; [rewrite Heq; reflexivity |].
  cbn [location loc_x loc_y]. split; ring.
Qed.

(** The run of [pack_run], seen through [generate_spawn_positions]. *)
Lemma generate_run_nonempty :
  exists items s2,
    generate_spawn_positions zero_source (default_spawner empty_world)
                             origin east10 "left" 3 4 st0 = Ok (items, s2) /\
    items <> [].
Proof.
  destruct (generate_returns zero_source (default_spawner empty_world)
              origin east10 "left" 3 4 st0 valid_left)
    as (perp & dir & ps & s1 & items & s2 & _ & Hpack & Hrun & Hall); [lra |].
  rewrite segment_length_east10, pack_run in Hpack.
  injection Hpack as <- <-.
  exists items, s2. split; [exact Hrun |].
  inversion Hall. discriminate.
Qed.

Lemma first_placement_at_zero_witness :
  exists items s2,
    generate_spawn_positions zero_source (default_spawner empty_world)
                             origin east10 "left" 3 4 st0 = Ok (items, s2) /\
    items <> [] /\
    exists perp_vec line_dir positions s1 rest tr side items',
      compute_perpendicular_vector origin east10 st0
      = Ok ((perp_vec, line_dir), st0) /\
      pack_positions zero_source (segment_length origin east10) 3 4 st0
      = Ok (positions, s1) /\
      positions = 0 :: rest /\
      items = (tr, side) :: items' /\
      loc_x (location tr)
      = loc_x origin
        + (if (side =? "right")%string then 1 else -1)
          * parking_offset (default_spawner empty_world) * vec_x perp_vec /\
      loc_y (location tr)
      = loc_y origin
        + (if (side =? "right")%string then 1 else -1)
          * parking_offset (default_spawner empty_world) * vec_y perp_vec.
Proof.
  destruct generate_run_nonempty as (items & s2 & Hrun & Hne).
  exists items, s2. split; [exact Hrun |]. split; [exact Hne |].
  exact (first_placement_at_zero _ _ _ _ _ _ _ _ _ _ Hrun Hne).
Defined.

(** ** Poses *)

Lemma Forall2_right {A B : Type} (P : A -> B -> Prop) (Q : B -> Prop)
      (l : list A) (l' : list B) :
  (forall a b, P a b -> Q b) -> Forall2 P l l' -> Forall Q l'.
Proof. intros HPQ. induction 1; constructor; eauto. Qed.

Lemma get_ground_height_miss (self : CarparkVehicleSpawner) (loc : Location) :
  ground_query_misses (world self) (loc_x loc) (loc_y loc) (loc_z loc) ->
  get_ground_height self loc = loc_z loc.
Proof.
  unfold ground_query_misses, get_ground_height. intros ->. reflexivity.
Qed.

Lemma get_ground_height_hit (self : CarparkVehicleSpawner) (loc : Location)
      (hit : LabelledPoint) (hits : list LabelledPoint) :
  cast_ray (world self)
           (mkLocation (loc_x loc) (loc_y loc) (loc_z loc + 1000))
           (mkLocation (loc_x loc) (loc_y loc) (loc_z loc - 1000))
  = hit :: hits ->
  get_ground_height self loc = loc_z (lp_location hit).
Proof. unfold get_ground_height. intros ->. reflexivity. Qed.

(** C5.  When the ground query of a placement returns no hit,
    [get_ground_height] gives back the z it was asked about, and the z of the
    resulting pose is the z of the interpolated point plus [spawn_height];
    the call returns normally. *)
Theorem ground_miss_fallback
        (rs : RandomSource) (self : CarparkVehicleSpawner)
        (start_loc end_loc : Location) (side_type : string)
        (num_vehicles : Z) (min_spacing : R) (s : St) :
  valid_side side_type -> min_spacing <> 0 ->
  (forall loc,
      ground_query_misses (world self) (loc_x loc) (loc_y loc) (loc_z loc) ->
      get_ground_height self loc = loc_z loc) /\
  exists positions s1 items s2,
    pack_positions rs (segment_length start_loc end_loc) num_vehicles
                   min_spacing s = Ok (positions, s1) /\
    generate_spawn_positions rs self start_loc end_loc side_type
                             num_vehicles min_spacing s = Ok (items, s2) /\
    Forall2
      (fun pos item =>
         let pose := location (fst item) in
         let z := loc_z (line_point start_loc end_loc
                                    (segment_length start_loc end_loc) pos) in
         ground_query_misses (world self) (loc_x pose) (loc_y pose) z ->
         loc_z pose = z + spawn_height self)
      positions items.
Proof.
  intros Hv HS. split; [exact (get_ground_height_miss self) |].
  destruct (generate_returns rs self start_loc end_loc side_type num_vehicles
              min_spacing s Hv HS)
    as (perp & dir & ps & s1 & items & s2 & _ & Hpack & Hrun & Hall).
  exists ps, s1, items, s2. split; [exact Hpack |]. split; [exact Hrun |].
  eapply Forall2_impl; [| exact Hall].
  intros pos item Hitem.
  destruct (placed_at_inv _ _ _ _ _ _ _ _ _ _ Hitem)
    as (side & jitter & _ & _ & Heq).
  cbn zeta in Heq. subst item. cbn [fst location loc_x loc_y loc_z line_point].
  intros Hmiss. now rewrite get_ground_height_miss.
Qed.

Lemma ground_miss_fallback_witness :
  (forall loc,
      ground_query_misses (world (default_spawner empty_world))
                          (loc_x loc) (loc_y loc) (loc_z loc) ->
      get_ground_height (default_spawner empty_world) loc = loc_z loc) /\
  exists positions s1 items s2,
    pack_positions zero_source (segment_length origin east10) 3 4 st0
    = Ok (positions, s1) /\
    generate_spawn_positions zero_source (default_spawner empty_world)
                             origin east10 "left" 3 4 st0 = Ok (items, s2) /\
    Forall2
      (fun pos item =>
         let pose := location (fst item) in
         let z := loc_z (line_point origin east10
                                    (segment_length origin east10) pos) in
         ground_query_misses (world (default_spawner empty_world))
                             (loc_x pose) (loc_y pose) z ->
         loc_z pose = z + spawn_height (default_spawner empty_world))
      positions items.
Proof.
  apply ground_miss_fallback; [exact valid_left | lra].
Defined.

(** ** Yaw *)

Lemma atan2_east : atan2 0 1 = 0.
Proof.
  unfold atan2. destruct (Rlt_dec 0 1); [| lra].
  replace (0 / 1) with 0 by field. exact atan_0.
Qed.

Lemma base_yaw_east : degrees (atan2 0 1) = 0.
Proof. rewrite atan2_east. unfold degrees. apply Rmult_0_l. Qed.

Lemma sides_of_valid (side_type side : string) :
  valid_side side_type -> In side (sides_of side_type) ->
  side = "left"%string \/ side = "right"%string.
Proof.
  intros [-> | [-> | ->]]; cbn; intros H; intuition auto.
Qed.

(** C6.  Pitch and roll of every produced transform are 0.  On a segment
    whose unit direction is (1,0,0), the yaw of a placement is a base yaw
    plus a perturbation in [-2, 2], the base yaw being +90 degrees on the
    left side and -90 degrees on the right side. *)
Theorem due_east_yaw
        (rs : RandomSource) (self : CarparkVehicleSpawner)
        (start_loc end_loc : Location) (side_type : string)
        (num_vehicles : Z) (min_spacing : R) (s : St) (perp_vec : Vector3D) :
  valid_side side_type -> min_spacing <> 0 ->
  exists items s2,
    generate_spawn_positions rs self start_loc end_loc side_type
                             num_vehicles min_spacing s = Ok (items, s2) /\
    Forall (fun item => pitch (rotation (fst item)) = 0 /\
                        roll (rotation (fst item)) = 0) items /\
    (compute_perpendicular_vector start_loc end_loc s
     = Ok ((perp_vec, mkVector3D 1 0 0), s) ->
     Forall (fun item =>
               exists base_yaw jitter,
                 yaw (rotation (fst item)) = base_yaw + jitter /\
                 -2 <= jitter <= 2 /\
                 ((snd item = "left"%string /\ base_yaw = 90) \/
                  (snd item = "right"%string /\ base_yaw = -90)))
            items).
Proof.
  intros Hv HS.
  destruct (generate_returns rs self start_loc end_loc side_type num_vehicles
              min_spacing s Hv HS)
    as (perp & dir & ps & s1 & items & s2 & Hres & _ & Hrun & Hall).
  exists items, s2. split; [exact Hrun |]. split.
  - eapply Forall2_right; [| exact Hall]. intros pos item Hitem.
    destruct (placed_at_inv _ _ _ _ _ _ _ _ _ _ Hitem)
      as (side & jitter & _ & _ & Heq).
    cbn zeta in Heq. subst item. split; reflexivity.
  - intros Heast. rewrite Hres in Heast. injection Heast as -> ->.
    eapply Forall2_right; [| exact Hall]. intros pos item Hitem.
    destruct (placed_at_inv _ _ _ _ _ _ _ _ _ _ Hitem)
      as (side & jitter & Hin & Hj & Heq).
    cbn zeta in Heq. subst item. cbn [fst snd rotation yaw vec_x vec_y].
    rewrite base_yaw_east.
    assert (Hside : side = "left"%string \/ side = "right"%string).
    { apply (sides_of_valid side_type); [exact Hv |]. apply Hin.
      destruct Hv as [-> | [-> | ->]]; discriminate. }
    destruct Hside as [-> | ->]; cbn [String.eqb Ascii.eqb Bool.eqb].
    + exists 90, jitter. split; [ring |]. split; [lra |]. left. now split.
    + exists (-90), jitter. split; [ring |]. split; [lra |]. right. now split.
Qed.

(** The resolver on a segment running due east. *)
Lemma resolver_due_east (start_loc end_loc : Location) (s : St) :
  loc_y end_loc = loc_y start_loc ->
  loc_z end_loc = loc_z start_loc ->
  0.001 <= loc_x end_loc - loc_x start_loc ->
  compute_perpendicular_vector start_loc end_loc s
  = Ok ((mkVector3D 0 1 0, mkVector3D 1 0 0), s).
Proof.
  intros Hy Hz Hx. unfold compute_perpendicular_vector.
  cbn [vec_x vec_y vec_z]. rewrite Hy, Hz.
  set (d := loc_x end_loc - loc_x start_loc) in *.
  set (y := loc_y start_loc). set (z := loc_z start_loc).
  replace (sqrt (d ^ 2 + (y - y) ^ 2 + (z - z) ^ 2)) with d.
  2: { replace (d ^ 2 + (y - y) ^ 2 + (z - z) ^ 2) with (d * d) by ring.
       symmetry. apply sqrt_square. lra. }
  destruct (Rlt_dec d 0.001); [lra |].
  assert (Hd : d <> 0) by lra.
  unfold bind at 1. rewrite (lift_div_ok _ _ _ Hd).
  unfold bind at 1. rewrite (lift_div_ok _ _ _ Hd).
  unfold bind at 1. rewrite (lift_div_ok _ _ _ Hd).
  cbn [vec_x vec_y vec_z].
  replace (sqrt ((- ((y - y) / d)) ^ 2 + (d / d) ^ 2)) with 1.
  2: { replace ((- ((y - y) / d)) ^ 2 + (d / d) ^ 2) with 1 by (field; lra).
       symmetry. exact sqrt_1. }
  destruct (Rgt_dec 1 0.001); [| lra].
  unfold bind at 1. unfold bind at 1. rewrite lift_div_ok by lra.
  unfold bind at 1. rewrite lift_div_ok by lra.
  unfold ret. repeat f_equal; field; lra.
Qed.

Lemma due_east_yaw_witness :
  exists items s2,
    generate_spawn_positions zero_source (default_spawner empty_world)
                             origin east10 "both" 3 4 st0 = Ok (items, s2) /\
    Forall (fun item => pitch (rotation (fst item)) = 0 /\
                        roll (rotation (fst item)) = 0) items /\
    Forall (fun item =>
              exists base_yaw jitter,
                yaw (rotation (fst item)) = base_yaw + jitter /\
                -2 <= jitter <= 2 /\
                ((snd item = "left"%string /\ base_yaw = 90) \/
                 (snd item = "right"%string /\ base_yaw = -90)))
           items.
Proof.
  destruct (due_east_yaw zero_source (default_spawner empty_world)
              origin east10 "both" 3 4 st0 (mkVector3D 0 1 0))
    as (items & s2 & Hrun & Hflat & Hyaw).
  - right. right. reflexivity.
  - lra.
  - exists items, s2. split; [exact Hrun |]. split; [exact Hflat |].
    apply Hyaw. apply resolver_due_east; cbn; lra.
Defined.

(** ** Validation *)

(** C7.  A side specification other than "left", "right" and "both" makes
    [generate_spawn_positions] raise [ValueError], whatever the other
    arguments; one of the three never makes it raise [ValueError]. *)
Theorem side_validation
        (rs : RandomSource) (self : CarparkVehicleSpawner)
        (start_loc end_loc : Location) (side_type : string)
        (num_vehicles : Z) (min_spacing : R) (s : St) :
  (~ valid_side side_type ->
   generate_spawn_positions rs self start_loc end_loc side_type
                            num_vehicles min_spacing s
   = Raise (ValueError "Invalid side_type")) /\
  (valid_side side_type ->
   forall msg,
     generate_spawn_positions rs self start_loc end_loc side_type
                              num_vehicles min_spacing s
     <> Raise (ValueError msg)).
Proof.
  split.
  - apply generate_invalid_side.
  - intros Hv msg. destruct (Req_dec_T min_spacing 0) as [-> | HS].
    + rewrite generate_zero_spacing by exact Hv. discriminate.
    + destruct (generate_returns rs self start_loc end_loc side_type
                  num_vehicles min_spacing s Hv HS)
        as (perp & dir & ps & s1 & items & s2 & _ & _ & Hrun & _).
      rewrite Hrun. discriminate.
Qed.

Lemma invalid_up : ~ valid_side "up".
Proof. intros [H | [H | H]]; discriminate. Qed.

Lemma side_validation_witness :
  generate_spawn_positions zero_source (default_spawner empty_world)
                           origin east10 "up" 3 4 st0
  = Raise (ValueError "Invalid side_type") /\
  forall msg,
    generate_spawn_positions zero_source (default_spawner empty_world)
                             origin east10 "left" 3 4 st0
    <> Raise (ValueError msg).
Proof.
  split.
  - exact (proj1 (side_validation zero_source (default_spawner empty_world)
                    origin east10 "up" 3 4 st0) invalid_up).
  - exact (proj2 (side_validation zero_source (default_spawner empty_world)
                    origin east10 "left" 3 4 st0) valid_left).
Defined.

(** ** Negative spacing *)

Lemma pack_positions_negative (rs : RandomSource) (line_length min_spacing : R)
      (num_vehicles : Z) (s : St) :
  0 <= line_length -> min_spacing < 0 ->
  exists s',
    pack_positions rs line_length num_vehicles min_spacing s = Ok ([], s') /\
    rng_calls s' = rng_calls s.
Proof.
  intros HL HS.
  pose proof (py_int_nonpos _ (quotient_nonpos _ _ HL HS)) as Hmax.
  assert (HS0 : min_spacing <> 0) by lra.
  destruct (Z_gt_le_dec num_vehicles (py_int (line_length / min_spacing)))
    as [Hgt | Hle].
  - rewrite (pack_positions_clamped _ _ _ _ _ _ HS0 eq_refl Hgt).
    replace (Z.to_nat (py_int (line_length / min_spacing))) with 0%nat by lia.
    cbn [primary_loop].
    unfold bind, ret. cbn [fst snd].
    rewrite backfill_loop_reached by (cbn; lia).
    eexists. split; reflexivity.
  - rewrite (pack_positions_unclamped _ _ _ _ _ HS0 Hle).
    replace (Z.to_nat num_vehicles) with 0%nat by lia.
    cbn [primary_loop].
    unfold bind, ret. cbn [fst snd].
    rewrite backfill_loop_reached by (cbn; lia).
    eexists. split; reflexivity.
Qed.

Lemma generate_negative_spacing
      (rs : RandomSource) (self : CarparkVehicleSpawner)
      (start_loc end_loc : Location) (side_type : string)
      (num_vehicles : Z) (min_spacing : R) (s : St) :
  valid_side side_type -> min_spacing < 0 ->
  exists s',
    generate_spawn_positions rs self start_loc end_loc side_type
                             num_vehicles min_spacing s = Ok ([], s') /\
    rng_calls s' = rng_calls s.
Proof.
  intros Hv HS.
  destruct (pack_positions_negative rs (segment_length start_loc end_loc)
              min_spacing num_vehicles s (segment_length_nonneg _ _) HS)
    as (s' & Hpack & Hcalls).
  destruct (resolver_returns start_loc end_loc s) as (perp & dir & Hres).
  exists s'. split; [| exact Hcalls].
  unfold generate_spawn_positions.
  unfold bind at 1. rewrite Hres.
  unfold bind at 1. rewrite side_check_valid by exact Hv.
  unfold bind at 1. fold (segment_length start_loc end_loc).
  rewrite Hpack. reflexivity.
Qed.

(** C3, as the code has it.  A negative spacing is not rejected: with a
    valid side the call returns the empty list, without a draw from the
    random generator. *)
Theorem negative_spacing_returns_empty
        (rs : RandomSource) (self : CarparkVehicleSpawner)
        (start_loc end_loc : Location) (side_type : string)
        (num_vehicles : Z) (min_spacing : R) (s : St) :
  valid_side side_type -> min_spacing < 0 ->
  exists s',
    generate_spawn_positions rs self start_loc end_loc side_type
                             num_vehicles min_spacing s = Ok ([], s') /\
    rng_calls s' = rng_calls s.
Proof. apply generate_negative_spacing. Qed.

Lemma negative_spacing_returns_empty_witness :
  exists s',
    generate_spawn_positions zero_source (default_spawner empty_world)
                             origin east10 "left" 3 (-1) st0 = Ok ([], s') /\
    rng_calls s' = rng_calls st0.
Proof.
  apply negative_spacing_returns_empty; [exact valid_left | lra].
Defined.

(** A run with a negative spacing: 10 m of line, 3 vehicles, spacing -1.
    The capacity is [int(10 / -1) = -10], the count is clamped to it with
    the capacity warning, and no position is generated. *)
Example negative_spacing_run :
  generate_spawn_positions zero_source (default_spawner empty_world)
                           origin east10 "left" 3 (-1) st0
  = Ok ([], mkSt 0 [CapacityWarning 3 (-10)]).
Proof.
  unfold generate_spawn_positions.
  unfold bind at 1. rewrite resolver_due_east by (cbn; lra).
  unfold bind at 1. rewrite side_check_valid by exact valid_left.
  unfold bind at 1. fold (segment_length origin east10).
  rewrite segment_length_east10.
  rewrite (pack_positions_clamped _ _ _ _ (-10)); [| lra | | lia].
  2: { unfold py_int. destruct (Rle_dec 0 (10 / -1)); [lra |].
       apply Zceil_eq. lra. }
  reflexivity.
Qed.

(** C3, as stated, fails on that run: the call raises nothing; it returns
    the empty list. *)
Lemma negative_spacing_not_rejected :
  generate_spawn_positions zero_source (default_spawner empty_world)
                           origin east10 "left" 3 (-1) st0
  = Ok ([], mkSt 0 [CapacityWarning 3 (-10)]) /\
  ~ exists e,
      generate_spawn_positions zero_source (default_spawner empty_world)
                               origin east10 "left" 3 (-1) st0 = Raise e.
Proof.
  assert (Hrun :
    generate_spawn_positions zero_source (default_spawner empty_world)
                             origin east10 "left" 3 (-1) st0
    = Ok ([], mkSt 0 [CapacityWarning 3 (-10)])).
  { apply negative_spacing_run. }
  split; [exact Hrun |].
  intros (e & Hraise). rewrite Hrun in Hraise. discriminate.
Qed.
(** ** The resolver *)

Lemma segment_length_same (loc : Location) : segment_length loc loc = 0.
Proof.
  unfold segment_length.
  replace ((loc_x loc - loc_x loc) ^ 2 + (loc_y loc - loc_y loc) ^ 2
           + (loc_z loc - loc_z loc) ^ 2) with 0 by ring.
  exact sqrt_0.
Qed.

(** C4.  On a degenerate segment (length below 0.001, in particular equal
    ends) the resolver returns (1,0,0) for both vectors; on every pair of
    points it returns without raising, so no division by zero occurs. *)
Theorem resolver_degenerate_fallback
        (start_loc end_loc : Location) (s : St) :
  (segment_length start_loc end_loc < 0.001 ->
   compute_perpendicular_vector start_loc end_loc s
   = Ok ((mkVector3D 1 0 0, mkVector3D 1 0 0), s)) /\
  compute_perpendicular_vector start_loc start_loc s
  = Ok ((mkVector3D 1 0 0, mkVector3D 1 0 0), s) /\
  exists perp_vec line_dir,
    compute_perpendicular_vector start_loc end_loc s
    = Ok ((perp_vec, line_dir), s).
Proof.
  split; [apply resolver_short_segment |]. split.
  - apply resolver_short_segment. rewrite segment_length_same. lra.
  - apply resolver_returns.
Qed.

Lemma resolver_degenerate_fallback_witness :
  compute_perpendicular_vector origin (mkLocation 0.0005 0 0) st0
  = Ok ((mkVector3D 1 0 0, mkVector3D 1 0 0), st0).
Proof.
  apply (proj1 (resolver_degenerate_fallback origin (mkLocation 0.0005 0 0) st0)).
  unfold segment_length, origin. cbn [loc_x loc_y loc_z].
  replace ((0.0005 - 0) ^ 2 + (0 - 0) ^ 2 + (0 - 0) ^ 2)
    with (0.0005 * 0.0005) by ring.
  rewrite sqrt_square; lra.
Defined.

(** ** The two script variants *)

Lemma bind_ext {A B : Type} (m m' : M A) (k k' : A -> M B) (s : St) :
  m s = m' s -> (forall a s', k a s' = k' a s') ->
  bind m k s = bind m' k' s.
Proof.
  intros Hm Hk. unfold bind. rewrite Hm.
  destruct (m' s) as [[a s'] | e |]; [apply Hk | reflexivity | reflexivity].
Qed.

Section Variants.
Variable rs : RandomSource.
Variable self : CarparkVehicleSpawner.
Variable self' : SpawnCarparkStatic.CarparkVehicleSpawner.
Hypothesis same_world : SpawnCarparkStatic.world self' = world self.
Hypothesis same_height :
  SpawnCarparkStatic.spawn_height self' = spawn_height self.
Hypothesis same_offset :
  SpawnCarparkStatic.parking_offset self' = parking_offset self.

Lemma get_ground_height_same (loc : Location) :
  SpawnCarparkStatic.get_ground_height self' loc
  = get_ground_height self loc.
Proof.
  unfold SpawnCarparkStatic.get_ground_height, get_ground_height.
  now rewrite same_world.
Qed.

(** The resolver uses none of the spawner's attributes: the two
    definitions unfold to the same term. *)
Lemma compute_perpendicular_vector_same (start_loc end_loc : Location)
      (s : St) :
  SpawnCarparkStatic.compute_perpendicular_vector start_loc end_loc s
  = compute_perpendicular_vector start_loc end_loc s.
Proof. reflexivity. Qed.

Lemma primary_loop_same (line_length min_spacing : R) (iters : nat) :
  forall positions current_pos s,
    SpawnCarparkStatic.primary_loop rs line_length min_spacing iters
                                    positions current_pos s
    = primary_loop rs line_length min_spacing iters positions current_pos s.
Proof.
  induction iters as [| iters IH]; intros ps c s; [reflexivity |].
  cbn [SpawnCarparkStatic.primary_loop primary_loop].
  apply bind_ext; [reflexivity | intros u s0].
  destruct (Rgt_dec _ _); [reflexivity | apply IH].
Qed.

Lemma backfill_loop_same (line_length min_spacing : R) (num_vehicles : Z)
      (fuel : nat) :
  forall positions current_pos s,
    SpawnCarparkStatic.backfill_loop rs line_length min_spacing num_vehicles
                                     fuel positions current_pos s
    = backfill_loop rs line_length min_spacing num_vehicles fuel
                    positions current_pos s.
Proof.
  induction fuel as [| fuel IH]; intros ps c s; [reflexivity |].
  cbn [SpawnCarparkStatic.backfill_loop backfill_loop].
  destruct (_ <? _)%Z; [| reflexivity].
  destruct (Rlt_dec _ _); [| reflexivity].
  apply bind_ext; [reflexivity | intros u s0].
  destruct (Rle_dec _ _); [apply IH | reflexivity].
Qed.

Lemma pack_positions_same (line_length : R) (num_vehicles : Z)
      (min_spacing : R) (s : St) :
  SpawnCarparkStatic.pack_positions rs line_length num_vehicles min_spacing s
  = pack_positions rs line_length num_vehicles min_spacing s.
Proof.
  unfold SpawnCarparkStatic.pack_positions, pack_positions.
  apply bind_ext; [reflexivity | intros q s0].
  apply bind_ext; [reflexivity | intros n s1].
  apply bind_ext; [apply primary_loop_same | intros [ps c] s2].
  apply bind_ext; [apply backfill_loop_same | intros [ps' c'] s3].
  reflexivity.
Qed.

Lemma spawn_transform_at_same (start_loc end_loc : Location)
      (perp_vec line_dir : Vector3D) (sides_to_use : list string)
      (line_length pos : R) (s : St) :
  SpawnCarparkStatic.spawn_transform_at rs self' start_loc end_loc perp_vec
    line_dir sides_to_use line_length pos s
  = spawn_transform_at rs self start_loc end_loc perp_vec line_dir
                       sides_to_use line_length pos s.
Proof.
  unfold SpawnCarparkStatic.spawn_transform_at, spawn_transform_at.
  apply bind_ext; [reflexivity | intros side s0].
  apply bind_ext; [reflexivity | intros t s1].
  apply bind_ext; [reflexivity | intros jitter s2].
  now rewrite get_ground_height_same, same_height, same_offset.
Qed.

Lemma transforms_loop_same (start_loc end_loc : Location)
      (perp_vec line_dir : Vector3D) (sides_to_use : list string)
      (line_length : R) (positions : list R) :
  forall spawn_transforms s,
    SpawnCarparkStatic.transforms_loop rs self' start_loc end_loc perp_vec
      line_dir sides_to_use line_length positions spawn_transforms s
    = transforms_loop rs self start_loc end_loc perp_vec line_dir
                      sides_to_use line_length positions spawn_transforms s.
Proof.
  induction positions as [| pos rest IH]; intros acc s; [reflexivity |].
  cbn [SpawnCarparkStatic.transforms_loop transforms_loop].
  apply bind_ext; [apply spawn_transform_at_same | intros item s0].
  apply IH.
Qed.

Lemma generate_spawn_positions_same (start_loc end_loc : Location)
      (side_type : string) (num_vehicles : Z) (min_spacing : R) (s : St) :
  SpawnCarparkStatic.generate_spawn_positions rs self' start_loc end_loc
    side_type num_vehicles min_spacing s
  = generate_spawn_positions rs self start_loc end_loc side_type
                             num_vehicles min_spacing s.
Proof.
  unfold SpawnCarparkStatic.generate_spawn_positions,
    generate_spawn_positions.
  apply bind_ext;
    [apply compute_perpendicular_vector_same | intros [perp dir] s0].
  apply bind_ext; [reflexivity | intros sides s1].
  apply bind_ext; [apply pack_positions_same | intros ps s2].
  apply transforms_loop_same.
Qed.
End Variants.

(** C9.  The two variants compute the same thing: for spawners with the same
    world, spawn height and parking offset, every input, every random source
    and every state, [generate_spawn_positions] of [spawn_carpark_static.py]
    and of [spawn_carpark.py] have the same outcome, and so have their
    [compute_perpendicular_vector]. *)
Theorem variants_agree
        (rs : RandomSource) (self : CarparkVehicleSpawner)
        (self' : SpawnCarparkStatic.CarparkVehicleSpawner)
        (start_loc end_loc : Location) (side_type : string)
        (num_vehicles : Z) (min_spacing : R) (s : St) :
  SpawnCarparkStatic.world self' = world self ->
  SpawnCarparkStatic.spawn_height self' = spawn_height self ->
  SpawnCarparkStatic.parking_offset self' = parking_offset self ->
  SpawnCarparkStatic.generate_spawn_positions rs self' start_loc end_loc
    side_type num_vehicles min_spacing s
  = generate_spawn_positions rs self start_loc end_loc side_type
                             num_vehicles min_spacing s /\
  SpawnCarparkStatic.compute_perpendicular_vector start_loc end_loc s
  = compute_perpendicular_vector start_loc end_loc s.
Proof.
  intros Hw Hh Ho. split.
  - now apply generate_spawn_positions_same.
  - reflexivity.
Qed.

Lemma variants_agree_witness :
  SpawnCarparkStatic.generate_spawn_positions
    half_source (default_static_spawner flat_world) origin east10 "both" 3 4 st0
  = generate_spawn_positions
      half_source (default_spawner flat_world) origin east10 "both" 3 4 st0 /\
  SpawnCarparkStatic.compute_perpendicular_vector origin east10 st0
  = compute_perpendicular_vector origin east10 st0.
Proof.
  apply variants_agree; reflexivity.
Defined.

(** ** Keyword filtering *)

Local Open Scope string_scope.

Lemma prefix_spec (needle hay : string) :
  String.prefix needle hay = true <-> exists suf, hay = needle ++ suf.
Proof.
  revert needle. induction hay as [| b hay IH]; intros [| a needle]; cbn.
  - split; [intros _; now exists EmptyString | reflexivity].
  - split; [discriminate | intros (suf & H); discriminate].
  - split; [intros _; now exists (String b hay) | reflexivity].
  - destruct (ascii_dec a b) as [-> | Hne].
    + rewrite IH. split; intros (suf & H); exists suf.
      * now rewrite H.
      * now injection H.
    + split; [discriminate |]. intros (suf & H). injection H as Hab _.
      now elim Hne.
Qed.

Lemma str_in_spec (needle hay : string) :
  str_in needle hay = true <-> exists pre suf, hay = pre ++ needle ++ suf.
Proof.
  induction hay as [| b hay IH]; cbn [str_in].
  - destruct (String.prefix needle EmptyString) eqn:Hp.
    + apply prefix_spec in Hp as (suf & Hp).
      split; [intros _; now exists EmptyString, suf | reflexivity].
    + split; [discriminate |]. intros ([| c pre] & suf & H); [| discriminate].
      assert (String.prefix needle EmptyString = true)
        by (apply prefix_spec; now exists suf).
      congruence.
  - destruct (String.prefix needle (String b hay)) eqn:Hp.
    + apply prefix_spec in Hp as (suf & Hp).
      split; [intros _; now exists EmptyString, suf | reflexivity].
    + rewrite IH. split.
      * intros (pre & suf & ->). now exists (String b pre), suf.
      * intros ([| c pre] & suf & H).
        -- assert (String.prefix needle (String b hay) = true)
             by (apply prefix_spec; now exists suf).
           congruence.
        -- injection H as _ ->. now exists pre, suf.
Qed.

Lemma lower_append (a b : string) : lower (a ++ b) = lower a ++ lower b.
Proof. induction a as [| c a IH]; cbn; [reflexivity | now rewrite IH]. Qed.

Lemma lower_split (s a b : string) :
  lower s = a ++ b ->
  exists a' b', s = a' ++ b' /\ lower a' = a /\ lower b' = b.
Proof.
  revert s. induction a as [| c a IH]; intros s H.
  - now exists EmptyString, s.
  - destruct s as [| d s]; [discriminate |]. cbn in H.
    injection H as Hc H. destruct (IH s H) as (a' & b' & -> & <- & <-).
    exists (String d a'), b'. cbn. now rewrite Hc.
Qed.

(** The test of the code, [keyword.lower() in bp.id.lower()], decides
    case-insensitive containment. *)
Lemma keyword_test_spec (keyword name : string) :
  str_in (lower keyword) (lower name) = true <-> ci_contains keyword name.
Proof.
  rewrite str_in_spec. unfold ci_contains. split.
  - intros (pre & suf & H).
    apply lower_split in H as (pre' & rest & -> & _ & Hrest).
    apply lower_split in Hrest as (mid & suf' & -> & Hmid & _).
    now exists pre', mid, suf'.
  - intros (pre & mid & suf & -> & Hmid).
    exists (lower pre), (lower suf). now rewrite !lower_append, Hmid.
Qed.

Lemma excluded_spec (keywords : list string) (bp : ActorBlueprint) :
  existsb (fun keyword => str_in (lower keyword) (lower (bp_id bp))) keywords
  = true <-> excluded_by keywords bp.
Proof.
  rewrite existsb_exists. unfold excluded_by.
  split; intros (kw & Hin & H); exists kw; (split; [exact Hin |]);
    now apply keyword_test_spec.
Qed.

Lemma filter_loop_spec (keywords : list string)
      (vehicle_blueprints : list ActorBlueprint) :
  forall filtered,
    filter_loop keywords vehicle_blueprints filtered
    = (filtered ++
       filter (fun bp =>
                 negb (existsb (fun keyword =>
                                  str_in (lower keyword) (lower (bp_id bp)))
                               keywords))
              vehicle_blueprints)%list.
Proof.
  induction vehicle_blueprints as [| bp rest IH]; intros acc; cbn.
  - now rewrite app_nil_r.
  - destruct (existsb _ keywords); cbn; rewrite IH; [reflexivity |].
    now rewrite <- app_assoc.
Qed.

Lemma filter_same_test {A : Type} (p q : A -> bool) (l : list A) :
  (forall a, p a = true <-> q a = true) -> filter p l = filter q l.
Proof.
  intros H. apply filter_ext. intros a.
  specialize (H a). destruct (p a), (q a); intuition congruence.
Qed.

(** C8.  [filter_vehicles_for_line] keeps, in their order, exactly the
    candidates whose name contains no exclude keyword as a case-insensitive
    substring (all of them when no keyword list is given); on the pool
    truck.a, van.b, car.c with the keywords truck and van it keeps
    exactly car.c. *)
Theorem filter_excludes_keywords
        (vehicle_blueprints : list ActorBlueprint) (keywords : list string) :
  (forall keep : ActorBlueprint -> bool,
      (forall bp, keep bp = true <-> ~ excluded_by keywords bp) ->
      filter_vehicles_for_line vehicle_blueprints (Some keywords)
      = filter keep vehicle_blueprints) /\
  (forall bp,
      In bp (filter_vehicles_for_line vehicle_blueprints (Some keywords))
      <-> In bp vehicle_blueprints /\ ~ excluded_by keywords bp) /\
  filter_vehicles_for_line vehicle_blueprints None = vehicle_blueprints /\
  filter_vehicles_for_line [truck_a; van_b; car_c] (Some ["truck"; "van"])
  = [car_c].
Proof.
  assert (Hkeep : forall bp,
    negb (existsb (fun keyword => str_in (lower keyword) (lower (bp_id bp)))
                  keywords) = true <-> ~ excluded_by keywords bp).
  { intros bp. rewrite negb_true_iff, <- excluded_spec.
    destruct (existsb _ keywords); intuition congruence. }
  unfold filter_vehicles_for_line.
  split; [| split; [| split]].
  - intros keep Hspec. rewrite filter_loop_spec. cbn [app].
    apply filter_same_test. intros bp. now rewrite Hkeep, Hspec.
  - intros bp. rewrite filter_loop_spec. cbn [app].
    now rewrite filter_In, Hkeep.
  - rewrite filter_loop_spec. cbn [app existsb negb].
    induction vehicle_blueprints as [| bp rest IH]; cbn; [| rewrite IH];
      reflexivity.
  - reflexivity.
Qed.

Lemma filter_excludes_keywords_witness :
  In car_c (filter_vehicles_for_line [truck_a; van_b; car_c]
                                     (Some ["TRUCK"; "Van"])) /\
  ~ In truck_a (filter_vehicles_for_line [truck_a; van_b; car_c]
                                         (Some ["TRUCK"; "Van"])).
Proof.
  pose proof (proj1 (proj2 (filter_excludes_keywords
                              [truck_a; van_b; car_c] ["TRUCK"; "Van"])))
    as Hin.
  split.
  - apply Hin. split; [right; right; left; reflexivity |].
    intros Hex. apply excluded_spec in Hex. discriminate Hex.
  - intros H. apply Hin in H as [_ Hex]. apply Hex.
    apply excluded_spec. reflexivity.
Defined.

(** ** Concrete runs *)

Ltac run_side :=
  unfold primary_draw, backfill_draw, drawn;
  cbn [rs_random zero_source half_source rng_calls stdout st0 length app];
  (lia || lra).

(** A run that needs the backfill pass: 11 m of line, 2 vehicles 4 m apart,
    every draw 1/2.  The primary pass places 0 and stops at 6 (6 + 6 > 11);
    the backfill pass draws the spacing 5 and places 6. *)
Example pack_run_backfill :
  pack_positions half_source 11 2 4 st0 = Ok ([0; 6], mkSt 3 []).
Proof.
  rewrite pack_positions_unclamped; [| lra |].
  2: { rewrite (py_int_eq (11 / 4) 2); [lia | lia | lra]. }
  unfold bind at 1. unfold bind at 1. change (Z.to_nat 2) with 2%nat.
  rewrite primary_loop_fits by run_side.
  rewrite primary_loop_breaks by run_side.
  cbn [fst snd app].
  rewrite backfill_loop_fits by run_side.
  rewrite backfill_loop_reached by run_side.
  unfold primary_draw, backfill_draw, drawn, ret. cbn.
  repeat f_equal; lra.
Qed.

(** An under-filled run: 10 m of line, 2 vehicles 4 m apart, every draw
    1/2.  The primary pass places 0 and stops at 6; the backfill spacing 5
    does not fit either, so one position is produced although two were
    requested and two would fit. *)
Example pack_run_underfill :
  pack_positions half_source 10 2 4 st0 = Ok ([0], mkSt 3 []).
Proof.
  rewrite pack_positions_unclamped; [| lra |].
  2: { rewrite (py_int_eq (10 / 4) 2); [lia | lia | lra]. }
  unfold bind at 1. unfold bind at 1. change (Z.to_nat 2) with 2%nat.
  rewrite primary_loop_fits by run_side.
  rewrite primary_loop_breaks by run_side.
  cbn [fst snd app].
  rewrite backfill_loop_breaks by run_side.
  reflexivity.
Qed.

(** A whole call: one vehicle on the left of the 10 m line over flat ground
    at height 7, every draw 0.  The vehicle stands at the start of the line,
    2.5 m to the left, 50 m above the ground, turned by 90 - 2 degrees. *)
Example generate_run :
  generate_spawn_positions zero_source (default_spawner flat_world)
                           origin east10 "left" 1 4 st0
  = Ok ([(mkTransform (mkLocation 0 (-2.5) 57) (mkRotation 0 88 0), "left")],
        mkSt 2 []).
Proof.
  unfold generate_spawn_positions.
  unfold bind at 1. rewrite resolver_due_east by (cbn; lra).
  unfold bind at 1. rewrite side_check_valid by exact valid_left.
  unfold bind at 1. fold (segment_length origin east10).
  rewrite segment_length_east10.
  rewrite pack_positions_unclamped; [| lra |].
  2: { rewrite (py_int_eq (10 / 4) 2); [lia | lia | lra]. }
  unfold bind at 1. unfold bind at 1. change (Z.to_nat 1) with 1%nat.
  rewrite primary_loop_fits by run_side.
  cbn [primary_loop ret fst snd app].
  rewrite backfill_loop_reached by run_side.
  unfold ret at 1. cbn [fst transforms_loop].
  unfold bind at 1. unfold spawn_transform_at.
  cbn [sides_of String.eqb Ascii.eqb Bool.eqb length Nat.ltb Nat.leb nth].
  unfold bind at 1. unfold ret at 1.
  unfold bind at 1. rewrite guarded_t_returns.
  destruct (Rgt_dec 10 0); [| lra].
  unfold bind at 1. unfold uniform at 1.
  cbn [vec_x vec_y]. rewrite base_yaw_east.
  unfold ret, drawn, get_ground_height.
  cbn [default_spawner world flat_world cast_ray lp_location loc_x loc_y loc_z
       spawn_height parking_offset origin east10 rng_calls stdout st0
       zero_source rs_random app].
  change ("left" =? "right") with false.
  change ("left" =? "left") with true.
  repeat f_equal; lra.
Qed.

(** * Further properties of the code *)

Local Open Scope R_scope.

(** ** More on the packer *)

Lemma appended_grows (L lo hi : R) (p q : list R * R) :
  appended L lo hi p q -> (length (fst p) <= length (fst q))%nat.
Proof.
  induction 1 as [q | ps c sp q _ _ _ IH]; [lia |].
  cbn [fst] in *. rewrite length_app in IH. cbn in IH. lia.
Qed.

(** The packer as its two loops, run one after the other. *)
Lemma pack_positions_trace (rs : RandomSource) (line_length min_spacing : R)
      (num_vehicles : Z) (s : St) :
  min_spacing <> 0 ->
  let n := Z.min num_vehicles (py_int (line_length / min_spacing)) in
  exists ps1 c1 s1 ps2 c2 s2,
    primary_loop rs line_length min_spacing (Z.to_nat n) [] 0
                 (after_clamp line_length num_vehicles min_spacing s)
    = Ok ((ps1, c1), s1) /\
    backfill_loop rs line_length min_spacing n (S (Z.to_nat n)) ps1 c1 s1
    = Ok ((ps2, c2), s2) /\
    pack_positions rs line_length num_vehicles min_spacing s = Ok (ps2, s2).
Proof.
  intros HS n.
  assert (Hshape :
    pack_positions rs line_length num_vehicles min_spacing s
    = bind (bind (primary_loop rs line_length min_spacing (Z.to_nat n) [] 0)
                 (fun q => backfill_loop rs line_length min_spacing n
                             (S (Z.to_nat n)) (fst q) (snd q)))
           (fun q => ret (fst q))
           (after_clamp line_length num_vehicles min_spacing s)).
  { unfold after_clamp, n.
    destruct (Z.gtb_spec num_vehicles (py_int (line_length / min_spacing)))
      as [Hgt | Hle].
    - rewrite Z.min_r by lia.
      apply pack_positions_clamped; [exact HS | reflexivity | lia].
    - rewrite Z.min_l by lia.
      apply pack_positions_unclamped; [exact HS | exact Hle]. }
  destruct (primary_loop_returns rs line_length min_spacing (Z.to_nat n) [] 0
              (after_clamp line_length num_vehicles min_spacing s))
    as (ps1 & c1 & s1 & Hrun1 & _).
  destruct (backfill_loop_returns rs line_length min_spacing n
              (S (Z.to_nat n)) ps1 c1 s1)
    as (ps2 & c2 & s2 & Hrun2 & _); [lia |].
  exists ps1, c1, s1, ps2, c2, s2.
  split; [exact Hrun1 |]. split; [exact Hrun2 |].
  rewrite Hshape. unfold bind. rewrite Hrun1. cbn [fst snd].
  now rewrite Hrun2.
Qed.

Section PackerMore.
Variable rs : RandomSource.
Variables line_length min_spacing : R.

(** While fewer than [k] positions are placed and [k] double spacings fit
    on the line, the primary pass does not stop early. *)
Lemma primary_loop_fills (k : nat) :
  0 < min_spacing -> 2 * min_spacing * INR k <= line_length ->
  forall iters positions current_pos s,
    current_pos <= 2 * min_spacing * INR (length positions) ->
    exists positions' current_pos' s',
      primary_loop rs line_length min_spacing iters positions current_pos s
      = Ok ((positions', current_pos'), s') /\
      (Nat.min (length positions + iters) k <= length positions')%nat.
Proof.
  intros HS Hk. induction iters as [| iters IH]; intros ps c s Hc.
  - exists ps, c, s. split; [reflexivity | lia].
  - pose proof (primary_spacing rs min_spacing (rng_calls s) HS) as Hsp.
    fold (primary_draw rs min_spacing s) in Hsp.
    destruct (Rle_dec (c + primary_draw rs min_spacing s) line_length)
      as [Hfit | Hover].
    + rewrite primary_loop_fits by exact Hfit.
      destruct (IH (ps ++ [c])%list (c + primary_draw rs min_spacing s)
                   (drawn s)) as (ps' & c' & s' & Hrun & Hlen).
      { rewrite length_app. cbn [length]. rewrite Nat.add_1_r, S_INR. lra. }
      exists ps', c', s'. split; [exact Hrun |].
      rewrite length_app in Hlen. cbn [length] in Hlen. lia.
    + rewrite primary_loop_breaks by lra.
      exists ps, c, (drawn s). split; [reflexivity |].
      destruct (Nat.le_gt_cases k (length ps)) as [Hge | Hlt]; [lia |].
      exfalso. apply Hover.
      assert (INR (length ps) + 1 <= INR k).
      { rewrite <- S_INR. apply le_INR. lia. }
      nra.
Qed.
End PackerMore.

Lemma half_capacity_fits (line_length min_spacing : R) :
  0 <= line_length -> 0 < min_spacing ->
  let m := Zfloor (line_length / (2 * min_spacing)) in
  (0 <= m <= Zfloor (line_length / min_spacing))%Z /\
  2 * min_spacing * INR (Z.to_nat m) <= line_length.
Proof.
  intros HL HS m.
  assert (Hq : 0 <= line_length / (2 * min_spacing))
    by (apply quotient_nonneg; lra).
  assert (Hm0 : (0 <= m)%Z) by now apply Zfloor_nonneg.
  assert (Hle : line_length / (2 * min_spacing) <= line_length / min_spacing).
  { unfold Rdiv. apply Rmult_le_compat_l; [exact HL |].
    apply Rinv_le_contravar; lra. }
  split; [split; [exact Hm0 | now apply Zfloor_le] |].
  rewrite INR_IZR_INZ, Z2Nat.id by exact Hm0.
  pose proof (Zfloor_bound (line_length / (2 * min_spacing))) as [Hfl _].
  fold m in Hfl.
  apply (Rmult_le_compat_l (2 * min_spacing)) in Hfl; [| lra].
  replace (2 * min_spacing * (line_length / (2 * min_spacing)))
    with line_length in Hfl by (field; lra).
  exact Hfl.
Qed.

(** X1.  The packer never falls short of what double spacing allows: for
    L >= 0 and S > 0 it returns at least min(n, floor(L / (2 S)))
    positions.  In particular a request of 0 <= n <= floor(L / (2 S))
    vehicles is honoured exactly. *)
Theorem packer_lower_bound
        (rs : RandomSource) (line_length min_spacing : R)
        (num_vehicles : Z) (s : St) :
  0 <= line_length -> 0 < min_spacing ->
  exists positions s1,
    pack_positions rs line_length num_vehicles min_spacing s
    = Ok (positions, s1) /\
    (Z.min num_vehicles (Zfloor (line_length / (2 * min_spacing)))
     <= Z.of_nat (length positions))%Z /\
    ((0 <= num_vehicles <= Zfloor (line_length / (2 * min_spacing)))%Z ->
     Z.of_nat (length positions) = num_vehicles).
Proof.
  intros HL HS.
  destruct (half_capacity_fits line_length min_spacing HL HS) as [Hm Hk].
  set (m := Zfloor (line_length / (2 * min_spacing))) in *.
  destruct (pack_positions_trace rs line_length min_spacing num_vehicles s)
    as (ps1 & c1 & s1 & ps2 & c2 & s2 & Hrun1 & Hrun2 & Hpack); [lra |].
  cbn zeta in Hrun1, Hrun2.
  rewrite py_int_nonneg in Hrun1, Hrun2 by now apply quotient_nonneg.
  set (n := Z.min num_vehicles (Zfloor (line_length / min_spacing))) in *.
  destruct (primary_loop_fills rs line_length min_spacing (Z.to_nat m) HS Hk
              (Z.to_nat n) [] 0
              (after_clamp line_length num_vehicles min_spacing s))
    as (ps1' & c1' & s1' & Hrun1' & Hfill); [cbn; lra |].
  rewrite Hrun1 in Hrun1'. injection Hrun1' as <- <- <-.
  destruct (backfill_loop_returns rs line_length min_spacing n
              (S (Z.to_nat n)) ps1 c1 s1)
    as (ps2' & c2' & s2' & Hrun2' & Hmax & _ & _ & Happ); [lia |].
  rewrite Hrun2 in Hrun2'. injection Hrun2' as <- <- <-.
  pose proof (appended_grows _ _ _ _ _ (Happ HS)) as Hgrow.
  cbn [fst length] in Hgrow, Hfill.
  destruct (primary_loop_returns rs line_length min_spacing (Z.to_nat n) [] 0
              (after_clamp line_length num_vehicles min_spacing s))
    as (ps1' & c1' & s1' & Hrun1' & Hlen1 & _).
  rewrite Hrun1 in Hrun1'. injection Hrun1' as <- <- <-.
  cbn [length] in Hlen1.
  exists ps2, s2. split; [exact Hpack |]. split; [lia |].
  intros Hn. lia.
Qed.

Lemma packer_lower_bound_witness :
  exists positions s1,
    pack_positions half_source 10 1 4 st0 = Ok (positions, s1) /\
    (Z.min 1 (Zfloor (10 / (2 * 4))) <= Z.of_nat (length positions))%Z /\
    ((0 <= 1 <= Zfloor (10 / (2 * 4)))%Z ->
     Z.of_nat (length positions) = 1%Z).
Proof.
  apply packer_lower_bound; lra.
Defined.

Lemma chain_room (lo hi : R) (l : list R) (c : R) :
  0 <= lo -> chain lo hi (l ++ [c])%list ->
  forall p, In p l -> p + lo <= c.
Proof.
  intros Hlo. induction l as [| a l IH]; intros Hc p Hp; [destruct Hp |].
  destruct l as [| b l]; cbn in Hc.
  - destruct Hp as [<- | []]. inversion Hc; subst. lra.
  - inversion Hc as [| | a' b' l' Hab Hrest]; subst.
    destruct Hp as [<- | Hp]; [| now apply IH].
    pose proof (chain_lower lo hi _ Hlo Hrest b (or_introl eq_refl)) as Hb.
    change (b :: l ++ [c])%list with ((b :: l) ++ [c])%list in Hb.
    rewrite last_last in Hb. lra.
Qed.

(** X2.  Every position leaves at least one minimum spacing of line after
    it: for L >= 0 and S > 0 each position p satisfies p + S <= L. *)
Theorem positions_leave_room
        (rs : RandomSource) (line_length min_spacing : R)
        (num_vehicles : Z) (s : St) :
  0 <= line_length -> 0 < min_spacing ->
  exists positions s1,
    pack_positions rs line_length num_vehicles min_spacing s
    = Ok (positions, s1) /\
    Forall (fun p => p + min_spacing <= line_length) positions.
Proof.
  intros HL HS.
  destruct (pack_positions_returns rs line_length min_spacing num_vehicles s)
    as (ps & c & s1 & Hrun & _ & _ & Hpacked); [lra |].
  destruct (Hpacked HS HL) as (_ & Hchain & Hlast). cbn [fst snd] in *.
  exists ps, s1. split; [exact Hrun |].
  apply Forall_forall. intros p Hp.
  pose proof (chain_room _ _ _ _ (Rlt_le _ _ HS) Hchain p Hp). lra.
Qed.

Lemma positions_leave_room_witness :
  exists positions s1,
    pack_positions half_source 11 2 4 st0 = Ok (positions, s1) /\
    Forall (fun p => p + 4 <= 11) positions.
Proof.
  apply positions_leave_room; lra.
Defined.

(** X3.  The capacity warning is printed exactly when the requested count
    exceeds the capacity [int(L / S)], once, with the requested count and
    the capacity; the packer prints nothing else. *)
Theorem capacity_warning_iff_clamped
        (rs : RandomSource) (line_length min_spacing : R)
        (num_vehicles : Z) (s : St) :
  min_spacing <> 0 ->
  exists positions s1,
    pack_positions rs line_length num_vehicles min_spacing s
    = Ok (positions, s1) /\
    stdout s1
    = (stdout s ++
       (if (num_vehicles >? py_int (line_length / min_spacing))%Z
        then [CapacityWarning num_vehicles
                (py_int (line_length / min_spacing))]
        else []))%list.
Proof.
  intros HS.
  destruct (pack_positions_trace rs line_length min_spacing num_vehicles s HS)
    as (ps1 & c1 & s1 & ps2 & c2 & s2 & Hrun1 & Hrun2 & Hpack).
  cbn zeta in Hrun1, Hrun2.
  set (n := Z.min num_vehicles (py_int (line_length / min_spacing))) in *.
  destruct (primary_loop_returns rs line_length min_spacing (Z.to_nat n) [] 0
              (after_clamp line_length num_vehicles min_spacing s))
    as (ps1' & c1' & s1' & Hrun1' & _ & Hout1 & _).
  rewrite Hrun1 in Hrun1'. injection Hrun1' as <- <- <-.
  destruct (backfill_loop_returns rs line_length min_spacing n
              (S (Z.to_nat n)) ps1 c1 s1)
    as (ps2' & c2' & s2' & Hrun2' & _ & Hout2 & _); [lia |].
  rewrite Hrun2 in Hrun2'. injection Hrun2' as <- <- <-.
  exists ps2, s2. split; [exact Hpack |].
  rewrite Hout2, Hout1. unfold after_clamp.
  destruct (_ >? _)%Z; [reflexivity | now rewrite app_nil_r].
Qed.

Lemma capacity_warning_iff_clamped_witness :
  exists positions s1,
    pack_positions zero_source 10 3 4 st0 = Ok (positions, s1) /\
    stdout s1
    = (stdout st0 ++
       (if (3 >? py_int (10 / 4))%Z
        then [CapacityWarning 3 (py_int (10 / 4))]
        else []))%list.
Proof.
  apply capacity_warning_iff_clamped. lra.
Defined.

(** X4.  A spacing of 0 is an error of its own kind: with a valid side,
    [generate_spawn_positions] raises [ZeroDivisionError] (from the capacity
    division), whatever the segment and the count; with an invalid side the
    [ValueError] of the side check comes first. *)
Theorem zero_spacing_raises
        (rs : RandomSource) (self : CarparkVehicleSpawner)
        (start_loc end_loc : Location) (side_type : string)
        (num_vehicles : Z) (s : St) :
  (valid_side side_type ->
   generate_spawn_positions rs self start_loc end_loc side_type
                            num_vehicles 0 s = Raise ZeroDivisionError) /\
  (~ valid_side side_type ->
   generate_spawn_positions rs self start_loc end_loc side_type
                            num_vehicles 0 s
   = Raise (ValueError "Invalid side_type")).
Proof.
  split.
  - apply generate_zero_spacing.
  - apply generate_invalid_side.
Qed.

Lemma zero_spacing_raises_witness :
  generate_spawn_positions zero_source (default_spawner empty_world)
                           origin east10 "both" 5 0 st0
  = Raise ZeroDivisionError /\
  generate_spawn_positions zero_source (default_spawner empty_world)
                           origin east10 "Both" 5 0 st0
  = Raise (ValueError "Invalid side_type").
Proof.
  split.
  - apply (proj1 (zero_spacing_raises zero_source (default_spawner empty_world)
                    origin east10 "both" 5 st0)).
    right. right. reflexivity.
  - apply (proj2 (zero_spacing_raises zero_source (default_spawner empty_world)
                    origin east10 "Both" 5 st0)).
    intros [H | [H | H]]; discriminate.
Defined.

Lemma after_clamp_calls (line_length : R) (num_vehicles : Z) (min_spacing : R)
      (s : St) :
  rng_calls (after_clamp line_length num_vehicles min_spacing s) = rng_calls s.
Proof. unfold after_clamp. now destruct (_ >? _)%Z. Qed.

(** When the clamped count is not positive, neither loop runs. *)
Lemma pack_positions_none (rs : RandomSource) (line_length min_spacing : R)
      (num_vehicles : Z) (s : St) :
  min_spacing <> 0 ->
  (Z.min num_vehicles (py_int (line_length / min_spacing)) <= 0)%Z ->
  pack_positions rs line_length num_vehicles min_spacing s
  = Ok ([], after_clamp line_length num_vehicles min_spacing s).
Proof.
  intros HS Hn.
  destruct (pack_positions_trace rs line_length min_spacing num_vehicles s HS)
    as (ps1 & c1 & s1 & ps2 & c2 & s2 & Hrun1 & Hrun2 & Hpack).
  cbn zeta in Hrun1, Hrun2.
  set (n := Z.min num_vehicles (py_int (line_length / min_spacing))) in *.
  replace (Z.to_nat n) with 0%nat in Hrun1, Hrun2 by lia.
  cbn [primary_loop] in Hrun1. injection Hrun1 as <- <- <-.
  rewrite backfill_loop_reached in Hrun2 by (cbn; lia).
  injection Hrun2 as <- <- <-. exact Hpack.
Qed.

Lemma generate_of_positions
      (rs : RandomSource) (self : CarparkVehicleSpawner)
      (start_loc end_loc : Location) (side_type : string)
      (num_vehicles : Z) (min_spacing : R) (s : St)
      (positions : list R) (s1 : St) :
  valid_side side_type ->
  pack_positions rs (segment_length start_loc end_loc) num_vehicles
                 min_spacing s = Ok (positions, s1) ->
  exists perp_vec line_dir,
    compute_perpendicular_vector start_loc end_loc s
    = Ok ((perp_vec, line_dir), s) /\
    generate_spawn_positions rs self start_loc end_loc side_type
                             num_vehicles min_spacing s
    = transforms_loop rs self start_loc end_loc perp_vec line_dir
                      (sides_of side_type)
                      (segment_length start_loc end_loc) positions [] s1.
Proof.
  intros Hv Hpack.
  destruct (resolver_returns start_loc end_loc s) as (perp & dir & Hres).
  exists perp, dir. split; [exact Hres |].
  unfold generate_spawn_positions.
  unfold bind at 1. rewrite Hres.
  unfold bind at 1. rewrite side_check_valid by exact Hv.
  unfold bind at 1. fold (segment_length start_loc end_loc).
  now rewrite Hpack.
Qed.

(** X5.  Nothing is placed, and the random generator is not touched, when
    no vehicle is requested or the segment is shorter than the spacing (in
    particular on a degenerate segment); an empty request changes nothing
    at all, not even the console. *)
Theorem nothing_to_place
        (rs : RandomSource) (self : CarparkVehicleSpawner)
        (start_loc end_loc : Location) (side_type : string)
        (num_vehicles : Z) (min_spacing : R) (s : St) :
  valid_side side_type -> 0 < min_spacing ->
  (num_vehicles <= 0)%Z \/ segment_length start_loc end_loc < min_spacing ->
  exists s',
    generate_spawn_positions rs self start_loc end_loc side_type
                             num_vehicles min_spacing s = Ok ([], s') /\
    rng_calls s' = rng_calls s /\
    ((num_vehicles <= 0)%Z -> s' = s).
Proof.
  intros Hv HS Hnone.
  pose proof (segment_length_nonneg start_loc end_loc) as HL.
  set (L := segment_length start_loc end_loc) in *.
  assert (Hq : 0 <= L / min_spacing) by now apply quotient_nonneg.
  assert (Hmin : (Z.min num_vehicles (py_int (L / min_spacing)) <= 0)%Z).
  { destruct Hnone as [Hn | Hshort]; [lia |].
    rewrite py_int_nonneg by exact Hq.
    assert (Zfloor (L / min_spacing) = 0%Z); [| lia].
    apply Zfloor_eq. split; [exact Hq |].
    apply (Rmult_lt_reg_r min_spacing); [exact HS |].
    unfold Rdiv. rewrite Rmult_assoc, Rinv_l by lra. cbn. lra. }
  pose proof (pack_positions_none rs L min_spacing num_vehicles s
                ltac:(lra) Hmin) as Hpack.
  destruct (generate_of_positions rs self start_loc end_loc side_type
              num_vehicles min_spacing s [] _ Hv Hpack)
    as (perp & dir & _ & Hrun).
  exists (after_clamp L num_vehicles min_spacing s).
  split; [exact Hrun |]. split; [apply after_clamp_calls |].
  intros Hn. unfold after_clamp.
  pose proof (Zfloor_nonneg _ Hq).
  rewrite py_int_nonneg by exact Hq.
  destruct (Z.gtb_spec num_vehicles (Zfloor (L / min_spacing)));
    [lia | reflexivity].
Qed.

Lemma nothing_to_place_witness :
  exists s',
    generate_spawn_positions half_source (default_spawner flat_world)
                             origin origin "both" 5 4 st0 = Ok ([], s') /\
    rng_calls s' = rng_calls st0 /\
    ((5 <= 0)%Z -> s' = st0).
Proof.
  apply nothing_to_place.
  - right. right. reflexivity.
  - lra.
  - right. rewrite segment_length_same. lra.
Defined.

(** ** The geometry of the resolver *)

(** The outcomes of the resolver, case by case. *)
Lemma resolver_cases (start_loc end_loc : Location) (s s' : St)
      (perp_vec line_dir : Vector3D) :
  compute_perpendicular_vector start_loc end_loc s
  = Ok ((perp_vec, line_dir), s') ->
  let L := segment_length start_loc end_loc in
  let dx := (loc_x end_loc - loc_x start_loc) / L in
  let dy := (loc_y end_loc - loc_y start_loc) / L in
  let dz := (loc_z end_loc - loc_z start_loc) / L in
  let h := sqrt ((- dy) ^ 2 + dx ^ 2) in
  (L < 0.001 /\ perp_vec = mkVector3D 1 0 0 /\ line_dir = mkVector3D 1 0 0) \/
  (0.001 <= L /\ line_dir = mkVector3D dx dy dz /\
   ((0.001 < h /\ perp_vec = mkVector3D (- dy / h) (dx / h) 0) \/
    (h <= 0.001 /\ perp_vec = mkVector3D 1 0 0))).
Proof.
  unfold compute_perpendicular_vector. cbn [vec_x vec_y vec_z].
  fold (segment_length start_loc end_loc).
  set (L := segment_length start_loc end_loc). intros H. cbn zeta.
  destruct (Rlt_dec L 0.001) as [Hlt | Hge].
  - left. injection H as <- <- _. now repeat split.
  - right. assert (HL : L <> 0) by lra.
    unfold bind at 1 in H. rewrite (lift_div_ok _ _ _ HL) in H.
    unfold bind at 1 in H. rewrite (lift_div_ok _ _ _ HL) in H.
    unfold bind at 1 in H. rewrite (lift_div_ok _ _ _ HL) in H.
    cbn [vec_x vec_y vec_z] in H.
    split; [lra |].
    destruct (Rgt_dec _ 0.001) as [Hgt | Hle] in H.
    + assert (Hh : sqrt ((- ((loc_y end_loc - loc_y start_loc) / L)) ^ 2
                         + ((loc_x end_loc - loc_x start_loc) / L) ^ 2) <> 0)
        by lra.
      unfold bind at 1 in H. unfold bind at 1 in H.
      rewrite (lift_div_ok _ _ _ Hh) in H.
      unfold bind at 1 in H. rewrite (lift_div_ok _ _ _ Hh) in H.
      injection H as <- <- _. split; [reflexivity |]. left. now split.
    + injection H as <- <- _. split; [reflexivity |]. right.
      split; [lra | reflexivity].
Qed.

Lemma segment_length_square (start_loc end_loc : Location) :
  segment_length start_loc end_loc * segment_length start_loc end_loc
  = (loc_x end_loc - loc_x start_loc) ^ 2
    + (loc_y end_loc - loc_y start_loc) ^ 2
    + (loc_z end_loc - loc_z start_loc) ^ 2.
Proof.
  unfold segment_length. apply sqrt_sqrt.
  pose proof (pow2_ge_0 (loc_x end_loc - loc_x start_loc)).
  pose proof (pow2_ge_0 (loc_y end_loc - loc_y start_loc)).
  pose proof (pow2_ge_0 (loc_z end_loc - loc_z start_loc)).
  lra.
Qed.

Lemma horizontal_square (dx dy : R) :
  sqrt ((- dy) ^ 2 + dx ^ 2) * sqrt ((- dy) ^ 2 + dx ^ 2)
  = dx ^ 2 + dy ^ 2.
Proof.
  rewrite sqrt_sqrt; [ring |].
  pose proof (pow2_ge_0 (- dy)). pose proof (pow2_ge_0 dx). lra.
Qed.

(** Both vectors of the resolver have length 1. *)
Lemma resolver_unit
        (start_loc end_loc : Location) (s s' : St)
        (perp_vec line_dir : Vector3D) :
  compute_perpendicular_vector start_loc end_loc s
  = Ok ((perp_vec, line_dir), s') ->
  vec_x line_dir ^ 2 + vec_y line_dir ^ 2 + vec_z line_dir ^ 2 = 1 /\
  vec_x perp_vec ^ 2 + vec_y perp_vec ^ 2 = 1 /\
  vec_z perp_vec = 0.
Proof.
  intros H. apply resolver_cases in H. cbn zeta in H.
  pose proof (segment_length_square start_loc end_loc) as HLL.
  set (L := segment_length start_loc end_loc) in *.
  destruct H as [(_ & -> & ->) | (HL & -> & Hperp)].
  - cbn [vec_x vec_y vec_z]. repeat split; ring.
  - cbn [vec_x vec_y vec_z]. split.
    + replace (((loc_x end_loc - loc_x start_loc) / L) ^ 2
               + ((loc_y end_loc - loc_y start_loc) / L) ^ 2
               + ((loc_z end_loc - loc_z start_loc) / L) ^ 2)
        with (((loc_x end_loc - loc_x start_loc) ^ 2
               + (loc_y end_loc - loc_y start_loc) ^ 2
               + (loc_z end_loc - loc_z start_loc) ^ 2) / (L * L))
        by (field; lra).
      rewrite <- HLL. field. lra.
    + destruct Hperp as [(Hh & ->) | (_ & ->)]; cbn [vec_x vec_y vec_z].
      * set (dx := (loc_x end_loc - loc_x start_loc) / L) in *.
        set (dy := (loc_y end_loc - loc_y start_loc) / L) in *.
        pose proof (horizontal_square dx dy) as Hhh.
        set (h := sqrt ((- dy) ^ 2 + dx ^ 2)) in *.
        split; [| reflexivity].
        replace ((- dy / h) ^ 2 + (dx / h) ^ 2)
          with ((dx ^ 2 + dy ^ 2) / (h * h)) by (field; lra).
        rewrite <- Hhh. field. lra.
      * split; [ring | reflexivity].
Qed.

(** X6.  Whatever the segment, the resolver returns a direction of length 1
    and a horizontal "perpendicular" of length 1 (the fallback vectors
    (1,0,0) included). *)
Theorem resolver_unit_vectors
        (start_loc end_loc : Location) (s s' : St)
        (perp_vec line_dir : Vector3D) :
  compute_perpendicular_vector start_loc end_loc s
  = Ok ((perp_vec, line_dir), s') ->
  vec_x line_dir ^ 2 + vec_y line_dir ^ 2 + vec_z line_dir ^ 2 = 1 /\
  vec_x perp_vec ^ 2 + vec_y perp_vec ^ 2 = 1 /\
  vec_z perp_vec = 0.
Proof. apply resolver_unit. Qed.

Lemma resolver_unit_vectors_witness :
  vec_x (mkVector3D 1 0 0) ^ 2 + vec_y (mkVector3D 1 0 0) ^ 2
  + vec_z (mkVector3D 1 0 0) ^ 2 = 1 /\
  vec_x (mkVector3D 0 1 0) ^ 2 + vec_y (mkVector3D 0 1 0) ^ 2 = 1 /\
  vec_z (mkVector3D 0 1 0) = 0.
Proof.
  apply (resolver_unit_vectors origin east10 st0 st0).
  apply resolver_due_east; cbn; lra.
Defined.

(** X7.  On a segment of length at least 0.001 the direction is the
    difference of the ends divided by the length.  When moreover the
    horizontal part h of the direction exceeds 0.001, the perpendicular is
    the horizontal direction turned by a quarter turn, (x, y) to (-y, x),
    and normalised: it is orthogonal to the direction.  Otherwise (a
    near-vertical segment) it is the fallback (1,0,0). *)
Theorem resolver_perpendicular
        (start_loc end_loc : Location) (s s' : St)
        (perp_vec line_dir : Vector3D) :
  compute_perpendicular_vector start_loc end_loc s
  = Ok ((perp_vec, line_dir), s') ->
  0.001 <= segment_length start_loc end_loc ->
  let L := segment_length start_loc end_loc in
  let h := sqrt (vec_x line_dir ^ 2 + vec_y line_dir ^ 2) in
  L * vec_x line_dir = loc_x end_loc - loc_x start_loc /\
  L * vec_y line_dir = loc_y end_loc - loc_y start_loc /\
  L * vec_z line_dir = loc_z end_loc - loc_z start_loc /\
  (0.001 < h ->
   h * vec_x perp_vec = - vec_y line_dir /\
   h * vec_y perp_vec = vec_x line_dir /\
   vec_x perp_vec * vec_x line_dir + vec_y perp_vec * vec_y line_dir
   + vec_z perp_vec * vec_z line_dir = 0) /\
  (h <= 0.001 -> perp_vec = mkVector3D 1 0 0).
Proof.
  intros H HL. apply resolver_cases in H. cbn zeta in H |- *.
  set (L := segment_length start_loc end_loc) in *.
  destruct H as [(Hlt & _) | (_ & -> & Hperp)]; [lra |].
  cbn [vec_x vec_y vec_z].
  set (dx := (loc_x end_loc - loc_x start_loc) / L) in *.
  set (dy := (loc_y end_loc - loc_y start_loc) / L) in *.
  set (dz := (loc_z end_loc - loc_z start_loc) / L) in *.
  assert (Hh : sqrt (dx ^ 2 + dy ^ 2) = sqrt ((- dy) ^ 2 + dx ^ 2))
    by (f_equal; ring).
  rewrite Hh. set (h := sqrt ((- dy) ^ 2 + dx ^ 2)) in *.
  split; [unfold dx; field; lra |].
  split; [unfold dy; field; lra |].
  split; [unfold dz; field; lra |].
  destruct Hperp as [(Hgt & ->) | (Hle & ->)]; cbn [vec_x vec_y vec_z].
  - split; [| intros; lra]. intros _.
    split; [field; lra |]. split; field; lra.
  - split; [intros; lra | reflexivity].
Qed.

Lemma resolver_perpendicular_witness :
  let L := segment_length origin east10 in
  let h := sqrt (vec_x (mkVector3D 1 0 0) ^ 2 + vec_y (mkVector3D 1 0 0) ^ 2) in
  L * vec_x (mkVector3D 1 0 0) = loc_x east10 - loc_x origin /\
  L * vec_y (mkVector3D 1 0 0) = loc_y east10 - loc_y origin /\
  L * vec_z (mkVector3D 1 0 0) = loc_z east10 - loc_z origin /\
  (0.001 < h ->
   h * vec_x (mkVector3D 0 1 0) = - vec_y (mkVector3D 1 0 0) /\
   h * vec_y (mkVector3D 0 1 0) = vec_x (mkVector3D 1 0 0) /\
   vec_x (mkVector3D 0 1 0) * vec_x (mkVector3D 1 0 0)
   + vec_y (mkVector3D 0 1 0) * vec_y (mkVector3D 1 0 0)
   + vec_z (mkVector3D 0 1 0) * vec_z (mkVector3D 1 0 0) = 0) /\
  (h <= 0.001 -> mkVector3D 0 1 0 = mkVector3D 1 0 0).
Proof.
  apply (resolver_perpendicular origin east10 st0 st0).
  - apply resolver_due_east; cbn; lra.
  - rewrite segment_length_east10. lra.
Defined.

(** ** More on the poses *)

Local Open Scope string_scope.

(** X8.  The side of every item follows the side specification: all "left"
    for "left", all "right" for "right", and one of the two for "both". *)
Theorem sides_follow_specification
        (rs : RandomSource) (self : CarparkVehicleSpawner)
        (start_loc end_loc : Location) (side_type : string)
        (num_vehicles : Z) (min_spacing : R) (s : St) :
  valid_side side_type -> min_spacing <> 0 ->
  exists items s2,
    generate_spawn_positions rs self start_loc end_loc side_type
                             num_vehicles min_spacing s = Ok (items, s2) /\
    (side_type = "left" -> Forall (fun item => snd item = "left") items) /\
    (side_type = "right" -> Forall (fun item => snd item = "right") items) /\
    (side_type = "both" ->
     Forall (fun item => snd item = "left" \/ snd item = "right") items).
Proof.
  intros Hv HS.
  destruct (generate_returns rs self start_loc end_loc side_type num_vehicles
              min_spacing s Hv HS)
    as (perp & dir & ps & s1 & items & s2 & _ & _ & Hrun & Hall).
  assert (Hin : Forall (fun item => In (snd item) (sides_of side_type)) items).
  { eapply Forall2_right; [| exact Hall]. intros pos item Hitem.
    destruct (placed_at_inv _ _ _ _ _ _ _ _ _ _ Hitem)
      as (side & jitter & Hin & _ & Heq).
    cbn zeta in Heq. subst item. cbn [snd]. apply Hin.
    destruct Hv as [-> | [-> | ->]]; discriminate. }
  exists items, s2. split; [exact Hrun |].
  split; [| split]; intros ->; eapply Forall_impl; try exact Hin;
    cbn; intros item H; intuition auto.
Qed.

Lemma sides_follow_specification_witness :
  exists items s2,
    generate_spawn_positions half_source (default_spawner flat_world)
                             origin east10 "right" 2 4 st0 = Ok (items, s2) /\
    ("right" = "left" -> Forall (fun item => snd item = "left") items) /\
    ("right" = "right" -> Forall (fun item => snd item = "right") items) /\
    ("right" = "both" ->
     Forall (fun item => snd item = "left" \/ snd item = "right") items).
Proof.
  apply sides_follow_specification; [right; left; reflexivity | lra].
Defined.

(** X9.  Every vehicle stands beside its point of the line, at the parking
    offset: measured along the perpendicular it is [parking_offset] to the
    positive side on the right and to the negative side on the left, and
    its horizontal distance from the point of the line is the parking
    offset. *)
Theorem placements_at_parking_offset
        (rs : RandomSource) (self : CarparkVehicleSpawner)
        (start_loc end_loc : Location) (side_type : string)
        (num_vehicles : Z) (min_spacing : R) (s : St) :
  valid_side side_type -> min_spacing <> 0 ->
  exists perp_vec line_dir positions s1 items s2,
    compute_perpendicular_vector start_loc end_loc s
    = Ok ((perp_vec, line_dir), s) /\
    pack_positions rs (segment_length start_loc end_loc) num_vehicles
                   min_spacing s = Ok (positions, s1) /\
    generate_spawn_positions rs self start_loc end_loc side_type
                             num_vehicles min_spacing s = Ok (items, s2) /\
    Forall2
      (fun pos item =>
         let p := line_point start_loc end_loc
                             (segment_length start_loc end_loc) pos in
         let x := loc_x (location (fst item)) - loc_x p in
         let y := loc_y (location (fst item)) - loc_y p in
         x * vec_x perp_vec + y * vec_y perp_vec
         = (if snd item =? "right" then 1 else -1) * parking_offset self /\
         x ^ 2 + y ^ 2 = parking_offset self ^ 2)
      positions items.
Proof.
  intros Hv HS.
  destruct (generate_returns rs self start_loc end_loc side_type num_vehicles
              min_spacing s Hv HS)
    as (perp & dir & ps & s1 & items & s2 & Hres & Hpack & Hrun & Hall).
  destruct (resolver_unit _ _ _ _ _ _ Hres) as (_ & Hunit & _).
  exists perp, dir, ps, s1, items, s2.
  split; [exact Hres |]. split; [exact Hpack |]. split; [exact Hrun |].
  eapply Forall2_impl; [| exact Hall]. intros pos item Hitem.
  destruct (placed_at_inv _ _ _ _ _ _ _ _ _ _ Hitem)
    as (side & jitter & _ & _ & Heq).
  cbn zeta in Heq. subst item.
  cbn [fst snd location loc_x loc_y line_point].
  set (t := if Rgt_dec _ 0 then _ else _).
  set (o := parking_offset self).
  destruct (side =? "right"); split.
  - transitivity (o * (vec_x perp ^ 2 + vec_y perp ^ 2)); [ring |].
    rewrite Hunit. ring.
  - transitivity (o ^ 2 * (vec_x perp ^ 2 + vec_y perp ^ 2)); [ring |].
    rewrite Hunit. ring.
  - transitivity (- o * (vec_x perp ^ 2 + vec_y perp ^ 2)); [ring |].
    rewrite Hunit. ring.
  - transitivity (o ^ 2 * (vec_x perp ^ 2 + vec_y perp ^ 2)); [ring |].
    rewrite Hunit. ring.
Qed.

Lemma placements_at_parking_offset_witness :
  exists perp_vec line_dir positions s1 items s2,
    compute_perpendicular_vector origin east10 st0
    = Ok ((perp_vec, line_dir), st0) /\
    pack_positions half_source (segment_length origin east10) 2 4 st0
    = Ok (positions, s1) /\
    generate_spawn_positions half_source (default_spawner flat_world)
                             origin east10 "both" 2 4 st0 = Ok (items, s2) /\
    Forall2
      (fun pos item =>
         let p := line_point origin east10 (segment_length origin east10) pos in
         let x := loc_x (location (fst item)) - loc_x p in
         let y := loc_y (location (fst item)) - loc_y p in
         x * vec_x perp_vec + y * vec_y perp_vec
         = (if snd item =? "right" then 1 else -1)
           * parking_offset (default_spawner flat_world) /\
         x ^ 2 + y ^ 2 = parking_offset (default_spawner flat_world) ^ 2)
      positions items.
Proof.
  apply placements_at_parking_offset; [right; right; reflexivity | lra].
Defined.

Lemma atan_nonpos (x : R) : x <= 0 -> atan x <= 0.
Proof.
  intros [Hlt | ->]; [| rewrite atan_0; lra].
  left. rewrite <- atan_0. now apply atan_increasing.
Qed.

Lemma atan_pos (x : R) : 0 < x -> 0 < atan x.
Proof. intros Hx. rewrite <- atan_0. now apply atan_increasing. Qed.

Lemma atan2_range (y x : R) : - PI < atan2 y x <= PI.
Proof.
  pose proof PI_RGT_0 as Hpi. unfold atan2.
  destruct (Rlt_dec 0 x) as [Hx | Hx].
  - pose proof (atan_bound (y / x)). lra.
  - destruct (Rlt_dec x 0) as [Hneg | Hzero].
    + pose proof (atan_bound (y / x)) as Hb.
      pose proof (Rinv_lt_0_compat x Hneg) as Hinv.
      destruct (Rle_dec 0 y) as [Hy | Hy].
      * assert (atan (y / x) <= 0) by (apply atan_nonpos; unfold Rdiv; nra).
        lra.
      * assert (0 < atan (y / x)) by (apply atan_pos; unfold Rdiv; nra).
        lra.
    + destruct (Rlt_dec 0 y); [lra |]. destruct (Rlt_dec y 0); lra.
Qed.

Lemma degrees_range (a : R) : - PI < a <= PI -> -180 < degrees a <= 180.
Proof.
  intros [Hlo Hhi]. pose proof PI_RGT_0 as Hpi. unfold degrees.
  assert (Hk : 0 < 180 / PI) by (apply Rdiv_lt_0_compat; lra).
  assert (Hfull : PI * (180 / PI) = 180) by (field; lra).
  assert (Hup : a * (180 / PI) <= PI * (180 / PI))
    by (apply Rmult_le_compat_r; lra).
  assert (Hdown : - PI * (180 / PI) < a * (180 / PI))
    by (now apply Rmult_lt_compat_r).
  lra.
Qed.

(** X10.  On every segment the yaw of an item is the bearing of the line,
    [degrees(atan2(dy, dx))] of the resolver's direction, plus 90 degrees on
    the left or minus 90 degrees on the right, plus a perturbation in
    [-2, 2).  The bearing lies in (-180, 180]; the yaw is not brought back
    into that range, it lies in (-272, 272). *)
Theorem yaw_follows_bearing
        (rs : RandomSource) (self : CarparkVehicleSpawner)
        (start_loc end_loc : Location) (side_type : string)
        (num_vehicles : Z) (min_spacing : R) (s : St) :
  valid_side side_type -> min_spacing <> 0 ->
  exists perp_vec line_dir items s2,
    compute_perpendicular_vector start_loc end_loc s
    = Ok ((perp_vec, line_dir), s) /\
    generate_spawn_positions rs self start_loc end_loc side_type
                             num_vehicles min_spacing s = Ok (items, s2) /\
    let bearing := degrees (atan2 (vec_y line_dir) (vec_x line_dir)) in
    -180 < bearing <= 180 /\
    Forall
      (fun item =>
         (exists jitter,
             -2 <= jitter < 2 /\
             yaw (rotation (fst item))
             = bearing + (if snd item =? "left" then 90 else -90) + jitter) /\
         -272 < yaw (rotation (fst item)) < 272)
      items.
Proof.
  intros Hv HS.
  destruct (generate_returns rs self start_loc end_loc side_type num_vehicles
              min_spacing s Hv HS)
    as (perp & dir & ps & s1 & items & s2 & Hres & _ & Hrun & Hall).
  exists perp, dir, items, s2.
  split; [exact Hres |]. split; [exact Hrun |]. cbn zeta.
  pose proof (degrees_range _ (atan2_range (vec_y dir) (vec_x dir))) as Hb.
  split; [exact Hb |].
  eapply Forall2_right; [| exact Hall]. intros pos item Hitem.
  destruct (placed_at_inv _ _ _ _ _ _ _ _ _ _ Hitem)
    as (side & jitter & _ & Hj & Heq).
  cbn zeta in Heq. subst item. cbn [fst snd rotation yaw].
  split.
  - exists jitter. split; [exact Hj |].
    destruct (side =? "left"); ring.
  - destruct (side =? "left"); lra.
Qed.

Lemma yaw_follows_bearing_witness :
  exists perp_vec line_dir items s2,
    compute_perpendicular_vector origin east10 st0
    = Ok ((perp_vec, line_dir), st0) /\
    generate_spawn_positions half_source (default_spawner flat_world)
                             origin east10 "both" 2 4 st0 = Ok (items, s2) /\
    let bearing := degrees (atan2 (vec_y line_dir) (vec_x line_dir)) in
    -180 < bearing <= 180 /\
    Forall
      (fun item =>
         (exists jitter,
             -2 <= jitter < 2 /\
             yaw (rotation (fst item))
             = bearing + (if snd item =? "left" then 90 else -90) + jitter) /\
         -272 < yaw (rotation (fst item)) < 272)
      items.
Proof.
  apply yaw_follows_bearing; [right; right; reflexivity | lra].
Defined.

(** X11.  When the ground query of a placement hits, the z of the pose is
    the z of the first hit plus [spawn_height], whatever the z of the
    line. *)
Theorem ground_hit_height
        (rs : RandomSource) (self : CarparkVehicleSpawner)
        (start_loc end_loc : Location) (side_type : string)
        (num_vehicles : Z) (min_spacing : R) (s : St) :
  valid_side side_type -> min_spacing <> 0 ->
  exists positions s1 items s2,
    pack_positions rs (segment_length start_loc end_loc) num_vehicles
                   min_spacing s = Ok (positions, s1) /\
    generate_spawn_positions rs self start_loc end_loc side_type
                             num_vehicles min_spacing s = Ok (items, s2) /\
    Forall2
      (fun pos item =>
         let pose := location (fst item) in
         let z := loc_z (line_point start_loc end_loc
                                    (segment_length start_loc end_loc) pos) in
         forall hit hits,
           cast_ray (world self)
                    (mkLocation (loc_x pose) (loc_y pose) (z + 1000))
                    (mkLocation (loc_x pose) (loc_y pose) (z - 1000))
           = hit :: hits ->
           loc_z pose = loc_z (lp_location hit) + spawn_height self)
      positions items.
Proof.
  intros Hv HS.
  destruct (generate_returns rs self start_loc end_loc side_type num_vehicles
              min_spacing s Hv HS)
    as (perp & dir & ps & s1 & items & s2 & _ & Hpack & Hrun & Hall).
  exists ps, s1, items, s2. split; [exact Hpack |]. split; [exact Hrun |].
  eapply Forall2_impl; [| exact Hall]. intros pos item Hitem.
  destruct (placed_at_inv _ _ _ _ _ _ _ _ _ _ Hitem)
    as (side & jitter & _ & _ & Heq).
  cbn zeta in Heq. subst item. cbn [fst location loc_x loc_y loc_z line_point].
  intros hit hits Hhit.
  unfold get_ground_height. cbn [loc_x loc_y loc_z].
  now rewrite Hhit.
Qed.

Lemma ground_hit_height_witness :
  exists positions s1 items s2,
    pack_positions zero_source (segment_length origin east10) 1 4 st0
    = Ok (positions, s1) /\
    generate_spawn_positions zero_source (default_spawner flat_world)
                             origin east10 "left" 1 4 st0 = Ok (items, s2) /\
    Forall2
      (fun pos item =>
         let pose := location (fst item) in
         let z := loc_z (line_point origin east10
                                    (segment_length origin east10) pos) in
         forall hit hits,
           cast_ray (world (default_spawner flat_world))
                    (mkLocation (loc_x pose) (loc_y pose) (z + 1000))
                    (mkLocation (loc_x pose) (loc_y pose) (z - 1000))
           = hit :: hits ->
           loc_z pose
           = loc_z (lp_location hit) + spawn_height (default_spawner flat_world))
      positions items.
Proof.
  apply ground_hit_height; [exact valid_left | lra].
Defined.

(** ** More on keyword filtering *)

(** The test [filter_vehicles_for_line] applies to a candidate. *)
Lemma filter_vehicles_for_line_filter
      (vehicle_blueprints : list ActorBlueprint) (keywords : list string) :
  filter_vehicles_for_line vehicle_blueprints (Some keywords)
  = filter (fun bp =>
              negb (existsb (fun keyword =>
                               str_in (lower keyword) (lower (bp_id bp)))
                            keywords))
           vehicle_blueprints.
Proof. unfold filter_vehicles_for_line. now rewrite filter_loop_spec. Qed.

Lemma filter_twice {A : Type} (p q : A -> bool) (l : list A) :
  filter q (filter p l) = filter (fun a => p a && q a) l.
Proof.
  induction l as [| a l IH]; [reflexivity |]. cbn.
  destruct (p a); cbn; [destruct (q a) |]; now rewrite IH.
Qed.

Lemma str_in_empty (hay : string) : str_in EmptyString hay = true.
Proof. now destruct hay. Qed.

(** X12.  An empty keyword excludes every candidate: [bp.id.lower()]
    contains the empty string, so a keyword list with an empty string in it
    leaves no candidate at all. *)
Theorem empty_keyword_excludes_all
        (vehicle_blueprints : list ActorBlueprint) (keywords : list string) :
  In EmptyString keywords ->
  filter_vehicles_for_line vehicle_blueprints (Some keywords) = [].
Proof.
  intros Hin. rewrite filter_vehicles_for_line_filter.
  induction vehicle_blueprints as [| bp rest IH]; [reflexivity |].
  cbn [filter].
  assert (Hex : existsb (fun keyword =>
                           str_in (lower keyword) (lower (bp_id bp)))
                        keywords = true).
  { apply existsb_exists. exists EmptyString. split; [exact Hin |].
    apply str_in_empty. }
  rewrite Hex. exact IH.
Qed.

Lemma empty_keyword_excludes_all_witness :
  filter_vehicles_for_line [truck_a; van_b; car_c] (Some ["bus"; EmptyString])
  = [].
Proof.
  apply empty_keyword_excludes_all. right. left. reflexivity.
Defined.

Lemma keyword_filters_idem
      (vehicle_blueprints : list ActorBlueprint) (keywords : list string) :
  filter_vehicles_for_line
    (filter_vehicles_for_line vehicle_blueprints (Some keywords))
    (Some keywords)
  = filter_vehicles_for_line vehicle_blueprints (Some keywords).
Proof.
  rewrite !filter_vehicles_for_line_filter, filter_twice.
  apply filter_ext. intros bp. apply andb_diag.
Qed.

(** X13.  Filtering composes: filtering by one keyword list and then by
    another is filtering by both at once, in either order, and filtering
    twice by the same list is filtering once. *)
Theorem keyword_filters_compose
        (vehicle_blueprints : list ActorBlueprint)
        (keywords keywords' : list string) :
  filter_vehicles_for_line
    (filter_vehicles_for_line vehicle_blueprints (Some keywords))
    (Some keywords')
  = filter_vehicles_for_line vehicle_blueprints
                             (Some (keywords ++ keywords')%list) /\
  filter_vehicles_for_line
    (filter_vehicles_for_line vehicle_blueprints (Some keywords))
    (Some keywords')
  = filter_vehicles_for_line
      (filter_vehicles_for_line vehicle_blueprints (Some keywords'))
      (Some keywords) /\
  filter_vehicles_for_line
    (filter_vehicles_for_line vehicle_blueprints (Some keywords))
    (Some keywords)
  = filter_vehicles_for_line vehicle_blueprints (Some keywords).
Proof.
  rewrite !filter_vehicles_for_line_filter, !filter_twice.
  split; [| split]; apply filter_ext; intros bp.
  - now rewrite existsb_app, negb_orb.
  - apply andb_comm.
  - apply andb_diag.
Qed.

(** X14.  Keywords are compared without regard to case: two keyword lists
    that agree, keyword by keyword, once put in lower case select the same
    candidates. *)
Theorem keyword_case_ignored
        (vehicle_blueprints : list ActorBlueprint)
        (keywords keywords' : list string) :
  map lower keywords = map lower keywords' ->
  filter_vehicles_for_line vehicle_blueprints (Some keywords)
  = filter_vehicles_for_line vehicle_blueprints (Some keywords').
Proof.
  intros Hsame. rewrite !filter_vehicles_for_line_filter.
  apply filter_ext. intros bp. f_equal.
  assert (Hmap : forall (f : string -> bool) l,
             existsb (fun keyword => f (lower keyword)) l
             = existsb f (map lower l)).
  { intros f l. induction l as [| k l IH]; [reflexivity |].
    cbn. now rewrite IH. }
  rewrite (Hmap (fun k => str_in k (lower (bp_id bp))) keywords).
  rewrite (Hmap (fun k => str_in k (lower (bp_id bp))) keywords').
  now rewrite Hsame.
Qed.

Lemma keyword_case_ignored_witness :
  filter_vehicles_for_line [truck_a; van_b; car_c] (Some ["TRUCK"; "Van"])
  = filter_vehicles_for_line [truck_a; van_b; car_c] (Some ["truck"; "van"]).
Proof.
  apply keyword_case_ignored. reflexivity.
Defined.

(** ** Spawning along a line *)

Import SpawnCarparkBatch.

Lemma spawn_vehicles_along_line_unfold
      (rs : RandomSource) (sim : Simulator) (self : CarparkVehicleSpawner)
      (l : ParkingLine) (vehicle_blueprints : list ActorBlueprint) :
  spawn_vehicles_along_line rs sim self l vehicle_blueprints
  = match line_pool vehicle_blueprints l with
    | [] => bindN (print_line NoVehiclesLine) (fun _ => retN [])
    | _ :: _ =>
        bindN (call (generate_spawn_positions rs self (line_start l)
                       (line_end l) (line_side l) (line_count l)
                       (line_spacing l)))
              (fun spawn_transforms =>
                 spawn_loop rs sim (line_pool vehicle_blueprints l)
                            spawn_transforms [])
    end.
Proof. destruct l; reflexivity. Qed.

Section SpawnLoop.
Variable rs : RandomSource.
Variable sim : Simulator.
Variable pool : list ActorBlueprint.
Hypothesis pool_not_empty : pool <> [].

Lemma choice_in_pool (d : ActorBlueprint) (r : Run) :
  exists bp,
    choice_of rs d pool r
    = (Ok bp, mkRun (S (run_rng r)) (run_attempts r) (run_console r)
                    (run_vehicles r)) /\
    In bp pool.
Proof.
  eexists. split; [reflexivity |].
  apply nth_In, rs_randbelow_range.
  destruct pool; [contradiction | cbn; lia].
Qed.

(** The spawn loop: one draw and one attempt per transform; the vehicles it
    adds come from the pool and stand at transforms of the list, and
    [self.vehicles] is not touched. *)
Lemma spawn_loop_returns (spawn_transforms : list (Transform * string)) :
  forall spawned_vehicles r,
  exists vehicles r',
    spawn_loop rs sim pool spawn_transforms spawned_vehicles r
    = (Ok (spawned_vehicles ++ vehicles)%list, r') /\
    (length vehicles <= length spawn_transforms)%nat /\
    run_rng r' = (run_rng r + length spawn_transforms)%nat /\
    run_attempts r' = (run_attempts r + length spawn_transforms)%nat /\
    run_vehicles r' = run_vehicles r /\
    Forall (fun v => In (actor_blueprint v) pool /\
                     In (actor_transform v) (map fst spawn_transforms) /\
                     (run_attempts r <= actor_id v < run_attempts r')%nat)
           vehicles /\
    ((forall k bp tr, spawn_completes sim k bp tr = true) ->
     map actor_transform vehicles = map fst spawn_transforms) /\
    ((forall k bp tr, spawn_completes sim k bp tr = false) ->
     vehicles = []).
Proof.
  induction spawn_transforms as [| [transform side] rest IH];
    intros spawned r.
  - exists [], r. cbn [spawn_loop retN length map].
    rewrite app_nil_r, !Nat.add_0_r. repeat split; auto.
  - cbn [spawn_loop].
    destruct (choice_in_pool (hd (mkActorBlueprint EmptyString []) pool) r)
      as (bp & Hpick & Hin).
    unfold bindN at 1. rewrite Hpick.
    unfold bindN at 1. unfold try_spawn at 1. cbn [run_attempts run_rng
      run_console run_vehicles].
    destruct (spawn_completes sim (run_attempts r) bp transform) eqn:Hdone.
    + unfold bindN at 1, print_line at 1.
      cbn [run_attempts run_rng run_console run_vehicles].
      match goal with
      | |- context [spawn_loop _ _ _ _ ?acc ?r1] =>
          destruct (IH acc r1)
            as (vs & r' & Hrun & Hlen & Hrng & Hatt & Hveh & Hall & Hyes & Hno)
      end.
      cbn [run_attempts run_rng run_console run_vehicles] in *.
      exists (mkActor (run_attempts r) bp transform None :: vs), r'.
      rewrite Hrun, <- app_assoc. cbn [length map fst].
      split; [reflexivity |]. split; [lia |]. split; [lia |].
      split; [lia |]. split; [exact Hveh |]. split; [| split].
      * constructor.
        -- cbn [actor_blueprint actor_transform actor_id].
           split; [exact Hin |]. split; [now left | lia].
        -- eapply Forall_impl; [| exact Hall]. cbn.
           intros v (Hb & Ht & Hid). split; [exact Hb |].
           split; [now right | lia].
      * intros Hyes'. cbn [map actor_transform]. now rewrite (Hyes Hyes').
      * intros Hno'. rewrite Hno' in Hdone. discriminate.
    + unfold bindN at 1, print_line at 1.
      cbn [run_attempts run_rng run_console run_vehicles].
      match goal with
      | |- context [spawn_loop _ _ _ _ ?acc ?r1] =>
          destruct (IH acc r1)
            as (vs & r' & Hrun & Hlen & Hrng & Hatt & Hveh & Hall & Hyes & Hno)
      end.
      cbn [run_attempts run_rng run_console run_vehicles] in *.
      exists vs, r'. rewrite Hrun. cbn [length map fst].
      split; [reflexivity |]. split; [lia |]. split; [lia |].
      split; [lia |]. split; [exact Hveh |]. split; [| split].
      * eapply Forall_impl; [| exact Hall]. cbn.
        intros v (Hb & Ht & Hid). split; [exact Hb |].
        split; [now right | lia].
      * intros Hyes'. rewrite Hyes' in Hdone. discriminate.
      * exact Hno.
Qed.
End SpawnLoop.

Lemma line_pool_spec (vehicle_blueprints : list ActorBlueprint)
      (l : ParkingLine) (bp : ActorBlueprint) :
  In bp (line_pool vehicle_blueprints l) <->
  In bp vehicle_blueprints /\
  (forall keywords, line_exclude l = Some keywords ->
                    ~ excluded_by keywords bp).
Proof.
  unfold line_pool. destruct (line_exclude l) as [kws |].
  - rewrite filter_vehicles_for_line_filter, filter_In, negb_true_iff.
    split.
    + intros [Hin Hex]. split; [exact Hin |].
      intros kws' [= <-] Hexcl. apply excluded_spec in Hexcl. congruence.
    + intros [Hin Hex]. split; [exact Hin |].
      destruct (existsb _ kws) eqn:E; [| reflexivity].
      exfalso. apply (Hex kws eq_refl). now apply excluded_spec.
  - unfold filter_vehicles_for_line. rewrite filter_loop_spec. cbn [app existsb negb].
    rewrite filter_In. split; [intros [Hin _] | intros [Hin _]].
    + split; [exact Hin | discriminate].
    + now split.
Qed.

Section AlongLine.
Variable rs : RandomSource.
Variable sim : Simulator.
Variable self : CarparkVehicleSpawner.
Variable vehicle_blueprints : list ActorBlueprint.

(** A row without candidates. *)
Lemma line_skipped (l : ParkingLine) (r : Run) :
  line_pool vehicle_blueprints l = [] ->
  spawn_vehicles_along_line rs sim self l vehicle_blueprints r
  = (Ok [], mkRun (run_rng r) (run_attempts r)
                  (run_console r ++ [NoVehiclesLine]) (run_vehicles r)).
Proof.
  intros Hempty. rewrite spawn_vehicles_along_line_unfold, Hempty.
  reflexivity.
Qed.

(** A row with candidates and a bad side or spacing. *)
Lemma line_raises (l : ParkingLine) (r : Run) :
  line_pool vehicle_blueprints l <> [] ->
  (~ valid_side (line_side l) ->
   spawn_vehicles_along_line rs sim self l vehicle_blueprints r
   = (Raise (ValueError "Invalid side_type"), r)) /\
  (valid_side (line_side l) -> line_spacing l = 0 ->
   spawn_vehicles_along_line rs sim self l vehicle_blueprints r
   = (Raise ZeroDivisionError, r)).
Proof.
  intros Hpool. rewrite spawn_vehicles_along_line_unfold.
  destruct (line_pool vehicle_blueprints l) as [| bp pool]; [contradiction |].
  split.
  - intros Hinv. unfold bindN, call.
    now rewrite generate_invalid_side.
  - intros Hv HS. unfold bindN, call.
    now rewrite HS, generate_zero_spacing.
Qed.

(** A row with candidates, a valid side and a non-zero spacing. *)
Lemma line_returns (l : ParkingLine) (r : Run) :
  line_pool vehicle_blueprints l <> [] ->
  valid_side (line_side l) -> line_spacing l <> 0 ->
  exists items st vehicles r',
    generate_spawn_positions rs self (line_start l) (line_end l)
      (line_side l) (line_count l) (line_spacing l) (packer_state r)
    = Ok (items, st) /\
    spawn_vehicles_along_line rs sim self l vehicle_blueprints r
    = (Ok vehicles, r') /\
    (length vehicles <= length items)%nat /\
    run_attempts r' = (run_attempts r + length items)%nat /\
    run_vehicles r' = run_vehicles r /\
    Forall (fun v =>
              In (actor_blueprint v) vehicle_blueprints /\
              (forall keywords, line_exclude l = Some keywords ->
                                ~ excluded_by keywords (actor_blueprint v)) /\
              In (actor_transform v) (map fst items))
           vehicles /\
    ((forall k bp tr, spawn_completes sim k bp tr = true) ->
     map actor_transform vehicles = map fst items) /\
    ((forall k bp tr, spawn_completes sim k bp tr = false) ->
     vehicles = []).
Proof.
  intros Hpool Hv HS.
  destruct (generate_returns rs self (line_start l) (line_end l)
              (line_side l) (line_count l) (line_spacing l) (packer_state r)
              Hv HS)
    as (perp & dir & ps & s1 & items & st & _ & _ & Hrun & _).
  destruct (spawn_loop_returns rs sim (line_pool vehicle_blueprints l) Hpool
              items []
              (mkRun (rng_calls st) (run_attempts r)
                     (run_console r ++ map PackerLine (stdout st))
                     (run_vehicles r)))
    as (vs & r' & Hloop & Hlen & _ & Hatt & Hveh & Hall & Hyes & Hno).
  cbn [run_attempts run_vehicles app] in *.
  exists items, st, vs, r'. split; [exact Hrun |].
  split.
  { rewrite spawn_vehicles_along_line_unfold.
    destruct (line_pool vehicle_blueprints l) as [| bp pool] eqn:E;
      [contradiction |].
    unfold bindN, call. fold (packer_state r). rewrite Hrun. exact Hloop. }
  split; [exact Hlen |]. split; [exact Hatt |]. split; [exact Hveh |].
  split; [| split; [exact Hyes | exact Hno]].
  eapply Forall_impl; [| exact Hall]. cbn.
  intros v (Hb & Ht & _). apply line_pool_spec in Hb as [Hin Hex].
  now repeat split.
Qed.

(** X15.  A row whose pool is empty after keyword filtering is skipped
    with a warning: no vehicle, no draw, no spawn attempt, and no exception
    either, even when the side of the row is invalid or its spacing is 0. *)
Theorem empty_pool_skips_line (l : ParkingLine) (r : Run) :
  line_pool vehicle_blueprints l = [] ->
  spawn_vehicles_along_line rs sim self l vehicle_blueprints r
  = (Ok [], mkRun (run_rng r) (run_attempts r)
                  (run_console r ++ [NoVehiclesLine]) (run_vehicles r)).
Proof. apply line_skipped. Qed.


(** X17.  A row with candidates left, a valid side and a non-zero spacing
    is processed without exception.  One spawn is attempted per generated
    transform; the vehicles returned are at most as many, each from a
    blueprint of the row's pool (so none that an exclude keyword matches)
    and at one of the generated transforms; [self.vehicles] is not touched.
    When every spawn completes there is exactly one vehicle per transform,
    in order; when none completes the list is empty. *)
Theorem line_spawns_generated_transforms (l : ParkingLine) (r : Run) :
  line_pool vehicle_blueprints l <> [] ->
  valid_side (line_side l) -> line_spacing l <> 0 ->
  exists items st vehicles r',
    generate_spawn_positions rs self (line_start l) (line_end l)
      (line_side l) (line_count l) (line_spacing l) (packer_state r)
    = Ok (items, st) /\
    spawn_vehicles_along_line rs sim self l vehicle_blueprints r
    = (Ok vehicles, r') /\
    (length vehicles <= length items)%nat /\
    run_attempts r' = (run_attempts r + length items)%nat /\
    run_vehicles r' = run_vehicles r /\
    Forall (fun v =>
              In (actor_blueprint v) vehicle_blueprints /\
              (forall keywords, line_exclude l = Some keywords ->
                                ~ excluded_by keywords (actor_blueprint v)) /\
              In (actor_transform v) (map fst items))
           vehicles /\
    ((forall k bp tr, spawn_completes sim k bp tr = true) ->
     map actor_transform vehicles = map fst items) /\
    ((forall k bp tr, spawn_completes sim k bp tr = false) ->
     vehicles = []).
Proof. apply line_returns. Qed.
End AlongLine.

Lemma east_line_pool :
  line_pool [truck_a; van_b; car_c] east_line = [car_c].
Proof. reflexivity. Qed.

Lemma empty_pool_skips_line_witness :
  spawn_vehicles_along_line
    zero_source ready_simulator (default_spawner flat_world)
    (Line6 origin east10 "sideways" 3 0 (Some ["a"; "truck"]))
    [truck_a; van_b; car_c] run0
  = (Ok [], mkRun 0 0 [NoVehiclesLine] []).
Proof.
  apply (empty_pool_skips_line zero_source ready_simulator
           (default_spawner flat_world) [truck_a; van_b; car_c]
           (Line6 origin east10 "sideways" 3 0 (Some ["a"; "truck"])) run0).
  reflexivity.
Defined.


Lemma line_spawns_generated_transforms_witness :
  exists items st vehicles r',
    generate_spawn_positions zero_source (default_spawner flat_world)
      (line_start east_line) (line_end east_line) (line_side east_line)
      (line_count east_line) (line_spacing east_line) (packer_state run0)
    = Ok (items, st) /\
    spawn_vehicles_along_line
      zero_source ready_simulator (default_spawner flat_world) east_line
      [truck_a; van_b; car_c] run0
    = (Ok vehicles, r') /\
    (length vehicles <= length items)%nat /\
    run_attempts r' = (run_attempts run0 + length items)%nat /\
    run_vehicles r' = run_vehicles run0 /\
    Forall (fun v =>
              In (actor_blueprint v) [truck_a; van_b; car_c] /\
              (forall keywords, line_exclude east_line = Some keywords ->
                                ~ excluded_by keywords (actor_blueprint v)) /\
              In (actor_transform v) (map fst items))
           vehicles /\
    ((forall k bp tr, spawn_completes ready_simulator k bp tr = true) ->
     map actor_transform vehicles = map fst items) /\
    ((forall k bp tr, spawn_completes ready_simulator k bp tr = false) ->
     vehicles = []).
Proof.
  apply line_spawns_generated_transforms.
  - rewrite east_line_pool. discriminate.
  - exact valid_left.
  - cbn. lra.
Defined.

(** ** The two-wheeler filter *)

Lemma blocklist_lower_case : map lower excluded_keywords = excluded_keywords.
Proof. reflexivity. Qed.

Lemma filter_vehicles_loop_spec (vehicle_blueprints : list ActorBlueprint) :
  forall filtered excluded_count,
    filter_vehicles_loop vehicle_blueprints filtered excluded_count
    = ((filtered ++
        filter (fun bp =>
                  negb (existsb (fun keyword =>
                                   str_in keyword (lower (bp_id bp)))
                                excluded_keywords))
               vehicle_blueprints)%list,
       (excluded_count
        + (length vehicle_blueprints
           - length (filter (fun bp =>
                               negb (existsb (fun keyword =>
                                                str_in keyword
                                                       (lower (bp_id bp)))
                                             excluded_keywords))
                            vehicle_blueprints)))%nat).
Proof.
  induction vehicle_blueprints as [| bp rest IH]; intros acc c.
  - cbn. now rewrite app_nil_r, Nat.add_0_r.
  - cbn [filter_vehicles_loop filter].
    pose proof (filter_length_le
                  (fun bp => negb (existsb (fun keyword =>
                                              str_in keyword (lower (bp_id bp)))
                                           excluded_keywords)) rest) as Hle.
    destruct (existsb _ excluded_keywords); cbn [negb]; rewrite IH.
    + f_equal. cbn [length]. lia.
    + rewrite <- app_assoc. f_equal.
Qed.

Lemma blocklist_test (bp : ActorBlueprint) :
  existsb (fun keyword => str_in keyword (lower (bp_id bp))) excluded_keywords
  = existsb (fun keyword => str_in (lower keyword) (lower (bp_id bp)))
            excluded_keywords.
Proof. reflexivity. Qed.

(** [filter_vehicles], run. *)
Lemma filter_vehicles_run (vehicle_blueprints : list ActorBlueprint) (r : Run) :
  let kept := filter_vehicles_for_line vehicle_blueprints
                                       (Some excluded_keywords) in
  let removed := (length vehicle_blueprints - length kept)%nat in
  filter_vehicles vehicle_blueprints r
  = (Ok kept,
     mkRun (run_rng r) (run_attempts r)
           (run_console r ++
            (if (0 <? removed)%nat then [FilteredOutLine removed] else []))%list
           (run_vehicles r)).
Proof.
  cbn zeta. rewrite filter_vehicles_for_line_filter.
  unfold filter_vehicles. rewrite filter_vehicles_loop_spec.
  cbn [app Nat.add].
  destruct (0 <? _)%nat; unfold bindN, print_line, retN; cbn;
    [reflexivity |].
  rewrite app_nil_r. now destruct r.
Qed.

(** X18.  [filter_vehicles] keeps, in order, exactly what
    [filter_vehicles_for_line] keeps for its fixed keyword list (the
    keywords of that list are in lower case already).  It prints the number
    of candidates it removed when, and only when, it removed some, and
    touches nothing else; applied to its own result it removes nothing and
    prints nothing. *)
Theorem filter_vehicles_is_blocklist_filter
        (vehicle_blueprints : list ActorBlueprint) (r : Run) :
  let kept := filter_vehicles_for_line vehicle_blueprints
                                       (Some excluded_keywords) in
  let removed := (length vehicle_blueprints - length kept)%nat in
  filter_vehicles vehicle_blueprints r
  = (Ok kept,
     mkRun (run_rng r) (run_attempts r)
           (run_console r ++
            (if (0 <? removed)%nat then [FilteredOutLine removed] else []))%list
           (run_vehicles r)) /\
  (length kept <= length vehicle_blueprints)%nat /\
  filter_vehicles kept r = (Ok kept, r).
Proof.
  cbn zeta. split; [apply filter_vehicles_run |].
  split; [rewrite filter_vehicles_for_line_filter; apply filter_length_le |].
  rewrite filter_vehicles_run. cbn zeta.
  rewrite keyword_filters_idem.
  rewrite Nat.sub_diag. cbn. rewrite app_nil_r. now destruct r.
Qed.

(** ** The batch *)

Section Batch.
Variable rs : RandomSource.
Variable sim : Simulator.
Variable self : CarparkVehicleSpawner.

(** Whatever its outcome, a row leaves [self.vehicles] alone, and what it
    returns comes from its pool. *)
Lemma spawn_vehicles_along_line_any
      (l : ParkingLine) (vehicle_blueprints : list ActorBlueprint) (r : Run) :
  exists o r',
    spawn_vehicles_along_line rs sim self l vehicle_blueprints r = (o, r') /\
    run_vehicles r' = run_vehicles r /\
    (forall vehicles, o = Ok vehicles ->
       Forall (fun v => In (actor_blueprint v) vehicle_blueprints) vehicles).
Proof.
  rewrite spawn_vehicles_along_line_unfold.
  destruct (line_pool vehicle_blueprints l) as [| bp0 pool] eqn:Hpool.
  - eexists _, _. split; [reflexivity |]. split; [reflexivity |].
    intros vs [= <-]. constructor.
  - unfold bindN, call.
    destruct (generate_spawn_positions rs self _ _ _ _ _ _)
      as [[items st] | e |].
    + destruct (spawn_loop_returns rs sim (bp0 :: pool) ltac:(discriminate)
                  items []
                  (mkRun (rng_calls st) (run_attempts r)
                         (run_console r ++ map PackerLine (stdout st))
                         (run_vehicles r)))
        as (vs & r' & Hloop & _ & _ & _ & Hveh & Hall & _).
      exists (Ok vs), r'. split; [exact Hloop |]. split; [exact Hveh |].
      intros vs' [= <-]. eapply Forall_impl; [| exact Hall].
      intros v (Hb & _). rewrite <- Hpool in Hb.
      now apply line_pool_spec in Hb.
    + eexists _, _. split; [reflexivity |]. split; [reflexivity |].
      discriminate.
    + eexists _, _. split; [reflexivity |]. split; [reflexivity |].
      discriminate.
Qed.

(** A row that passes returns. *)
Lemma spawn_vehicles_along_line_passes
      (l : ParkingLine) (vehicle_blueprints : list ActorBlueprint) (r : Run) :
  line_passes vehicle_blueprints l ->
  exists vehicles r',
    spawn_vehicles_along_line rs sim self l vehicle_blueprints r
    = (Ok vehicles, r').
Proof.
  intros Hpass.
  destruct (list_eq_dec
              (fun a b : ActorBlueprint =>
                 ltac:(decide equality;
                       [apply (list_eq_dec string_dec) | apply string_dec]))
              (line_pool vehicle_blueprints l) [])
    as [Hempty | Hpool].
  - eexists _, _. now apply line_skipped.
  - destruct Hpass as [Hempty | [Hv HS]]; [contradiction |].
    destruct (line_returns rs sim self vehicle_blueprints
                l r Hpool Hv HS) as (items & st & vs & r' & _ & Hrun & _).
    now exists vs, r'.
Qed.

(** The loop over the rows only ever appends to [self.vehicles], whatever
    its outcome, and what it appends comes from the pool. *)
Lemma lines_loop_appends (vehicle_blueprints : list ActorBlueprint)
      (count : nat) (parking_lines : list ParkingLine) :
  forall i r,
  exists o r' added,
    lines_loop rs sim self vehicle_blueprints count i parking_lines r
    = (o, r') /\
    run_vehicles r' = (run_vehicles r ++ added)%list /\
    Forall (fun v => In (actor_blueprint v) vehicle_blueprints) added.
Proof.
  induction parking_lines as [| l rest IH]; intros i r.
  - exists (Ok tt), r, []. rewrite app_nil_r. now repeat split.
  - cbn [lines_loop].
    unfold bindN at 1. unfold print_line at 1.
    unfold bindN at 1.
    set (r1 := mkRun (run_rng r) (run_attempts r)
                     (run_console r ++ [ProcessingLine (i + 1) count])
                     (run_vehicles r)).
    assert (Hshow : exists r2,
      match exclude_list_of l with
      | Some exclude_list => print_line (ExcludingLine exclude_list)
      | None => retN tt
      end r1 = (Ok tt, r2) /\ run_vehicles r2 = run_vehicles r).
    { destruct (exclude_list_of l); eexists; split; reflexivity. }
    destruct Hshow as (r2 & -> & Hveh2).
    unfold bindN at 1.
    destruct (spawn_vehicles_along_line_any l vehicle_blueprints r2)
      as (o & r3 & -> & Hveh3 & Hfrom).
    destruct o as [vs | e |].
    + unfold bindN at 1. unfold extend_vehicles at 1.
      unfold bindN at 1. unfold print_line at 1.
      cbn [run_rng run_attempts run_console run_vehicles].
      match goal with
      | |- context [lines_loop _ _ _ _ _ _ _ ?r4] =>
          destruct (IH (S i) r4) as (o' & r' & added & Hrun & Hveh & Hall)
      end.
      cbn [run_vehicles] in Hveh.
      exists o', r', (vs ++ added)%list. split; [exact Hrun |].
      split; [now rewrite Hveh, Hveh3, Hveh2, app_assoc |].
      apply Forall_app. split; [now apply Hfrom | exact Hall].
    + exists (Raise e), r3, []. rewrite app_nil_r.
      split; [reflexivity |]. split; [congruence | constructor].
    + exists OutOfFuel, r3, []. rewrite app_nil_r.
      split; [reflexivity |]. split; [congruence | constructor].
Qed.

(** Rows that pass are all processed. *)
Lemma lines_loop_passes (vehicle_blueprints : list ActorBlueprint)
      (count : nat) (parking_lines : list ParkingLine) :
  Forall (line_passes vehicle_blueprints) parking_lines ->
  forall i r,
  exists r',
    lines_loop rs sim self vehicle_blueprints count i parking_lines r
    = (Ok tt, r').
Proof.
  induction 1 as [| l rest Hpass _ IH]; intros i r.
  - now exists r.
  - cbn [lines_loop].
    unfold bindN at 1. unfold print_line at 1.
    unfold bindN at 1.
    set (r1 := mkRun _ _ _ _).
    assert (Hshow : exists r2,
      match exclude_list_of l with
      | Some exclude_list => print_line (ExcludingLine exclude_list)
      | None => retN tt
      end r1 = (Ok tt, r2)).
    { destruct (exclude_list_of l); eexists; reflexivity. }
    destruct Hshow as (r2 & ->).
    unfold bindN at 1.
    destruct (spawn_vehicles_along_line_passes l vehicle_blueprints r2 Hpass)
      as (vs & r3 & ->).
    unfold bindN at 1. unfold extend_vehicles at 1.
    unfold bindN at 1. unfold print_line at 1.
    apply IH.
Qed.

(** The first row that raises ends the loop: the rows after it are not
    processed. *)
Lemma lines_loop_aborts (vehicle_blueprints : list ActorBlueprint)
      (count : nat) (before after : list ParkingLine) (bad : ParkingLine)
      (e : exn) :
  Forall (line_passes vehicle_blueprints) before ->
  (forall r, fst (spawn_vehicles_along_line rs sim self bad
                    vehicle_blueprints r) = Raise e) ->
  forall i r,
    fst (lines_loop rs sim self vehicle_blueprints count i
                    (before ++ bad :: after)%list r)
    = Raise e.
Proof.
  intros Hbefore Hbad.
  induction Hbefore as [| l rest Hpass _ IH]; intros i r.
  - cbn [app lines_loop].
    unfold bindN at 1. unfold print_line at 1.
    unfold bindN at 1.
    set (r1 := mkRun _ _ _ _).
    assert (Hshow : exists r2,
      match exclude_list_of bad with
      | Some exclude_list => print_line (ExcludingLine exclude_list)
      | None => retN tt
      end r1 = (Ok tt, r2)).
    { destruct (exclude_list_of bad); eexists; reflexivity. }
    destruct Hshow as (r2 & ->).
    unfold bindN at 1. specialize (Hbad r2).
    destruct (spawn_vehicles_along_line rs sim self bad vehicle_blueprints r2)
      as [o r3].
    cbn [fst] in Hbad. now subst o.
  - cbn [app lines_loop].
    unfold bindN at 1. unfold print_line at 1.
    unfold bindN at 1.
    set (r1 := mkRun _ _ _ _).
    assert (Hshow : exists r2,
      match exclude_list_of l with
      | Some exclude_list => print_line (ExcludingLine exclude_list)
      | None => retN tt
      end r1 = (Ok tt, r2)).
    { destruct (exclude_list_of l); eexists; reflexivity. }
    destruct Hshow as (r2 & ->).
    unfold bindN at 1.
    destruct (spawn_vehicles_along_line_passes l vehicle_blueprints r2 Hpass)
      as (vs & r3 & ->).
    unfold bindN at 1. unfold extend_vehicles at 1.
    unfold bindN at 1. unfold print_line at 1.
    apply IH.
Qed.
End Batch.

Section Carpark.
Variable rs : RandomSource.
Variable sim : Simulator.
Variable self : CarparkVehicleSpawner.

(** [spawn_carpark] up to its loop: with candidates in the library and
    four-wheeled ones among them, the loop over the rows starts in a state
    that differs from the initial one by printed lines only. *)
Lemma spawn_carpark_run (parking_lines : list ParkingLine)
      (vehicle_filter : string) (r : Run) :
  library_filter sim vehicle_filter <> [] ->
  four_wheeled sim vehicle_filter <> [] ->
  exists r0,
    run_rng r0 = run_rng r /\ run_attempts r0 = run_attempts r /\
    run_vehicles r0 = run_vehicles r /\
    spawn_carpark rs sim self parking_lines vehicle_filter r
    = bindN (lines_loop rs sim self (four_wheeled sim vehicle_filter)
                        (length parking_lines) 0 parking_lines)
            (fun _ r' =>
               (Ok (run_vehicles r'),
                mkRun (run_rng r') (run_attempts r')
                      (run_console r'
                       ++ [TotalLine (length (run_vehicles r'))])
                      (run_vehicles r')))
            r0.
Proof.
  intros Hlib Hpool. unfold spawn_carpark.
  destruct (library_filter sim vehicle_filter) as [| bp lib] eqn:Elib;
    [contradiction |].
  unfold bindN at 1. rewrite filter_vehicles_run. cbn zeta.
  rewrite <- Elib. fold (four_wheeled sim vehicle_filter).
  destruct (four_wheeled sim vehicle_filter) as [| bp' pool] eqn:Epool;
    [contradiction |].
  unfold bindN at 1. unfold print_line at 1.
  unfold bindN at 1. unfold print_line at 1.
  eexists. split; [| split; [| split; [| reflexivity]]]; reflexivity.
Qed.

Lemma four_wheeled_spec (vehicle_filter : string) (bp : ActorBlueprint) :
  In bp (four_wheeled sim vehicle_filter) <->
  In bp (library_filter sim vehicle_filter) /\
  ~ excluded_by excluded_keywords bp.
Proof.
  unfold four_wheeled.
  rewrite filter_vehicles_for_line_filter, filter_In, negb_true_iff.
  split; intros [Hin Hex]; (split; [exact Hin |]).
  - intros Hexcl. apply excluded_spec in Hexcl. congruence.
  - destruct (existsb _ excluded_keywords) eqn:E; [| reflexivity].
    exfalso. apply Hex. now apply excluded_spec.
Qed.

(** X19.  [spawn_carpark] refuses to run without candidates: it raises
    [ValueError] when the library has no blueprint for the filter pattern,
    and when every blueprint it has is removed by the two-wheeler filter.
    In both cases nothing was drawn or spawned and [self.vehicles] is
    unchanged. *)
Theorem spawn_carpark_needs_candidates
        (parking_lines : list ParkingLine) (vehicle_filter : string)
        (r : Run) :
  (library_filter sim vehicle_filter = [] ->
   spawn_carpark rs sim self parking_lines vehicle_filter r
   = (Raise (ValueError ("No vehicle blueprints found matching filter: "
                         ++ vehicle_filter)), r)) /\
  (library_filter sim vehicle_filter <> [] ->
   four_wheeled sim vehicle_filter = [] ->
   exists r',
     spawn_carpark rs sim self parking_lines vehicle_filter r
     = (Raise (ValueError
                 "No 4-wheeled vehicles found after filtering out bikes/2-wheeled vehicles"),
        r') /\
     run_rng r' = run_rng r /\ run_attempts r' = run_attempts r /\
     run_vehicles r' = run_vehicles r).
Proof.
  split.
  - intros Hlib. unfold spawn_carpark. now rewrite Hlib.
  - intros Hlib Hpool. unfold spawn_carpark.
    destruct (library_filter sim vehicle_filter) as [| bp lib] eqn:Elib;
      [contradiction |].
    unfold bindN at 1. rewrite filter_vehicles_run. cbn zeta.
    rewrite <- Elib. fold (four_wheeled sim vehicle_filter). rewrite Hpool.
    eexists. split; [reflexivity |]. now repeat split.
Qed.

(** X20.  Whatever its outcome, [spawn_carpark] only appends to
    [self.vehicles]: the vehicles held before the call stay in front (a
    second call returns those of the first as well), and what was spawned
    before an exception stays.  Every vehicle it appends was made from a
    blueprint of the library that the two-wheeler filter lets through.
    When it returns, it returns [self.vehicles]. *)
Theorem spawn_carpark_accumulates
        (parking_lines : list ParkingLine) (vehicle_filter : string)
        (r : Run) :
  exists o r' added,
    spawn_carpark rs sim self parking_lines vehicle_filter r = (o, r') /\
    run_vehicles r' = (run_vehicles r ++ added)%list /\
    Forall (fun v =>
              In (actor_blueprint v) (library_filter sim vehicle_filter) /\
              ~ excluded_by excluded_keywords (actor_blueprint v))
           added /\
    (forall vehicles, o = Ok vehicles -> vehicles = run_vehicles r').
Proof.
  destruct (list_eq_dec
              (fun a b : ActorBlueprint =>
                 ltac:(decide equality;
                       [apply (list_eq_dec string_dec) | apply string_dec]))
              (library_filter sim vehicle_filter) []) as [Hlib | Hlib].
  { exists (Raise (ValueError ("No vehicle blueprints found matching filter: "
                               ++ vehicle_filter))), r, [].
    rewrite app_nil_r. unfold spawn_carpark. rewrite Hlib.
    split; [reflexivity |]. split; [reflexivity |].
    split; [constructor | discriminate]. }
  destruct (list_eq_dec
              (fun a b : ActorBlueprint =>
                 ltac:(decide equality;
                       [apply (list_eq_dec string_dec) | apply string_dec]))
              (four_wheeled sim vehicle_filter) []) as [Hpool | Hpool].
  { unfold spawn_carpark.
    destruct (library_filter sim vehicle_filter) as [| bp lib] eqn:Elib;
      [contradiction |].
    unfold bindN at 1. rewrite filter_vehicles_run. cbn zeta.
    rewrite <- Elib. fold (four_wheeled sim vehicle_filter). rewrite Hpool.
    eexists _, _, []. split; [reflexivity |]. cbn [run_vehicles].
    rewrite app_nil_r. split; [reflexivity |].
    split; [constructor | discriminate]. }
  destruct (spawn_carpark_run parking_lines vehicle_filter r Hlib Hpool)
    as (r0 & _ & _ & Hveh0 & ->).
  destruct (lines_loop_appends rs sim self (four_wheeled sim vehicle_filter)
              (length parking_lines) parking_lines 0%nat r0)
    as (o & r1 & added & Hloop & Hveh & Hall).
  assert (Hfrom : Forall (fun v =>
             In (actor_blueprint v) (library_filter sim vehicle_filter) /\
             ~ excluded_by excluded_keywords (actor_blueprint v)) added).
  { eapply Forall_impl; [| exact Hall]. intros v Hv.
    now apply four_wheeled_spec. }
  unfold bindN. rewrite Hloop. destruct o as [[] | e |].
  - eexists _, _, added. split; [reflexivity |]. cbn [run_vehicles].
    split; [now rewrite Hveh, Hveh0 |]. split; [exact Hfrom |].
    now intros vs [= <-].
  - eexists _, _, added. split; [reflexivity |].
    split; [now rewrite Hveh, Hveh0 |]. split; [exact Hfrom | discriminate].
  - eexists _, _, added. split; [reflexivity |].
    split; [now rewrite Hveh, Hveh0 |]. split; [exact Hfrom | discriminate].
Qed.

(** X21.  With four-wheeled candidates in the library, a batch whose rows
    all pass (each is skipped for want of candidates, or has a valid side
    and a non-zero spacing) returns.  A row with candidates and an invalid
    side aborts the batch with [ValueError], and one with a valid side and
    spacing 0 with [ZeroDivisionError]: the rows after it are not
    processed. *)
Theorem batch_outcome
        (parking_lines : list ParkingLine) (vehicle_filter : string)
        (r : Run) :
  four_wheeled sim vehicle_filter <> [] ->
  (Forall (line_passes (four_wheeled sim vehicle_filter)) parking_lines ->
   exists vehicles r',
     spawn_carpark rs sim self parking_lines vehicle_filter r
     = (Ok vehicles, r')) /\
  (forall before bad after,
      parking_lines = (before ++ bad :: after)%list ->
      Forall (line_passes (four_wheeled sim vehicle_filter)) before ->
      line_pool (four_wheeled sim vehicle_filter) bad <> [] ->
      (~ valid_side (line_side bad) ->
       fst (spawn_carpark rs sim self parking_lines vehicle_filter r)
       = Raise (ValueError "Invalid side_type")) /\
      (valid_side (line_side bad) -> line_spacing bad = 0 ->
       fst (spawn_carpark rs sim self parking_lines vehicle_filter r)
       = Raise ZeroDivisionError)).
Proof.
  intros Hpool.
  assert (Hlib : library_filter sim vehicle_filter <> []).
  { intros Hlib. apply Hpool. unfold four_wheeled. now rewrite Hlib. }
  destruct (spawn_carpark_run parking_lines vehicle_filter r Hlib Hpool)
    as (r0 & _ & _ & _ & ->).
  split.
  - intros Hpass.
    destruct (lines_loop_passes rs sim self _ (length parking_lines)
                parking_lines Hpass 0%nat r0) as (r1 & Hloop).
    unfold bindN. rewrite Hloop. now eexists _, _.
  - intros before bad after -> Hbefore Hbad. split.
    + intros Hinv.
      pose proof (lines_loop_aborts rs sim self _
                    (length (before ++ bad :: after)) before after bad
                    (ValueError "Invalid side_type") Hbefore) as Habort.
      unfold bindN.
      specialize (Habort
        (fun r1 => f_equal fst
           (proj1 (line_raises rs sim self _ bad r1 Hbad) Hinv)) 0%nat r0).
      destruct (lines_loop _ _ _ _ _ _ _ r0) as [o r1].
      cbn [fst] in Habort. now subst o.
    + intros Hv HS.
      pose proof (lines_loop_aborts rs sim self _
                    (length (before ++ bad :: after)) before after bad
                    ZeroDivisionError Hbefore) as Habort.
      unfold bindN.
      specialize (Habort
        (fun r1 => f_equal fst
           (proj2 (line_raises rs sim self _ bad r1 Hbad) Hv HS)) 0%nat r0).
      destruct (lines_loop _ _ _ _ _ _ _ r0) as [o r1].
      cbn [fst] in Habort. now subst o.
Qed.
End Carpark.

Lemma spawn_carpark_needs_candidates_witness :
  spawn_carpark zero_source empty_simulator (default_spawner flat_world)
                [east_line] "vehicle.*" run0
  = (Raise (ValueError "No vehicle blueprints found matching filter: vehicle.*"),
     run0) /\
  exists r',
    spawn_carpark zero_source bike_simulator (default_spawner flat_world)
                  [east_line] "vehicle.*" run0
    = (Raise (ValueError
                "No 4-wheeled vehicles found after filtering out bikes/2-wheeled vehicles"),
       r') /\
    run_rng r' = run_rng run0 /\ run_attempts r' = run_attempts run0 /\
    run_vehicles r' = run_vehicles run0.
Proof.
  split.
  - apply (proj1 (spawn_carpark_needs_candidates
                    zero_source empty_simulator (default_spawner flat_world)
                    [east_line] "vehicle.*" run0)).
    reflexivity.
  - apply (proj2 (spawn_carpark_needs_candidates
                    zero_source bike_simulator (default_spawner flat_world)
                    [east_line] "vehicle.*" run0)).
    + discriminate.
    + reflexivity.
Defined.

Lemma ready_four_wheeled :
  four_wheeled ready_simulator "vehicle.*" = [truck_a; van_b; car_c].
Proof. reflexivity. Qed.

Lemma batch_outcome_witness :
  (Forall (line_passes (four_wheeled ready_simulator "vehicle.*"))
          [east_line; Line5 origin east10 "up" 2 4] ->
   exists vehicles r',
     spawn_carpark zero_source ready_simulator (default_spawner flat_world)
                   [east_line; Line5 origin east10 "up" 2 4] "vehicle.*" run0
     = (Ok vehicles, r')) /\
  (forall before bad after,
      [east_line; Line5 origin east10 "up" 2 4]
      = (before ++ bad :: after)%list ->
      Forall (line_passes (four_wheeled ready_simulator "vehicle.*")) before ->
      line_pool (four_wheeled ready_simulator "vehicle.*") bad <> [] ->
      (~ valid_side (line_side bad) ->
       fst (spawn_carpark zero_source ready_simulator
                          (default_spawner flat_world)
                          [east_line; Line5 origin east10 "up" 2 4]
                          "vehicle.*" run0)
       = Raise (ValueError "Invalid side_type")) /\
      (valid_side (line_side bad) -> line_spacing bad = 0 ->
       fst (spawn_carpark zero_source ready_simulator
                          (default_spawner flat_world)
                          [east_line; Line5 origin east10 "up" 2 4]
                          "vehicle.*" run0)
       = Raise ZeroDivisionError)).
Proof.
  apply batch_outcome. rewrite ready_four_wheeled. discriminate.
Defined.

(** A batch of two rows, the second with an invalid side: the first row is
    processed, then the batch stops with [ValueError]. *)
Example batch_aborts_on_second_row :
  fst (spawn_carpark zero_source ready_simulator (default_spawner flat_world)
                     [east_line; Line5 origin east10 "up" 2 4]
                     "vehicle.*" run0)
  = Raise (ValueError "Invalid side_type").
Proof.
  pose proof (lines_loop_aborts zero_source ready_simulator
                (default_spawner flat_world)
                (four_wheeled ready_simulator "vehicle.*") 2
                [east_line] [] (Line5 origin east10 "up" 2 4)
                (ValueError "Invalid side_type")) as Habort.
  destruct (spawn_carpark_run zero_source ready_simulator
              (default_spawner flat_world)
              [east_line; Line5 origin east10 "up" 2 4] "vehicle.*" run0)
    as (r0 & _ & _ & _ & ->).
  - discriminate.
  - rewrite ready_four_wheeled. discriminate.
  - unfold bindN. cbn [length].
    specialize (Habort
      ltac:(constructor; [right; split; [exact valid_left | cbn; lra]
                         | constructor])).
    specialize (Habort
      (fun r1 => f_equal fst
         (proj1 (line_raises zero_source ready_simulator
                   (default_spawner flat_world)
                   (four_wheeled ready_simulator "vehicle.*")
                   (Line5 origin east10 "up" 2 4) r1
                   ltac:(discriminate))
                invalid_up)) 0%nat r0).
    cbn [app] in Habort.
    destruct (lines_loop _ _ _ _ _ _ _ r0) as [o r1].
    cbn [fst] in Habort. now subst o.
Qed.
(** * The static variant: one row

    [spawn_parked_vehicle], and [spawn_vehicles_along_line] generating a
    row afresh or replaying loaded spawns. *)

Module StaticFacts.
Import SpawnCarparkStaticBatch.

Section Parked.
Variable sim : Simulator.
Variable self : SpawnCarparkStatic.CarparkVehicleSpawner.

(** Without the static-prop path, [spawn_parked_vehicle] is one attempt
    with the vehicle blueprint. *)
Lemma spawn_parked_vehicle_plain (vehicle_bp : ActorBlueprint)
      (transform : Transform) (vehicle_bp_id : option string) (r : Run) :
  SpawnCarparkStatic.use_static_props self = false \/
  SpawnCarparkStatic.static_prop_bp self = None ->
  spawn_parked_vehicle sim self vehicle_bp transform vehicle_bp_id r
  = try_spawn_blueprint sim vehicle_bp transform r.
Proof.
  intros Hoff. unfold spawn_parked_vehicle, bindN.
  destruct Hoff as [-> | Hnone].
  - reflexivity.
  - rewrite Hnone. now destruct (SpawnCarparkStatic.use_static_props self).
Qed.

(** [spawn_parked_vehicle] in general: one or two attempts, never an
    exception; the actor it returns stands at the transform asked for. *)
Lemma spawn_parked_vehicle_returns (vehicle_bp : ActorBlueprint)
      (transform : Transform) (vehicle_bp_id : option string) (r : Run) :
  exists result r',
    spawn_parked_vehicle sim self vehicle_bp transform vehicle_bp_id r
    = (Ok result, r') /\
    run_rng r' = run_rng r /\ run_vehicles r' = run_vehicles r /\
    (run_attempts r < run_attempts r' <= run_attempts r + 2)%nat /\
    (forall actor, result = Some actor ->
       actor_transform actor = transform /\
       (run_attempts r <= actor_id actor < run_attempts r')%nat /\
       ((actor_mesh actor = None /\ actor_blueprint actor = vehicle_bp) \/
        (exists mesh_path,
            actor_mesh actor
            = Some (mesh_path, SpawnCarparkStatic.prop_mass self) /\
            get_vehicle_mesh_path
              (match vehicle_bp_id with
               | None => bp_id vehicle_bp
               | Some given => given
               end) = Some mesh_path /\
            SpawnCarparkStatic.use_static_props self = true /\
            SpawnCarparkStatic.static_prop_bp self
            = Some (actor_blueprint actor)))) /\
    (result = None ->
     spawn_completes sim (run_attempts r' - 1) vehicle_bp transform = false) /\
    ((forall k bp tr, spawn_completes sim k bp tr = true) ->
     result <> None).
Proof.
  unfold spawn_parked_vehicle.
  set (id := match vehicle_bp_id with
             | None => bp_id vehicle_bp
             | Some given => given
             end).
  assert (Hblue : forall r0,
    exists result r',
      try_spawn_blueprint sim vehicle_bp transform r0 = (Ok result, r') /\
      run_rng r' = run_rng r0 /\ run_vehicles r' = run_vehicles r0 /\
      run_attempts r' = S (run_attempts r0) /\
      (forall actor, result = Some actor ->
         actor = mkActor (run_attempts r0) vehicle_bp transform None) /\
      (result = None ->
       spawn_completes sim (run_attempts r0) vehicle_bp transform = false) /\
      ((forall k bp tr, spawn_completes sim k bp tr = true) ->
       result <> None)).
  { intros r0. unfold try_spawn_blueprint.
    destruct (spawn_completes sim (run_attempts r0) vehicle_bp transform)
      eqn:Hdone; eexists _, _; (split; [reflexivity |]); cbn;
      repeat split; try congruence;
      try (intros Hall; now rewrite Hall in Hdone). }
  assert (Hfall : forall r0,
    (run_attempts r <= run_attempts r0 <= run_attempts r + 1)%nat ->
    run_rng r0 = run_rng r -> run_vehicles r0 = run_vehicles r ->
    exists result r',
      try_spawn_blueprint sim vehicle_bp transform r0 = (Ok result, r') /\
      run_rng r' = run_rng r /\ run_vehicles r' = run_vehicles r /\
      (run_attempts r < run_attempts r' <= run_attempts r + 2)%nat /\
      (forall actor, result = Some actor ->
         actor_transform actor = transform /\
         (run_attempts r <= actor_id actor < run_attempts r')%nat /\
         ((actor_mesh actor = None /\ actor_blueprint actor = vehicle_bp) \/
          (exists mesh_path,
              actor_mesh actor
              = Some (mesh_path, SpawnCarparkStatic.prop_mass self) /\
              get_vehicle_mesh_path id = Some mesh_path /\
              SpawnCarparkStatic.use_static_props self = true /\
              SpawnCarparkStatic.static_prop_bp self
              = Some (actor_blueprint actor)))) /\
      (result = None ->
       spawn_completes sim (run_attempts r' - 1) vehicle_bp transform
       = false) /\
      ((forall k bp tr, spawn_completes sim k bp tr = true) ->
       result <> None)).
  { intros r0 Hatt Hrng Hveh.
    destruct (Hblue r0) as (res & r' & Hrun & Hrng' & Hveh' & Hatt' & Hact
                            & Hnone & Hall).
    exists res, r'. split; [exact Hrun |].
    split; [congruence |]. split; [congruence |]. split; [lia |].
    split; [| split; [| exact Hall]].
    - intros actor Hres. rewrite (Hact actor Hres). cbn.
      split; [reflexivity |]. split; [lia |]. left. now split.
    - intros Hres. rewrite Hatt'.
      replace (S (run_attempts r0) - 1)%nat with (run_attempts r0) by lia.
      now apply Hnone. }
  unfold bindN at 1.
  destruct (SpawnCarparkStatic.use_static_props self) eqn:Huse;
    [| apply Hfall; (lia || reflexivity)].
  destruct (SpawnCarparkStatic.static_prop_bp self) as [prop_bp |] eqn:Hbp;
    [| apply Hfall; (lia || reflexivity)].
  destruct (get_vehicle_mesh_path id) as [[| c rest] |] eqn:Hmesh;
    [apply Hfall; (lia || reflexivity) | | apply Hfall; (lia || reflexivity)].
  unfold try_spawn_prop.
  destruct (prop_completes sim (run_attempts r) (String c rest)
                           (SpawnCarparkStatic.prop_mass self) transform).
  - eexists _, _. split; [reflexivity |]. cbn.
    split; [reflexivity |]. split; [reflexivity |]. split; [lia |].
    split; [| split; [discriminate | discriminate]].
    intros actor [= <-]. cbn. split; [reflexivity |]. split; [lia |].
    right. exists (String c rest). now repeat split.
  - apply Hfall; cbn; (lia || reflexivity).
Qed.
End Parked.

Lemma find_blueprint_found (pool : list ActorBlueprint) (id : string) :
  (exists bp, In bp pool /\ bp_id bp = id) ->
  exists bp, find_blueprint pool id = Some bp /\ In bp pool /\ bp_id bp = id.
Proof.
  induction pool as [| b pool IH]; intros (bp & Hin & Hid); [destruct Hin |].
  cbn [find_blueprint]. destruct (String.eqb_spec (bp_id b) id) as [Hb | Hb].
  - exists b. split; [reflexivity |]. split; [now left | exact Hb].
  - destruct Hin as [-> | Hin]; [contradiction |].
    destruct IH as (bp' & Hfind & Hin' & Hid'); [now exists bp |].
    exists bp'. split; [exact Hfind |]. split; [now right | exact Hid'].
Qed.

Lemma transform_eta (t : Transform) :
  mkTransform (mkLocation (loc_x (location t)) (loc_y (location t))
                          (loc_z (location t)))
              (mkRotation (pitch (rotation t)) (yaw (rotation t))
                          (roll (rotation t)))
  = t.
Proof. now destruct t as [[x y z] [p w o]]. Qed.

Section Loops.
Variable rs : RandomSource.
Variable sim : Simulator.
Variable self : SpawnCarparkStatic.CarparkVehicleSpawner.
Variable pool : list ActorBlueprint.

(** The loop over the generated transforms: one draw per transform, one
    entry of spawn data per vehicle, recording its transform. *)
Lemma record_loop_returns (parking_line_index : option nat)
      (spawn_transforms : list (Transform * string)) :
  pool <> [] ->
  forall spawned_vehicles spawn_data_list r,
  exists vehicles spawn_data r',
    record_loop rs sim self pool parking_line_index spawn_transforms
                spawned_vehicles spawn_data_list r
    = (Ok ((spawned_vehicles ++ vehicles)%list,
           (spawn_data_list ++ spawn_data)%list), r') /\
    run_rng r' = (run_rng r + length spawn_transforms)%nat /\
    run_vehicles r' = run_vehicles r /\
    (length vehicles <= length spawn_transforms)%nat /\
    Forall2 (fun v d =>
               recorded_transform d = Some (actor_transform v) /\
               (exists bp, In bp pool /\ si_vehicle_type d = Some (bp_id bp)) /\
               si_line_index d = parking_line_index /\
               exists side, si_side d = Some side /\
                            In (actor_transform v, side) spawn_transforms)
            vehicles spawn_data /\
    ((forall k bp tr, spawn_completes sim k bp tr = true) ->
     map actor_transform vehicles = map fst spawn_transforms).
Proof.
  intros Hpool.
  induction spawn_transforms as [| [transform side] rest IH];
    intros vs0 ds0 r.
  - exists [], [], r. cbn [record_loop retN length map].
    rewrite !app_nil_r, Nat.add_0_r. repeat split; auto; try constructor.
  - cbn [record_loop].
    unfold bindN at 1. unfold choice_of at 1.
    set (bp := nth _ pool _).
    assert (Hin : In bp pool).
    { apply nth_In, rs_randbelow_range.
      destruct pool; [contradiction | cbn; lia]. }
    set (r1 := mkRun (S (run_rng r)) _ _ _).
    destruct (spawn_parked_vehicle_returns sim self bp transform None r1)
      as (res & r2 & Hspawn & Hrng2 & Hveh2 & _ & Hact & _ & Hyes).
    unfold bindN at 1. rewrite Hspawn.
    destruct res as [actor |].
    + unfold bindN at 1. unfold print_line at 1.
      match goal with
      | |- context [record_loop _ _ _ _ _ _ ?a ?d ?r3] =>
          destruct (IH a d r3)
            as (vs & ds & r' & Hrun & Hrng & Hveh & Hlen & Hall & Hdone)
      end.
      cbn [run_rng run_vehicles] in Hrng, Hveh.
      destruct (Hact actor eq_refl) as (Htr & _).
      eexists (actor :: vs), (_ :: ds), r'.
      rewrite Hrun, <- !app_assoc. cbn [app length map fst].
      split; [reflexivity |].
      split; [rewrite Hrng, Hrng2; subst r1; cbn; lia |].
      split; [now rewrite Hveh, Hveh2 |]. split; [lia |].
      split; [| intros Hc; now rewrite Htr, (Hdone Hc)].
      constructor.
      * unfold recorded_transform. cbn.
        split; [now rewrite transform_eta, Htr |].
        split; [now exists bp |]. split; [reflexivity |].
        exists side. split; [reflexivity |]. left. now rewrite Htr.
      * eapply Forall2_impl; [| exact Hall].
        intros v d (H1 & H2 & H3 & side' & H4 & H5).
        split; [exact H1 |]. split; [exact H2 |]. split; [exact H3 |].
        exists side'. split; [exact H4 | now right].
    + destruct (IH vs0 ds0 r2)
        as (vs & ds & r' & Hrun & Hrng & Hveh & Hlen & Hall & Hdone).
      exists vs, ds, r'. rewrite Hrun. cbn [length map fst].
      split; [reflexivity |].
      split; [rewrite Hrng, Hrng2; subst r1; cbn; lia |].
      split; [now rewrite Hveh, Hveh2 |]. split; [lia |].
      split; [| intros Hc; now elim (Hyes Hc)].
      eapply Forall2_impl; [| exact Hall].
      intros v d (H1 & H2 & H3 & side' & H4 & H5).
      split; [exact H1 |]. split; [exact H2 |]. split; [exact H3 |].
      exists side'. split; [exact H4 | now right].
Qed.

(** The loop over the loaded spawns: no draw; every vehicle stands where
    its entry says, and the entries kept are entries loaded. *)
Lemma replay_loop_returns (loaded_spawns : list SpawnInfo) :
  forall spawned_vehicles spawn_data_list r,
  exists vehicles spawn_data r',
    replay_loop sim self pool loaded_spawns spawned_vehicles
                spawn_data_list r
    = (Ok ((spawned_vehicles ++ vehicles)%list,
           (spawn_data_list ++ spawn_data)%list), r') /\
    run_rng r' = run_rng r /\
    run_vehicles r' = run_vehicles r /\
    (length spawn_data <= length loaded_spawns)%nat /\
    Forall2 (fun v d =>
               In d loaded_spawns /\
               recorded_transform d = Some (actor_transform v))
            vehicles spawn_data /\
    ((forall k bp tr, spawn_completes sim k bp tr = true) ->
     Forall (replayable pool) loaded_spawns ->
     spawn_data = loaded_spawns).
Proof.
  induction loaded_spawns as [| d rest IH]; intros vs0 ds0 r.
  - exists [], [], r. cbn [replay_loop retN length].
    rewrite !app_nil_r. repeat split; auto; try constructor.
  - cbn [replay_loop].
    assert (Hskip : forall r1,
      run_rng r1 = run_rng r -> run_vehicles r1 = run_vehicles r ->
      ~ replayable pool d ->
      exists vehicles spawn_data r',
        replay_loop sim self pool rest vs0 ds0 r1
        = (Ok ((vs0 ++ vehicles)%list, (ds0 ++ spawn_data)%list), r') /\
        run_rng r' = run_rng r /\
        run_vehicles r' = run_vehicles r /\
        (length spawn_data <= length (d :: rest))%nat /\
        Forall2 (fun v d0 =>
                   In d0 (d :: rest) /\
                   recorded_transform d0 = Some (actor_transform v))
                vehicles spawn_data /\
        ((forall k bp tr, spawn_completes sim k bp tr = true) ->
         Forall (replayable pool) (d :: rest) ->
         spawn_data = d :: rest)).
    { intros r1 Hrng1 Hveh1 Hbad.
      destruct (IH vs0 ds0 r1)
        as (vs & ds & r' & Hrun & Hrng & Hveh & Hlen & Hall & _).
      exists vs, ds, r'. split; [exact Hrun |].
      split; [congruence |]. split; [congruence |].
      split; [cbn [length]; lia |].
      split.
      - eapply Forall2_impl; [| exact Hall].
        intros v d0 (H1 & H2). split; [now right | exact H2].
      - intros _ Hrep. inversion Hrep; subst. contradiction. }
    destruct (si_location d) as [loc |] eqn:Hloc.
    2: { unfold bindN at 1. unfold print_line at 1.
         apply Hskip; [reflexivity | reflexivity |].
         intros ((tr & Htr) & _). unfold recorded_transform in Htr.
         rewrite Hloc in Htr. discriminate. }
    destruct (si_rotation d) as [rot |] eqn:Hrot.
    2: { unfold bindN at 1. unfold print_line at 1.
         apply Hskip; [reflexivity | reflexivity |].
         intros ((tr & Htr) & _). unfold recorded_transform in Htr.
         rewrite Hloc, Hrot in Htr. discriminate. }
    fold (recorded_type d).
    destruct (find_blueprint pool (recorded_type d)) as [bp |] eqn:Hfind.
    2: { unfold bindN at 1. unfold print_line at 1.
         apply Hskip; [reflexivity | reflexivity |].
         intros (_ & Hbp). apply find_blueprint_found in Hbp
           as (bp & Hbp & _). congruence. }
    destruct (spawn_parked_vehicle_returns sim self bp (mkTransform loc rot)
                (Some (recorded_type d)) r)
      as (res & r2 & Hspawn & Hrng2 & Hveh2 & _ & Hact & _ & Hyes).
    unfold bindN at 1. rewrite Hspawn.
    destruct res as [actor |].
    + match goal with
      | |- context [replay_loop _ _ _ _ ?a ?ds1 ?r3] =>
          destruct (IH a ds1 r3)
            as (vs & ds & r' & Hrun & Hrng & Hveh & Hlen & Hall & Hdone)
      end.
      destruct (Hact actor eq_refl) as (Htr & _).
      exists (actor :: vs), (d :: ds), r'.
      rewrite Hrun, <- !app_assoc. cbn [app length].
      split; [reflexivity |]. split; [congruence |]. split; [congruence |].
      split; [lia |]. split.
      * constructor.
        -- split; [now left |]. unfold recorded_transform.
           now rewrite Hloc, Hrot, Htr.
        -- eapply Forall2_impl; [| exact Hall].
           intros v d0 (H1 & H2). split; [now right | exact H2].
      * intros Hc Hrep. inversion Hrep; subst. f_equal. now apply Hdone.
    + destruct (IH vs0 ds0 r2)
        as (vs & ds & r' & Hrun & Hrng & Hveh & Hlen & Hall & _).
      exists vs, ds, r'. split; [exact Hrun |].
      split; [congruence |]. split; [congruence |].
      split; [cbn [length]; lia |]. split.
      * eapply Forall2_impl; [| exact Hall].
        intros v d0 (H1 & H2). split; [now right | exact H2].
      * intros Hc. now elim (Hyes Hc).
Qed.
End Loops.

Lemma static_filter_loop_same (keywords : list string)
      (vehicle_blueprints : list ActorBlueprint) :
  forall filtered,
    filter_loop keywords vehicle_blueprints filtered
    = SpawnCarpark.filter_loop keywords vehicle_blueprints filtered.
Proof.
  induction vehicle_blueprints as [| bp rest IH]; intros acc; [reflexivity |].
  cbn [filter_loop SpawnCarpark.filter_loop].
  destruct (negb _); apply IH.
Qed.

Lemma static_filter_same (vehicle_blueprints : list ActorBlueprint)
      (keywords : option (list string)) :
  filter_vehicles_for_line vehicle_blueprints keywords
  = SpawnCarpark.filter_vehicles_for_line vehicle_blueprints keywords.
Proof. apply static_filter_loop_same. Qed.

Section StaticLine.
Variable rs : RandomSource.
Variable sim : Simulator.
Variable self : SpawnCarparkStatic.CarparkVehicleSpawner.
Variable vehicle_blueprints : list ActorBlueprint.

Lemma static_line_unfold (l : ParkingLine)
      (loaded_spawns : option (list SpawnInfo))
      (parking_line_index : option nat) :
  spawn_vehicles_along_line rs sim self l vehicle_blueprints loaded_spawns
                            parking_line_index
  = match line_pool vehicle_blueprints l with
    | [] => bindN (print_line NoVehiclesLine) (fun _ => retN ([], []))
    | _ :: _ =>
        match loaded_spawns with
        | Some (spawn_info :: rest) =>
            replay_loop sim self (line_pool vehicle_blueprints l)
                        (spawn_info :: rest) [] []
        | _ =>
            bindN (call (SpawnCarparkStatic.generate_spawn_positions
                           rs self (line_start l) (line_end l) (line_side l)
                           (line_count l) (line_spacing l)))
                  (fun spawn_transforms =>
                     record_loop rs sim self (line_pool vehicle_blueprints l)
                                 parking_line_index spawn_transforms [] [])
        end
    end.
Proof.
  unfold line_pool. rewrite <- static_filter_same.
  destruct l; reflexivity.
Qed.

(** A row replayed from loaded spawns. *)
Lemma static_line_replays (l : ParkingLine) (loaded_spawns : list SpawnInfo)
      (parking_line_index : option nat) (r : Run) :
  line_pool vehicle_blueprints l <> [] ->
  loaded_spawns <> [] ->
  exists vehicles spawn_data r',
    spawn_vehicles_along_line rs sim self l vehicle_blueprints
                              (Some loaded_spawns) parking_line_index r
    = (Ok (vehicles, spawn_data), r') /\
    run_rng r' = run_rng r /\
    run_vehicles r' = run_vehicles r /\
    (length spawn_data <= length loaded_spawns)%nat /\
    Forall2 (fun v d =>
               In d loaded_spawns /\
               recorded_transform d = Some (actor_transform v))
            vehicles spawn_data /\
    ((forall k bp tr, spawn_completes sim k bp tr = true) ->
     Forall (replayable (line_pool vehicle_blueprints l)) loaded_spawns ->
     spawn_data = loaded_spawns).
Proof.
  intros Hpool Hloaded. rewrite static_line_unfold.
  destruct (line_pool vehicle_blueprints l) as [| bp pool] eqn:E;
    [contradiction |].
  destruct loaded_spawns as [| d ds]; [contradiction |].
  apply (replay_loop_returns sim self (bp :: pool) (d :: ds) [] [] r).
Qed.

(** A row generated afresh. *)
Lemma static_line_records (l : ParkingLine)
      (loaded_spawns : option (list SpawnInfo))
      (parking_line_index : option nat) (r : Run) :
  line_pool vehicle_blueprints l <> [] ->
  loaded_spawns = None \/ loaded_spawns = Some [] ->
  forall items st,
    SpawnCarparkStatic.generate_spawn_positions
      rs self (line_start l) (line_end l) (line_side l) (line_count l)
      (line_spacing l) (packer_state r) = Ok (items, st) ->
    exists vehicles spawn_data r',
      spawn_vehicles_along_line rs sim self l vehicle_blueprints
                                loaded_spawns parking_line_index r
      = (Ok (vehicles, spawn_data), r') /\
      run_vehicles r' = run_vehicles r /\
      (length vehicles <= length items)%nat /\
      Forall2 (fun v d =>
                 recorded_transform d = Some (actor_transform v) /\
                 (exists bp, In bp (line_pool vehicle_blueprints l) /\
                             si_vehicle_type d = Some (bp_id bp)) /\
                 si_line_index d = parking_line_index /\
                 exists side, si_side d = Some side /\
                              In (actor_transform v, side) items)
              vehicles spawn_data /\
      ((forall k bp tr, spawn_completes sim k bp tr = true) ->
       map actor_transform vehicles = map fst items).
Proof.
  intros Hpool Hloaded items st Hgen. rewrite static_line_unfold.
  destruct (line_pool vehicle_blueprints l) as [| bp pool] eqn:E;
    [contradiction |].
  destruct (record_loop_returns rs sim self (bp :: pool) parking_line_index
              items Hpool [] []
              (mkRun (rng_calls st) (run_attempts r)
                     (run_console r ++ map PackerLine (stdout st))
                     (run_vehicles r)))
    as (vs & ds & r' & Hrun & _ & Hveh & Hlen & Hall & Hdone).
  exists vs, ds, r'.
  split; [| now repeat split].
  destruct Hloaded as [-> | ->]; unfold bindN, call;
    fold (packer_state r); rewrite Hgen; exact Hrun.
Qed.
End StaticLine.

Lemma static_generate_same (rs : RandomSource)
      (self : SpawnCarparkStatic.CarparkVehicleSpawner)
      (start_loc end_loc : Location) (side_type : string)
      (num_vehicles : Z) (min_spacing : R) (s : St) :
  SpawnCarparkStatic.generate_spawn_positions rs self start_loc end_loc
    side_type num_vehicles min_spacing s
  = SpawnCarpark.generate_spawn_positions rs (plain_of self) start_loc
      end_loc side_type num_vehicles min_spacing s.
Proof. now apply generate_spawn_positions_same. Qed.


Section StaticTheorems.
Variable rs : RandomSource.
Variable sim : Simulator.
Variable self : SpawnCarparkStatic.CarparkVehicleSpawner.
Variable vehicle_blueprints : list ActorBlueprint.

(** X22.  [spawn_parked_vehicle] never raises and makes one or two spawn
    attempts.  The actor it returns stands at the transform asked for; it
    is either a vehicle made from the given blueprint, or a static prop
    with the mesh of the table for the vehicle id and the mass
    [prop_mass], which requires static props to be in use.  It returns
    [None] only when the attempt with the vehicle blueprint failed.  When
    static props are not in use it is a single attempt with the vehicle
    blueprint. *)
Theorem parked_vehicle_attempts
        (vehicle_bp : ActorBlueprint) (transform : Transform)
        (vehicle_bp_id : option string) (r : Run) :
  (exists result r',
     spawn_parked_vehicle sim self vehicle_bp transform vehicle_bp_id r
     = (Ok result, r') /\
     run_rng r' = run_rng r /\ run_vehicles r' = run_vehicles r /\
     (run_attempts r < run_attempts r' <= run_attempts r + 2)%nat /\
     (forall actor, result = Some actor ->
        actor_transform actor = transform /\
        (run_attempts r <= actor_id actor < run_attempts r')%nat /\
        ((actor_mesh actor = None /\ actor_blueprint actor = vehicle_bp) \/
         (exists mesh_path,
             actor_mesh actor
             = Some (mesh_path, SpawnCarparkStatic.prop_mass self) /\
             get_vehicle_mesh_path
               (match vehicle_bp_id with
                | None => bp_id vehicle_bp
                | Some given => given
                end) = Some mesh_path /\
             SpawnCarparkStatic.use_static_props self = true /\
             SpawnCarparkStatic.static_prop_bp self
             = Some (actor_blueprint actor)))) /\
     (result = None ->
      spawn_completes sim (run_attempts r' - 1) vehicle_bp transform
      = false) /\
     ((forall k bp tr, spawn_completes sim k bp tr = true) ->
      result <> None)) /\
  (SpawnCarparkStatic.use_static_props self = false \/
   SpawnCarparkStatic.static_prop_bp self = None ->
   spawn_parked_vehicle sim self vehicle_bp transform vehicle_bp_id r
   = try_spawn_blueprint sim vehicle_bp transform r).
Proof.
  split.
  - apply spawn_parked_vehicle_returns.
  - apply spawn_parked_vehicle_plain.
Qed.

(** X23.  A row generated afresh (no loaded spawns, or an empty list of
    them) with candidates, a valid side and a non-zero spacing returns its
    vehicles together with one entry of spawn data per vehicle, in the same
    order.  The entry records the transform of its vehicle, the id of a
    blueprint of the row's pool, the side of the placement and the index of
    the row.  When every vehicle spawn completes there is one vehicle per
    generated transform. *)
Theorem spawn_data_mirrors_vehicles
        (l : ParkingLine) (loaded_spawns : option (list SpawnInfo))
        (parking_line_index : option nat) (r : Run) :
  line_pool vehicle_blueprints l <> [] ->
  valid_side (line_side l) -> line_spacing l <> 0 ->
  loaded_spawns = None \/ loaded_spawns = Some [] ->
  exists items st vehicles spawn_data r',
    SpawnCarparkStatic.generate_spawn_positions
      rs self (line_start l) (line_end l) (line_side l) (line_count l)
      (line_spacing l) (packer_state r) = Ok (items, st) /\
    spawn_vehicles_along_line rs sim self l vehicle_blueprints
                              loaded_spawns parking_line_index r
    = (Ok (vehicles, spawn_data), r') /\
    run_vehicles r' = run_vehicles r /\
    (length vehicles <= length items)%nat /\
    Forall2 (fun v d =>
               recorded_transform d = Some (actor_transform v) /\
               (exists bp, In bp (line_pool vehicle_blueprints l) /\
                           si_vehicle_type d = Some (bp_id bp)) /\
               si_line_index d = parking_line_index /\
               exists side, si_side d = Some side /\
                            In (actor_transform v, side) items)
            vehicles spawn_data /\
    ((forall k bp tr, spawn_completes sim k bp tr = true) ->
     map actor_transform vehicles = map fst items).
Proof.
  intros Hpool Hv HS Hloaded.
  destruct (generate_returns rs (plain_of self) (line_start l) (line_end l)
              (line_side l) (line_count l) (line_spacing l) (packer_state r)
              Hv HS)
    as (perp & dir & ps & s1 & items & st & _ & _ & Hrun & _).
  rewrite <- static_generate_same in Hrun.
  destruct (static_line_records rs sim self vehicle_blueprints l
              loaded_spawns parking_line_index r Hpool Hloaded items st Hrun)
    as (vs & ds & r' & H).
  now exists items, st, vs, ds, r'.
Qed.

(** X24.  A row replayed from a non-empty list of loaded spawns returns
    without drawing from the random generator, and without looking at the
    side, the count or the spacing of the row (an invalid side or a zero
    spacing raises nothing here).  Every vehicle stands at the transform
    its entry records; the spawn data returned are entries of the list, in
    order.  When every vehicle spawn completes and every entry is
    replayable from the row's pool, the spawn data returned are the list
    itself. *)
Theorem replay_of_loaded_spawns
        (l : ParkingLine) (loaded_spawns : list SpawnInfo)
        (parking_line_index : option nat) (r : Run) :
  line_pool vehicle_blueprints l <> [] ->
  loaded_spawns <> [] ->
  exists vehicles spawn_data r',
    spawn_vehicles_along_line rs sim self l vehicle_blueprints
                              (Some loaded_spawns) parking_line_index r
    = (Ok (vehicles, spawn_data), r') /\
    run_rng r' = run_rng r /\
    run_vehicles r' = run_vehicles r /\
    (length spawn_data <= length loaded_spawns)%nat /\
    Forall2 (fun v d =>
               In d loaded_spawns /\
               recorded_transform d = Some (actor_transform v))
            vehicles spawn_data /\
    ((forall k bp tr, spawn_completes sim k bp tr = true) ->
     Forall (replayable (line_pool vehicle_blueprints l)) loaded_spawns ->
     spawn_data = loaded_spawns).
Proof. apply static_line_replays. Qed.


(** The loop of the first variant and the recording loop of this one, run
    side by side without static props. *)
Lemma loops_agree (pool : list ActorBlueprint) (index : option nat)
      (items : list (Transform * string)) :
  SpawnCarparkStatic.use_static_props self = false \/
  SpawnCarparkStatic.static_prop_bp self = None ->
  forall (vs : list Actor) (ds : list SpawnInfo) (r r' : Run),
    same_but_console r r' ->
    same_vehicles
      (fst (SpawnCarparkBatch.spawn_loop rs sim pool items vs r))
      (fst (record_loop rs sim self pool index items vs ds r')) /\
    same_but_console
      (snd (SpawnCarparkBatch.spawn_loop rs sim pool items vs r))
      (snd (record_loop rs sim self pool index items vs ds r')).
Proof.
  intros Hplain.
  induction items as [| [transform side] items IH];
    intros vs ds r r' (Hrng & Hatt & Hveh).
  - cbn. now repeat split.
  - cbn [SpawnCarparkBatch.spawn_loop record_loop].
    unfold bindN, SpawnCarparkBatch.choice_of, choice_of.
    rewrite spawn_parked_vehicle_plain by exact Hplain.
    unfold SpawnCarparkBatch.try_spawn, try_spawn_blueprint, print_line.
    cbn [run_rng run_attempts run_console run_vehicles].
    rewrite <- Hrng, <- Hatt.
    destruct (spawn_completes sim (run_attempts r) _ transform);
      apply IH; now repeat split.
Qed.

(** X26.  Without static props (the flag off, or no prop blueprint in the
    library) the static variant of [spawn_vehicles_along_line], called
    without loaded spawns, does what the first variant does on the same
    row, pool and run state: the same exception, or the same vehicles
    from the same draws and spawn attempts.  Only the console differs. *)
Theorem plain_static_line_agrees
        (l : ParkingLine) (loaded_spawns : option (list SpawnInfo))
        (parking_line_index : option nat) (r : Run) :
  SpawnCarparkStatic.use_static_props self = false \/
  SpawnCarparkStatic.static_prop_bp self = None ->
  loaded_spawns = None \/ loaded_spawns = Some [] ->
  same_vehicles
    (fst (SpawnCarparkBatch.spawn_vehicles_along_line
            rs sim (plain_of self) l vehicle_blueprints r))
    (fst (spawn_vehicles_along_line rs sim self l vehicle_blueprints
                                    loaded_spawns parking_line_index r)) /\
  same_but_console
    (snd (SpawnCarparkBatch.spawn_vehicles_along_line
            rs sim (plain_of self) l vehicle_blueprints r))
    (snd (spawn_vehicles_along_line rs sim self l vehicle_blueprints
                                    loaded_spawns parking_line_index r)).
Proof.
  intros Hplain Hloaded.
  rewrite spawn_vehicles_along_line_unfold, static_line_unfold.
  destruct (line_pool vehicle_blueprints l) as [| bp pool].
  - cbn. now repeat split.
  - replace (match loaded_spawns with
             | Some (spawn_info :: rest) =>
                 replay_loop sim self (bp :: pool) (spawn_info :: rest) [] []
             | _ =>
                 bindN (call (SpawnCarparkStatic.generate_spawn_positions
                                rs self (line_start l) (line_end l)
                                (line_side l) (line_count l)
                                (line_spacing l)))
                       (fun spawn_transforms =>
                          record_loop rs sim self (bp :: pool)
                                      parking_line_index spawn_transforms
                                      [] [])
             end)
      with (bindN (call (SpawnCarparkStatic.generate_spawn_positions
                           rs self (line_start l) (line_end l)
                           (line_side l) (line_count l) (line_spacing l)))
                  (fun spawn_transforms =>
                     record_loop rs sim self (bp :: pool)
                                 parking_line_index spawn_transforms [] []))
      by (destruct Hloaded as [-> | ->]; reflexivity).
    unfold bindN, call. rewrite static_generate_same.
    destruct (SpawnCarpark.generate_spawn_positions _ _ _ _ _ _ _ _)
      as [[items st] | e |].
    + apply loops_agree; [exact Hplain | now repeat split].
    + cbn. now repeat split.
    + cbn. now repeat split.
Qed.
End StaticTheorems.

Lemma static_pool_east :
  line_pool [truck_a; van_b; car_c] east_line <> [].
Proof. rewrite east_line_pool. discriminate. Qed.

Lemma line_spacing_east : line_spacing east_line <> 0.
Proof. cbn [line_spacing east_line]. lra. Qed.

Lemma spawn_data_mirrors_vehicles_witness :
  exists items st vehicles spawn_data r',
    SpawnCarparkStatic.generate_spawn_positions
      zero_source (prop_static_spawner flat_world) (line_start east_line)
      (line_end east_line) (line_side east_line) (line_count east_line)
      (line_spacing east_line) (packer_state run0) = Ok (items, st) /\
    spawn_vehicles_along_line zero_source ready_simulator
                              (prop_static_spawner flat_world) east_line
                              [truck_a; van_b; car_c] None (Some 0%nat) run0
    = (Ok (vehicles, spawn_data), r') /\
    run_vehicles r' = run_vehicles run0 /\
    (length vehicles <= length items)%nat /\
    Forall2 (fun v d =>
               recorded_transform d = Some (actor_transform v) /\
               (exists bp, In bp (line_pool [truck_a; van_b; car_c] east_line)
                           /\ si_vehicle_type d = Some (bp_id bp)) /\
               si_line_index d = Some 0%nat /\
               exists side, si_side d = Some side /\
                            In (actor_transform v, side) items)
            vehicles spawn_data /\
    ((forall k bp tr, spawn_completes ready_simulator k bp tr = true) ->
     map actor_transform vehicles = map fst items).
Proof.
  apply (spawn_data_mirrors_vehicles zero_source ready_simulator
           (prop_static_spawner flat_world) [truck_a; van_b; car_c]
           east_line None (Some 0%nat) run0).
  - exact static_pool_east.
  - exact valid_left.
  - exact line_spacing_east.
  - left. reflexivity.
Defined.

Lemma replay_of_loaded_spawns_witness :
  exists vehicles spawn_data r',
    spawn_vehicles_along_line zero_source ready_simulator
                              (prop_static_spawner flat_world)
                              (Line5 origin east10 "sideways" 3 0)
                              [car_c] (Some [saved_car]) None run0
    = (Ok (vehicles, spawn_data), r') /\
    run_rng r' = run_rng run0 /\
    run_vehicles r' = run_vehicles run0 /\
    (length spawn_data <= length [saved_car])%nat /\
    Forall2 (fun v d =>
               In d [saved_car] /\
               recorded_transform d = Some (actor_transform v))
            vehicles spawn_data /\
    ((forall k bp tr, spawn_completes ready_simulator k bp tr = true) ->
     Forall (replayable
               (line_pool [car_c] (Line5 origin east10 "sideways" 3 0)))
            [saved_car] ->
     spawn_data = [saved_car]).
Proof.
  apply (replay_of_loaded_spawns zero_source ready_simulator
           (prop_static_spawner flat_world) [car_c]
           (Line5 origin east10 "sideways" 3 0) [saved_car] None run0).
  - discriminate.
  - discriminate.
Defined.




Lemma plain_static_line_agrees_witness :
  same_vehicles
    (fst (SpawnCarparkBatch.spawn_vehicles_along_line
            zero_source ready_simulator
            (plain_of (plain_static_spawner flat_world)) east_line
            [truck_a; van_b; car_c] run0))
    (fst (spawn_vehicles_along_line
            zero_source ready_simulator (plain_static_spawner flat_world)
            east_line [truck_a; van_b; car_c] None (Some 0%nat) run0)) /\
  same_but_console
    (snd (SpawnCarparkBatch.spawn_vehicles_along_line
            zero_source ready_simulator
            (plain_of (plain_static_spawner flat_world)) east_line
            [truck_a; van_b; car_c] run0))
    (snd (spawn_vehicles_along_line
            zero_source ready_simulator (plain_static_spawner flat_world)
            east_line [truck_a; van_b; car_c] None (Some 0%nat) run0)).
Proof.
  apply (plain_static_line_agrees zero_source ready_simulator
           (plain_static_spawner flat_world) [truck_a; van_b; car_c]
           east_line None (Some 0%nat) run0).
  - left. reflexivity.
  - left. reflexivity.
Defined.

(** ** The mesh table *)

Lemma dict_get_none (items : list (string * string)) (key : string) :
  dict_get items key = None <-> ~ In key (map fst items).
Proof.
  induction items as [| [k v] items IH]; cbn [dict_get map fst In].
  - split; [now intros _ [] | reflexivity].
  - destruct (dict_get items key) as [later |].
    + split; [discriminate |]. intros H. exfalso.
      assert (Hin : ~ In key (map fst items)) by tauto.
      apply IH in Hin. discriminate.
    + destruct (String.eqb_spec k key) as [-> | Hne].
      * split; [discriminate | tauto].
      * split; [| reflexivity]. intros _ [H | H]; [contradiction |].
        now apply (proj1 IH eq_refl).
Qed.

Lemma dict_get_last (items : list (string * string)) (key value : string) :
  dict_get items key = Some value ->
  exists before after,
    items = (before ++ (key, value) :: after)%list /\
    ~ In key (map fst after).
Proof.
  induction items as [| [k v] items IH]; cbn [dict_get]; [discriminate |].
  destruct (dict_get items key) as [later |] eqn:Hrest.
  - intros [= <-]. destruct (IH eq_refl) as (before & after & -> & Hlast).
    now exists ((k, v) :: before), after.
  - destruct (String.eqb_spec k key) as [-> | Hne]; [| discriminate].
    intros [= <-]. exists [], items. split; [reflexivity |].
    now apply dict_get_none.
Qed.

Lemma mesh_paths_not_empty :
  Forall (fun item => snd item <> EmptyString) VEHICLE_MESH_MAPPING.
Proof. repeat constructor; discriminate. Qed.

(** X27.  [get_vehicle_mesh_path] answers from its table only: an id that
    is not a key of the table gives [None], whatever its parts.  A path it
    returns is the value of the last item of the table with that id (the
    table repeats ids, and the last one wins), and it is never empty, so
    the test [if mesh_path:] of [spawn_parked_vehicle] rejects nothing
    that was found. *)
Theorem mesh_path_from_table (vehicle_bp_id : string) :
  (~ In vehicle_bp_id (map fst VEHICLE_MESH_MAPPING) ->
   get_vehicle_mesh_path vehicle_bp_id = None) /\
  (forall mesh_path,
      get_vehicle_mesh_path vehicle_bp_id = Some mesh_path ->
      mesh_path <> EmptyString /\
      exists before after,
        VEHICLE_MESH_MAPPING
        = (before ++ (vehicle_bp_id, mesh_path) :: after)%list /\
        ~ In vehicle_bp_id (map fst after)).
Proof.
  unfold get_vehicle_mesh_path. split.
  - intros Hkey. apply dict_get_none in Hkey. now rewrite Hkey.
  - intros mesh_path Hget.
    assert (Hdict : dict_get VEHICLE_MESH_MAPPING vehicle_bp_id
                    = Some mesh_path)
      by (destruct (dict_get _ _); congruence).
    apply dict_get_last in Hdict as (before & after & Htable & Hlast).
    split; [| now exists before, after].
    pose proof mesh_paths_not_empty as Hall. rewrite Htable in Hall.
    apply Forall_app in Hall as [_ Hall]. now inversion Hall.
Qed.

(** The table holds two paths for this id; the second is the one found. *)
Example charger_2020_mesh :
  get_vehicle_mesh_path "vehicle.dodge.charger_2020"
  = Some "/Game/Carla/Static/Car/4Wheeled/DodgeCharger2020/SM_Charger_parked.SM_Charger_parked".
Proof. reflexivity. Qed.
End StaticFacts.
(** * The static variant: saved spawns and the whole car park

    The grouping of a saved file by row, the spawns each row is given, and
    [spawn_carpark] with and without a load file. *)

Module CarparkFacts.
Import SpawnCarparkStaticBatch.
Local Open Scope list_scope.
Local Open Scope nat_scope.










Section StaticBatch.
Variable rs : RandomSource.
Variable sim : Simulator.
Variable self : SpawnCarparkStatic.CarparkVehicleSpawner.
Variable read_file : string -> LoadResult.
Variable vehicle_blueprints : list ActorBlueprint.









End StaticBatch.

Section StaticCarpark.
Variable rs : RandomSource.
Variable sim : Simulator.
Variable self : SpawnCarparkStatic.CarparkVehicleSpawner.
Variable read_file : string -> LoadResult.




End StaticCarpark.

(** ** Nothing reads the console *)

Lemma bindN_ext {A B} (m : N A) (k k' : A -> N B) (r : Run) :
  (forall a r1, k a r1 = k' a r1) -> bindN m k r = bindN m k' r.
Proof.
  intros H. unfold bindN. destruct (m r) as [[a | e |] r1];
    [apply H | reflexivity | reflexivity].
Qed.

Lemma blind_ret {A} (a : A) : console_blind (retN a).
Proof. intros r r' H. now split. Qed.

Lemma blind_raise {A} (e : exn) : console_blind (@raiseN A e).
Proof. intros r r' H. now split. Qed.

Lemma blind_bind {A B} (m : N A) (k : A -> N B) :
  console_blind m -> (forall a, console_blind (k a)) ->
  console_blind (bindN m k).
Proof.
  intros Hm Hk r r' H. unfold bindN.
  destruct (Hm r r' H) as [Hf Hs].
  destruct (m r) as [o r1], (m r') as [o' r1']. cbn [fst snd] in Hf, Hs.
  subst o'. destruct o as [a | e |]; [now apply Hk | now split | now split].
Qed.

Lemma blind_print (l : console_line) : console_blind (print_line l).
Proof. intros r r' (Hrng & Hatt & Hveh). cbn. now repeat split. Qed.

Lemma blind_call {A} (m : M A) : console_blind (call m).
Proof.
  intros r r' (Hrng & Hatt & Hveh). unfold call. rewrite <- Hrng.
  destruct (m (mkSt (run_rng r) [])) as [[a st] | e |]; cbn;
    now repeat split.
Qed.

Lemma blind_extend (vehicles : list Actor) :
  console_blind (extend_vehicles vehicles).
Proof.
  intros r r' (Hrng & Hatt & Hveh). cbn. rewrite Hveh. now repeat split.
Qed.

Section Blind.
Variable rs : RandomSource.
Variable sim : Simulator.
Variable self : SpawnCarparkStatic.CarparkVehicleSpawner.

Lemma blind_choice {A} (d : A) (seq : list A) :
  console_blind (choice_of rs d seq).
Proof.
  intros r r' (Hrng & Hatt & Hveh). cbn. rewrite Hrng. now repeat split.
Qed.

Lemma blind_try_spawn_prop (prop_bp : ActorBlueprint) (mesh_path : string)
      (transform : Transform) (vehicle_bp_id : string) :
  console_blind (try_spawn_prop sim self prop_bp mesh_path transform
                                vehicle_bp_id).
Proof.
  intros r r' (Hrng & Hatt & Hveh). unfold try_spawn_prop. rewrite <- Hatt.
  destruct (prop_completes _ _ _ _ _); cbn; now repeat split.
Qed.

Lemma blind_try_spawn_blueprint (vehicle_bp : ActorBlueprint)
      (transform : Transform) :
  console_blind (try_spawn_blueprint sim vehicle_bp transform).
Proof.
  intros r r' (Hrng & Hatt & Hveh). unfold try_spawn_blueprint.
  rewrite <- Hatt.
  destruct (spawn_completes _ _ _ _); cbn; now repeat split.
Qed.

Lemma blind_spawn_parked_vehicle (vehicle_bp : ActorBlueprint)
      (transform : Transform) (vehicle_bp_id : option string) :
  console_blind (spawn_parked_vehicle sim self vehicle_bp transform
                                      vehicle_bp_id).
Proof.
  unfold spawn_parked_vehicle. apply blind_bind.
  - destruct (SpawnCarparkStatic.use_static_props self);
      [| apply blind_ret].
    destruct (SpawnCarparkStatic.static_prop_bp self);
      [| apply blind_ret].
    destruct (get_vehicle_mesh_path _) as [[| c rest] |];
      [apply blind_ret | apply blind_try_spawn_prop | apply blind_ret].
  - intros [prop |]; [apply blind_ret | apply blind_try_spawn_blueprint].
Qed.

Lemma blind_replay_loop (pool : list ActorBlueprint)
      (loaded_spawns : list SpawnInfo) :
  forall (vs : list Actor) (ds : list SpawnInfo),
    console_blind (replay_loop sim self pool loaded_spawns vs ds).
Proof.
  induction loaded_spawns as [| spawn_info rest IH]; intros vs ds;
    cbn [replay_loop]; [apply blind_ret |].
  destruct (si_location spawn_info), (si_rotation spawn_info);
    try (apply blind_bind; [apply blind_print | intros _; apply IH]).
  destruct (find_blueprint pool _).
  - apply blind_bind; [apply blind_spawn_parked_vehicle |].
    intros [actor |]; apply IH.
  - apply blind_bind; [apply blind_print | intros _; apply IH].
Qed.

Lemma blind_record_loop (pool : list ActorBlueprint) (index : option nat)
      (items : list (Transform * string)) :
  forall (vs : list Actor) (ds : list SpawnInfo),
    console_blind (record_loop rs sim self pool index items vs ds).
Proof.
  induction items as [| [transform side] rest IH]; intros vs ds;
    cbn [record_loop]; [apply blind_ret |].
  apply blind_bind; [apply blind_choice |]. intros vehicle_bp.
  apply blind_bind; [apply blind_spawn_parked_vehicle |].
  intros [actor |]; [| apply IH].
  apply blind_bind; [apply blind_print | intros _; apply IH].
Qed.

Lemma blind_static_line (l : ParkingLine)
      (vehicle_blueprints : list ActorBlueprint)
      (loaded_spawns : option (list SpawnInfo)) (index : option nat) :
  console_blind (spawn_vehicles_along_line rs sim self l vehicle_blueprints
                                           loaded_spawns index).
Proof.
  rewrite StaticFacts.static_line_unfold.
  destruct (line_pool vehicle_blueprints l) as [| bp pool].
  - apply blind_bind; [apply blind_print | intros _; apply blind_ret].
  - destruct loaded_spawns as [[| spawn_info rest] |];
      try apply blind_replay_loop;
      (apply blind_bind; [apply blind_call | intros items;
                                             apply blind_record_loop]).
Qed.

Lemma blind_spawns_for_line (loaded : option Groups) (i u : nat) :
  console_blind (spawns_for_line loaded i u).
Proof.
  unfold spawns_for_line.
  destruct loaded as [[| item items] |]; try apply blind_ret.
  destruct (group_of (item :: items) (LineKey i)).
  - apply blind_bind; [apply blind_print | intros _; apply blind_ret].
  - destruct (group_of (item :: items) UnassignedKey) as [[| spawn spawns] |];
      try apply blind_ret.
    destruct (skipn u (spawn :: spawns)); [apply blind_ret |].
    apply blind_bind; [apply blind_print | intros _; apply blind_ret].
Qed.

Lemma blind_lines_loop (vehicle_blueprints : list ActorBlueprint)
      (loaded : option Groups) (count : nat)
      (parking_lines : list ParkingLine) :
  forall (i u : nat) (acc : list SpawnInfo),
    console_blind (lines_loop rs sim self vehicle_blueprints loaded count i u
                              acc parking_lines).
Proof.
  induction parking_lines as [| l rest IH]; intros i u acc;
    cbn [lines_loop]; [apply blind_ret |].
  apply blind_bind; [apply blind_print | intros _].
  apply blind_bind;
    [destruct (exclude_list_of l); [apply blind_print | apply blind_ret] |
     intros _].
  apply blind_bind; [apply blind_spawns_for_line | intros [ll u']].
  apply blind_bind; [apply blind_static_line | intros [vs ds]].
  apply blind_bind; [apply blind_extend | intros _].
  apply blind_bind; [apply blind_print | intros _]. apply IH.
Qed.

(** An empty dict is as good as none. *)
Lemma lines_loop_empty_dict (vehicle_blueprints : list ActorBlueprint)
      (count : nat) (parking_lines : list ParkingLine) :
  forall (i u : nat) (acc : list SpawnInfo) (r : Run),
    lines_loop rs sim self vehicle_blueprints (Some []) count i u acc
               parking_lines r
    = lines_loop rs sim self vehicle_blueprints None count i u acc
                 parking_lines r.
Proof.
  induction parking_lines as [| l rest IH]; intros i u acc r;
    [reflexivity |].
  cbn [lines_loop].
  apply bindN_ext; intros _ r1. apply bindN_ext; intros _ r2.
  apply bindN_ext; intros [ll u'] r3. apply bindN_ext; intros [vs ds] r4.
  apply bindN_ext; intros _ r5. apply bindN_ext; intros _ r6. apply IH.
Qed.

Lemma same_run_bind {A B} (m : N A) (k k' : A -> N B) (r : Run) :
  (forall a r1, same_run (k a r1) (k' a r1)) ->
  same_run (bindN m k r) (bindN m k' r).
Proof.
  intros H. unfold bindN. destruct (m r) as [[a | e |] r1];
    [apply H | | ]; (split; [reflexivity | now repeat split]).
Qed.

Variable read_file : string -> LoadResult.

(** A file name that gives no loaded spawns. *)
Lemma load_groups_unusable (name : string) (r : Run) :
  name = EmptyString \/ read_file name = FileNotFound \/
  read_file name = LoadError \/ read_file name = Loaded [] ->
  exists x r',
    load_groups read_file (Some name) r = (Ok x, r') /\
    same_but_console r r' /\ (x = None \/ x = Some []).
Proof.
  intros Hname. destruct name as [| c name].
  { exists None, r. now repeat split; auto. }
  destruct Hname as [Hname | Hname]; [discriminate |].
  unfold load_groups, load_spawn_data.
  destruct Hname as [-> | [-> | ->]];
    (eexists _, _; split; [reflexivity |]; split; [now repeat split |]);
    auto.
Qed.

(** The end of [spawn_carpark]: the rows, then the total. *)
Lemma blind_rest_of_carpark (vehicle_blueprints : list ActorBlueprint)
      (loaded : option Groups) (parking_lines : list ParkingLine) :
  console_blind
    (bindN (print_line (ProcessingLinesLine (length parking_lines)))
           (fun _ =>
              bindN (lines_loop rs sim self vehicle_blueprints loaded
                                (length parking_lines) 0 0 [] parking_lines)
                    (fun all_spawn_data r' =>
                       (Ok (run_vehicles r', all_spawn_data),
                        mkRun (run_rng r') (run_attempts r')
                              (run_console r'
                               ++ [TotalLine (length (run_vehicles r'))])
                              (run_vehicles r'))))).
Proof.
  apply blind_bind; [apply blind_print | intros _].
  apply blind_bind; [apply blind_lines_loop | intros data].
  intros r r' (Hrng & Hatt & Hveh). cbn. rewrite Hveh. now repeat split.
Qed.

(** X29.  A load file that gives nothing is ignored.  With an empty file
    name, a file that does not exist or cannot be read, or a file that
    holds an empty list, [spawn_carpark] ends as it does without load
    file: the same exception, or the same vehicles and spawn data, from
    the same draws and spawn attempts.  Only the console differs. *)
Theorem unusable_file_is_ignored
        (parking_lines : list ParkingLine) (vehicle_filter name : string)
        (r : Run) :
  name = EmptyString \/ read_file name = FileNotFound \/
  read_file name = LoadError \/ read_file name = Loaded [] ->
  same_run (spawn_carpark rs sim self read_file parking_lines vehicle_filter
                          (Some name) r)
           (spawn_carpark rs sim self read_file parking_lines vehicle_filter
                          None r).
Proof.
  intros Hname. unfold spawn_carpark.
  destruct (library_filter sim vehicle_filter) as [| bp lib].
  { split; [reflexivity | now repeat split]. }
  apply same_run_bind. intros [| bp' pool] r1.
  { split; [reflexivity | now repeat split]. }
  apply same_run_bind. intros _ r2.
  destruct (load_groups_unusable name r2 Hname)
    as (x & r3 & Hload & Hsame & Hx).
  unfold bindN at 1. rewrite Hload.
  unfold bindN at 2. unfold load_groups at 1, retN at 1.
  assert (Hsame' : same_but_console r3 r2)
    by (destruct Hsame as (? & ? & ?); now repeat split).
  destruct Hx as [-> | ->].
  - now apply blind_rest_of_carpark.
  - rewrite bindN_ext
      with (k' := fun _ =>
                    bindN (lines_loop rs sim self (bp' :: pool) None
                                      (length parking_lines) 0 0 []
                                      parking_lines)
                          (fun all_spawn_data r' =>
                             (Ok (run_vehicles r', all_spawn_data),
                              mkRun (run_rng r') (run_attempts r')
                                    (run_console r'
                                     ++ [TotalLine
                                           (length (run_vehicles r'))])
                                    (run_vehicles r')))).
    + now apply blind_rest_of_carpark.
    + intros _ r4. unfold bindN. now rewrite lines_loop_empty_dict.
Qed.
End Blind.

Lemma unusable_file_is_ignored_witness :
  same_run
    (spawn_carpark zero_source ready_simulator
                   (prop_static_spawner flat_world) (fun _ => FileNotFound)
                   [east_line] "vehicle.*" (Some "spawns.json") run0)
    (spawn_carpark zero_source ready_simulator
                   (prop_static_spawner flat_world) (fun _ => FileNotFound)
                   [east_line] "vehicle.*" None run0).
Proof.
  apply (unusable_file_is_ignored zero_source ready_simulator
           (prop_static_spawner flat_world) (fun _ => FileNotFound)
           [east_line] "vehicle.*" "spawns.json" run0).
  right. left. reflexivity.
Defined.


End CarparkFacts.
